(** * Cartographer: reconciler, mapper and image-template model

    A shallow embedding of

    - [pkg/templates/cluster_image_template.go] (the image template model),
    - the [registrar] package's [Mapper] (change event -> reconcile requests),
    - the [workload] realizer's error types, and
    - the [runnable] package's [Reconciler],

    followed by the properties established about them.

    Go values are modelled as follows.  Strings are [string]; [int64]
    generations are [Z] (they are only copied and compared); Go maps are
    [gmap]s, a map that may be [nil] is an [option] of a [gmap]; slices are
    lists; a Go [error] is a value of the inductive type [error], whose
    constructor plays the role of the dynamic type; [(T, error)] results are
    sums [error + T].  Collaborators reached through interfaces (repository,
    realizer, tracker, client, logger, evaluator) are records of response
    functions, and every call made on them is recorded in a trace. *)

From Stdlib Require Import ZArith.
From stdpp Require Import base option strings gmap list.

Local Open Scope string_scope.
Local Open Scope list_scope.

(** ** Unstructured content *)

(** [interface{}] values found in unstructured objects. *)
#[warnings="-register-all"]
Inductive Value : Type :=
| VNull
| VBool (b : bool)
| VNumber (n : Z)
| VString (s : string)
| VSlice (l : list Value)
| VMap (m : list (string * Value)).

(** [reflect.DeepEqual] on such values is their equality. *)
Fixpoint Value_eq_dec (x y : Value) {struct x} : {x = y} + {x ≠ y}.
Proof.
  decide equality.
  - apply bool_eq_dec.
  - apply Z.eq_dec.
  - apply String.string_dec.
  - apply List.list_eq_dec, Value_eq_dec.
  - apply List.list_eq_dec. decide equality. apply String.string_dec.
Defined.

#[export] Instance Value_EqDecision : EqDecision Value := Value_eq_dec.

(** [unstructured.Unstructured]: the [Object] field is the content map. *)
Record Unstructured : Type := mkUnstructured {
  Object : option (list (string * Value))
}.

(** [Unstructured.UnstructuredContent]: a nil [Object] reads as an empty
    map. *)
Definition UnstructuredContent (u : Unstructured) : list (string * Value) :=
  match Object u with
  | Some m => m
  | None => []
  end.

(** ** Errors *)

(** [metav1.StatusReason], the reasons the code under study can tell apart. *)
Inductive StatusReason : Type :=
| StatusReasonUnknown
| StatusReasonForbidden
| StatusReasonNotFound
| StatusReasonConflict.

(** Modelled from the spec: the error types of the runnable realizer
    ([realizer.GetRunTemplateError] ... [realizer.RetrieveOutputError], the
    error kinds of section 7), [templates.JsonPathError] and [controller]'s
    unhandled-error wrapper are declared in files that are not among the
    sources; only the fields that the code under study reads are kept.  The
    constructors prefixed [workload_] are the types of the [workload]
    realizer's [errors.go], which is.  [errorString], [StatusError] and
    [wrapError] are the errors of [errors.New], of the API machinery and of
    [fmt.Errorf] with [%w]. *)
Inductive error : Type :=
| errorString (s : string)
| StatusError (reason : StatusReason) (message : string)
| wrapError (msg : string) (err : error)
| unhandledError (err : error)
| JsonPathError (Err : error) (expression : string)
| workload_GetClusterTemplateError (Err : error) (TemplateRefName : string)
| workload_ApplyStampedObjectError (Err : error) (StampedObject : Unstructured)
| workload_StampError (Err : error) (ResourceName : string)
| workload_RetrieveOutputError (Err : error) (ResourceName : string)
    (StampedObject : Unstructured)
| realizer_GetRunTemplateError (Err : error)
| realizer_ResolveSelectorError (Err : error)
| realizer_StampError (Err : error)
| realizer_ApplyStampedObjectError (Err : error)
    (StampedObject : option Unstructured)
| realizer_ListCreatedObjectsError (Err : error)
| realizer_RetrieveOutputError (Err : error)
    (StampedObject : option Unstructured).

(** [fmt.Errorf("<msg>: %w", err)]; [msg] is the rendered prefix. *)
Definition fmt_Errorf (msg : string) (err : error) : error := wrapError msg err.

Module kerrors.

(** [k8s.io/apimachinery/pkg/api/errors.ReasonForError]: the reason of the
    first API status error on the [Unwrap] chain. *)
Fixpoint ReasonForError (err : error) : StatusReason :=
  match err with
  | StatusError reason _ => reason
  | wrapError _ e => ReasonForError e
  | _ => StatusReasonUnknown
  end.

Definition IsForbidden (err : error) : bool :=
  match ReasonForError err with
  | StatusReasonForbidden => true
  | _ => false
  end.

End kerrors.

Module controller.

(** Modelled from the spec: [controller.NewUnhandledError] and
    [controller.IsUnhandledError] are not among the sources.  An unhandled
    error is a distinguished wrapper; the test looks at the dynamic type of
    the error it is given. *)
Definition NewUnhandledError (err : error) : error := unhandledError err.

Definition IsUnhandledError (err : error) : bool :=
  match err with
  | unhandledError _ => true
  | _ => false
  end.

End controller.

(** ** Traced computations *)

(** A computation that returns a value together with the events it caused,
    in program order. *)
Definition Traced (E A : Type) : Type := A * list E.

#[export] Instance Traced_ret {E} : MRet (Traced E) := λ A a, (a, []).
#[export] Instance Traced_bind {E} : MBind (Traced E) :=
  λ A B k m, ((k m.1).1, m.2 ++ (k m.1).2).

Definition emit {E A : Type} (e : E) (answer : A) : Traced E A :=
  (answer, [e]).

(** [for _, x := range xs { requests = append(requests, f(x)...) }]. *)
Fixpoint appendEach {E A B : Type} (f : A → Traced E (list B)) (xs : list A)
    : Traced E (list B) :=
  match xs with
  | [] => mret []
  | x :: xs =>
    reqs ← f x;
    rest ← appendEach f xs;
    mret (reqs ++ rest)
  end.

(** ** Package [templates]: the ClusterImageTemplate model *)

Module templates.

(** [templates.Source] and [templates.Output]; a nil pointer is [None], a
    nil [interface{}] is [VNull]. *)
Record Source : Type := mkSource {
  URL : Value;
  Revision : Value
}.

Record Output : Type := mkOutput {
  Source_ : option Source;
  Image : Value;
  Config : Value
}.

Record ClusterImageTemplateSpec : Type := mkClusterImageTemplateSpec {
  ImagePath : string
}.

Record ClusterImageTemplate : Type := mkClusterImageTemplate {
  Kind : string;
  Name : string;
  Spec : ClusterImageTemplateSpec
}.

(** The [evaluator] interface. *)
Record evaluator : Type := mkEvaluator {
  EvaluateJsonPath : string → list (string * Value) → error + Value
}.

Record clusterImageTemplate : Type := mkModel {
  template : ClusterImageTemplate;
  evaluator_ : evaluator;
  stampedObject : option Unstructured
}.

Definition NewClusterImageTemplateModel (template : ClusterImageTemplate)
    (eval : evaluator) : clusterImageTemplate :=
  {| template := template; evaluator_ := eval; stampedObject := None |}.

Definition GetKind (t : clusterImageTemplate) : string := Kind (template t).

Definition GetName (t : clusterImageTemplate) : string := Name (template t).

(** [SetInputs] ignores its argument. *)
Definition SetInputs {Inputs : Type} (t : clusterImageTemplate) (_ : Inputs)
    : clusterImageTemplate := t.

Definition SetStampedObject (t : clusterImageTemplate)
    (obj : option Unstructured) : clusterImageTemplate :=
  {| template := template t; evaluator_ := evaluator_ t;
     stampedObject := obj |}.

(** [GetOutput].  The outer [option] is [None] when the call panics: the
    stamped object is dereferenced without a nil check. *)
Definition GetOutput (t : clusterImageTemplate)
    : option (option Output * option error) :=
  match stampedObject t with
  | None => None
  | Some obj =>
    let path := ImagePath (Spec (template t)) in
    match EvaluateJsonPath (evaluator_ t) path (UnstructuredContent obj) with
    | inl err =>
      Some (None,
            Some (JsonPathError
                    (fmt_Errorf
                       ("failed to evaluate the url path [" +:+ path +:+ "]")
                       err)
                    path))
    | inr image =>
      Some (Some {| Source_ := None; Image := image; Config := VNull |},
            None)
    end
  end.

(** An evaluator for examples: it reads a top-level string field named by
    the path and fails on every other path. *)
Definition fake_evaluator : evaluator :=
  {| EvaluateJsonPath := λ path content,
       match list_find (λ kv, kv.1 = path) content with
       | Some (_, (_, v)) => inr v
       | None => inl (errorString ("evaluate: find results: " +:+ path))
       end |}.

Definition fake_template : ClusterImageTemplate :=
  {| Kind := "ClusterImageTemplate"; Name := "kpack";
     Spec := {| ImagePath := "latestImage" |} |}.

(** *** Vocabulary of the further properties *)

(** The calls that change a model, and a model after a sequence of them. *)
Inductive Setter : Type :=
| CallSetInputs
| CallSetStampedObject (stampedObject : option Unstructured).

Definition perform (t : clusterImageTemplate) (c : Setter)
    : clusterImageTemplate :=
  match c with
  | CallSetInputs => SetInputs t ()
  | CallSetStampedObject stampedObject => SetStampedObject t stampedObject
  end.

(** The argument of the last [SetStampedObject] among the calls, nil when
    there is none. *)
Definition lastStamped (calls : list Setter) : option Unstructured :=
  foldl (λ last c, match c with
                   | CallSetInputs => last
                   | CallSetStampedObject stampedObject => stampedObject
                   end) None calls.

End templates.

(** ** Package [workload]: realizer errors *)

Module workload.

(** Modelled from the spec: the [JsonPathExpression] method of
    [templates.JsonPathError] is not among the sources; the error carries
    the JSONPath for diagnostics (section 4.4), in its [expression] field.
    The function is the method lookup behind the type assertion
    [e.Err.(JsonPathErrorContext)]: [Some] of the method's result when the
    dynamic type of the error has the method, which [RetrieveOutputError]
    itself does. *)
Fixpoint JsonPathErrorContext (err : error) : option string :=
  match err with
  | JsonPathError _ expression => Some expression
  | workload_RetrieveOutputError Err _ _ =>
    Some (match JsonPathErrorContext Err with
          | Some s => s
          | None => "<no jsonpath context>"
          end)
  | _ => None
  end.

(** [RetrieveOutputError.JsonPathExpression], on the [Err] field. *)
Definition JsonPathExpression (Err : error) : string :=
  match JsonPathErrorContext Err with
  | Some s => s
  | None => "<no jsonpath context>"
  end.

(** [err] inside the [RetrieveOutputError]s of the given resources and
    stamped objects, outermost first. *)
Definition nested (wraps : list (string * Unstructured)) (err : error)
    : error :=
  foldr (λ w e, workload_RetrieveOutputError e w.1 w.2) err wraps.

End workload.

(** ** Package [registrar]: the mapper *)

Module registrar.

(** *** API objects

    The API types are declared outside the sources.  An object is kept as
    the fields the mapper reads and, for the supply chains and deliveries,
    which the mapper compares with [reflect.DeepEqual], a field [Unread]
    with the content of all the rest: the other metadata (resource
    version, generation, annotations, ...), the parameters, the status,
    and whether a map or slice that the mapper reads is nil or empty.
    [reflect.DeepEqual] on two such objects is then equality of the
    records: the objects agree on what the mapper reads and on what it
    does not. *)

Record GroupVersionKind : Type := mkGVK {
  Group : string;
  Version : string;
  GVK_Kind : string
}.

Record TypeMeta : Type := mkTypeMeta {
  Kind : string;
  APIVersion : string
}.

Record ObjectMeta : Type := mkObjectMeta {
  Name : string;
  Namespace : string;
  Labels : gmap string string
}.

(** [ClusterTemplateReference] and its delivery twin. *)
Record TemplateReference : Type := mkTemplateReference {
  Ref_Kind : string;
  Ref_Name : string
}.

(** [SupplyChainResource] / [DeliveryClusterTemplateReference] holder. *)
Record Resource : Type := mkResource {
  Resource_Name : string;
  TemplateRef : TemplateReference
}.

Record ServiceAccountRef : Type := mkServiceAccountRef {
  SARef_Name : string;
  SARef_Namespace : string
}.

Record SupplyChainSpec : Type := mkSupplyChainSpec {
  sc_Resources : list Resource;
  sc_Selector : gmap string string;
  sc_ServiceAccountRef : ServiceAccountRef
}.

Record ClusterSupplyChain : Type := mkClusterSupplyChain {
  sc_TypeMeta : TypeMeta;
  sc_ObjectMeta : ObjectMeta;
  sc_Spec : SupplyChainSpec;
  sc_Unread : list (string * Value)
}.

Record DeliverySpec : Type := mkDeliverySpec {
  d_Resources : list Resource;
  d_Selector : gmap string string;
  d_ServiceAccountRef : ServiceAccountRef
}.

Record ClusterDelivery : Type := mkClusterDelivery {
  d_TypeMeta : TypeMeta;
  d_ObjectMeta : ObjectMeta;
  d_Spec : DeliverySpec;
  d_Unread : list (string * Value)
}.

Record Workload : Type := mkWorkload {
  wl_TypeMeta : TypeMeta;
  wl_ObjectMeta : ObjectMeta;
  wl_ServiceAccountName : string
}.

Record Deliverable : Type := mkDeliverable {
  dv_TypeMeta : TypeMeta;
  dv_ObjectMeta : ObjectMeta;
  dv_ServiceAccountName : string
}.

Record Runnable : Type := mkRunnable {
  rn_TypeMeta : TypeMeta;
  rn_ObjectMeta : ObjectMeta;
  rn_RunTemplateRef : TemplateReference;
  rn_ServiceAccountName : string
}.

Record ClusterRunTemplate : Type := mkClusterRunTemplate {
  rt_TypeMeta : TypeMeta;
  rt_ObjectMeta : ObjectMeta
}.

Record ServiceAccount : Type := mkServiceAccount {
  sa_TypeMeta : TypeMeta;
  sa_ObjectMeta : ObjectMeta
}.

(** [rbacv1.Subject] and [rbacv1.RoleRef]. *)
Record Subject : Type := mkSubject {
  Subject_Kind : string;
  Subject_APIGroup : string;
  Subject_Name : string;
  Subject_Namespace : string
}.

Record RoleRef : Type := mkRoleRef {
  RoleRef_APIGroup : string;
  RoleRef_Kind : string;
  RoleRef_Name : string
}.

Record RoleBinding : Type := mkRoleBinding {
  rb_TypeMeta : TypeMeta;
  rb_ObjectMeta : ObjectMeta;
  rb_Subjects : list Subject;
  rb_RoleRef : RoleRef
}.

Record ClusterRoleBinding : Type := mkClusterRoleBinding {
  crb_TypeMeta : TypeMeta;
  crb_ObjectMeta : ObjectMeta;
  crb_Subjects : list Subject;
  crb_RoleRef : RoleRef
}.

Record Role : Type := mkRole {
  role_TypeMeta : TypeMeta;
  role_ObjectMeta : ObjectMeta
}.

Record ClusterRole : Type := mkClusterRole {
  crole_TypeMeta : TypeMeta;
  crole_ObjectMeta : ObjectMeta
}.

#[export] Instance TypeMeta_eq_dec : EqDecision TypeMeta.
Proof. solve_decision. Defined.
#[export] Instance ObjectMeta_eq_dec : EqDecision ObjectMeta.
Proof. solve_decision. Defined.
#[export] Instance TemplateReference_eq_dec : EqDecision TemplateReference.
Proof. solve_decision. Defined.
#[export] Instance Resource_eq_dec : EqDecision Resource.
Proof. solve_decision. Defined.
#[export] Instance ServiceAccountRef_eq_dec : EqDecision ServiceAccountRef.
Proof. solve_decision. Defined.
#[export] Instance SupplyChainSpec_eq_dec : EqDecision SupplyChainSpec.
Proof. solve_decision. Defined.
#[export] Instance ClusterSupplyChain_eq_dec : EqDecision ClusterSupplyChain.
Proof. solve_decision. Defined.
#[export] Instance DeliverySpec_eq_dec : EqDecision DeliverySpec.
Proof. solve_decision. Defined.
#[export] Instance ClusterDelivery_eq_dec : EqDecision ClusterDelivery.
Proof. solve_decision. Defined.

(** [client.Object] values, by dynamic type; [ObjOther] stands for every
    type the mapper never asserts, the five template kinds among them. *)
Inductive Object : Type :=
| ObjClusterSupplyChain (o : ClusterSupplyChain)
| ObjClusterDelivery (o : ClusterDelivery)
| ObjClusterRunTemplate (o : ClusterRunTemplate)
| ObjServiceAccount (o : ServiceAccount)
| ObjRoleBinding (o : RoleBinding)
| ObjClusterRoleBinding (o : ClusterRoleBinding)
| ObjRole (o : Role)
| ObjClusterRole (o : ClusterRole)
| ObjOther (goType : string) (tm : TypeMeta) (om : ObjectMeta).

(** The Go type of an object, which is what the scheme is asked about. *)
Inductive GoType : Type :=
| TClusterSupplyChain
| TClusterDelivery
| TClusterRunTemplate
| TServiceAccount
| TRoleBinding
| TClusterRoleBinding
| TRole
| TClusterRole
| TOther (name : string).

(** [schema.GroupVersion.String] and [TypeMeta.SetGroupVersionKind]. *)
Definition GroupVersion_String (gvk : GroupVersionKind) : string :=
  if bool_decide (Group gvk = "") then Version gvk
  else Group gvk +:+ "/" +:+ Version gvk.

Definition TypeMeta_of (gvk : GroupVersionKind) : TypeMeta :=
  {| Kind := GVK_Kind gvk; APIVersion := GroupVersion_String gvk |}.

(** The part of the [client.Object] interface that the mapper calls. *)
Class ClientObject (A : Type) : Type := {
  GoTypeOf : A → GoType;
  GetObjectMeta : A → ObjectMeta;
  GetTypeMeta : A → TypeMeta;
  SetTypeMeta : A → TypeMeta → A
}.

Definition GetName `{ClientObject A} (obj : A) : string :=
  Name (GetObjectMeta obj).
Definition GetNamespace `{ClientObject A} (obj : A) : string :=
  Namespace (GetObjectMeta obj).
Definition SetGroupVersionKind `{ClientObject A} (obj : A)
    (gvk : GroupVersionKind) : A :=
  SetTypeMeta obj (TypeMeta_of gvk).

#[export] Instance ClusterSupplyChain_Object
  : ClientObject ClusterSupplyChain :=
  {| GoTypeOf := λ _, TClusterSupplyChain;
     GetObjectMeta := sc_ObjectMeta;
     GetTypeMeta := sc_TypeMeta;
     SetTypeMeta := λ o tm,
       {| sc_TypeMeta := tm; sc_ObjectMeta := sc_ObjectMeta o;
          sc_Spec := sc_Spec o; sc_Unread := sc_Unread o |} |}.

#[export] Instance ClusterDelivery_Object : ClientObject ClusterDelivery :=
  {| GoTypeOf := λ _, TClusterDelivery;
     GetObjectMeta := d_ObjectMeta;
     GetTypeMeta := d_TypeMeta;
     SetTypeMeta := λ o tm,
       {| d_TypeMeta := tm; d_ObjectMeta := d_ObjectMeta o;
          d_Spec := d_Spec o; d_Unread := d_Unread o |} |}.

#[export] Instance ServiceAccount_Object : ClientObject ServiceAccount :=
  {| GoTypeOf := λ _, TServiceAccount;
     GetObjectMeta := sa_ObjectMeta;
     GetTypeMeta := sa_TypeMeta;
     SetTypeMeta := λ o tm,
       {| sa_TypeMeta := tm; sa_ObjectMeta := sa_ObjectMeta o |} |}.

#[export] Instance Object_Object : ClientObject Object :=
  {| GoTypeOf := λ obj,
       match obj with
       | ObjClusterSupplyChain _ => TClusterSupplyChain
       | ObjClusterDelivery _ => TClusterDelivery
       | ObjClusterRunTemplate _ => TClusterRunTemplate
       | ObjServiceAccount _ => TServiceAccount
       | ObjRoleBinding _ => TRoleBinding
       | ObjClusterRoleBinding _ => TClusterRoleBinding
       | ObjRole _ => TRole
       | ObjClusterRole _ => TClusterRole
       | ObjOther name _ _ => TOther name
       end;
     GetObjectMeta := λ obj,
       match obj with
       | ObjClusterSupplyChain o => sc_ObjectMeta o
       | ObjClusterDelivery o => d_ObjectMeta o
       | ObjClusterRunTemplate o => rt_ObjectMeta o
       | ObjServiceAccount o => sa_ObjectMeta o
       | ObjRoleBinding o => rb_ObjectMeta o
       | ObjClusterRoleBinding o => crb_ObjectMeta o
       | ObjRole o => role_ObjectMeta o
       | ObjClusterRole o => crole_ObjectMeta o
       | ObjOther _ _ om => om
       end;
     GetTypeMeta := λ obj,
       match obj with
       | ObjClusterSupplyChain o => sc_TypeMeta o
       | ObjClusterDelivery o => d_TypeMeta o
       | ObjClusterRunTemplate o => rt_TypeMeta o
       | ObjServiceAccount o => sa_TypeMeta o
       | ObjRoleBinding o => rb_TypeMeta o
       | ObjClusterRoleBinding o => crb_TypeMeta o
       | ObjRole o => role_TypeMeta o
       | ObjClusterRole o => crole_TypeMeta o
       | ObjOther _ tm _ => tm
       end;
     SetTypeMeta := λ obj tm,
       match obj with
       | ObjClusterSupplyChain o => ObjClusterSupplyChain (SetTypeMeta o tm)
       | ObjClusterDelivery o => ObjClusterDelivery (SetTypeMeta o tm)
       | ObjClusterRunTemplate o =>
         ObjClusterRunTemplate
           {| rt_TypeMeta := tm; rt_ObjectMeta := rt_ObjectMeta o |}
       | ObjServiceAccount o => ObjServiceAccount (SetTypeMeta o tm)
       | ObjRoleBinding o =>
         ObjRoleBinding
           {| rb_TypeMeta := tm; rb_ObjectMeta := rb_ObjectMeta o;
              rb_Subjects := rb_Subjects o; rb_RoleRef := rb_RoleRef o |}
       | ObjClusterRoleBinding o =>
         ObjClusterRoleBinding
           {| crb_TypeMeta := tm; crb_ObjectMeta := crb_ObjectMeta o;
              crb_Subjects := crb_Subjects o; crb_RoleRef := crb_RoleRef o |}
       | ObjRole o =>
         ObjRole {| role_TypeMeta := tm; role_ObjectMeta := role_ObjectMeta o |}
       | ObjClusterRole o =>
         ObjClusterRole
           {| crole_TypeMeta := tm; crole_ObjectMeta := crole_ObjectMeta o |}
       | ObjOther name _ om => ObjOther name tm om
       end |}.

(** [reconcile.Request]: a namespaced name. *)
Record Request : Type := mkRequest {
  Request_Name : string;
  Request_Namespace : string
}.

#[export] Instance Request_eq_dec : EqDecision Request.
Proof. solve_decision. Defined.
#[export] Instance Request_countable : Countable Request :=
  inj_countable' (λ r, (Request_Name r, Request_Namespace r))
                 (λ p, {| Request_Name := p.1; Request_Namespace := p.2 |})
                 (λ r, match r with mkRequest _ _ => eq_refl end).

(** *** The client *)

(** [client.InNamespace] and [client.MatchingLabels]; the zero value is a
    [List] call without options. *)
Record ListOptions : Type := mkListOptions {
  InNamespace : string;
  MatchingLabels : gmap string string
}.

Definition noOptions : ListOptions :=
  {| InNamespace := ""; MatchingLabels := ∅ |}.

Inductive ListKind : Type :=
| KClusterSupplyChain
| KClusterDelivery
| KWorkload
| KDeliverable
| KRunnable
| KRoleBinding
| KClusterRoleBinding.

(** [types.NamespacedName] as [client.ObjectKey]. *)
Record ObjectKey : Type := mkObjectKey {
  Key_Namespace : string;
  Key_Name : string
}.

(** The API server as the client shows it: the objects of every listed
    kind, the error (if any) with which a [List] of a kind under given
    options fails, the answer to a [Get] of a service account, and the
    scheme's answer to [ObjectKinds] for a Go type.  A [Get] fills the
    object it is handed: its answer is the service account found or, when
    it fails, the error together with what the call has left in that
    object, which the caller had handed in empty. *)
Record Client : Type := mkClient {
  ClusterSupplyChains : list ClusterSupplyChain;
  ClusterDeliveries : list ClusterDelivery;
  Workloads : list Workload;
  Deliverables : list Deliverable;
  Runnables : list Runnable;
  RoleBindings : list RoleBinding;
  ClusterRoleBindings : list ClusterRoleBinding;
  ListError : ListKind → ListOptions → option error;
  GetServiceAccount : ObjectKey → error * ServiceAccount + ServiceAccount;
  Scheme_ObjectKinds : GoType → error + (list GroupVersionKind * bool)
}.

(** Calls on the client and on the logger. *)
Inductive Event : Type :=
| ListCall (kind : ListKind) (opts : ListOptions) (err : option error)
| GetCall (key : ObjectKey) (err : option error)
| LoggerError (err : option error) (msg : string).

Abbreviation M := (Traced Event).

(** [Logger.Error(err, msg)]. *)
Definition Logger_Error (err : option error) (msg : string) : M unit :=
  emit (LoggerError err msg) ().

(** A label set satisfies a selector when it carries every pair of it. *)
Definition labelsMatch (selector labels : gmap string string) : Prop :=
  map_Forall (λ k v, labels !! k = Some v) selector.

#[export] Instance labelsMatch_dec selector labels :
  Decision (labelsMatch selector labels).
Proof. unfold labelsMatch. apply _. Defined.

(** The objects a [List] under [opts] selects: those in the namespace (all
    namespaces when it is empty) whose labels carry the matching labels. *)
Definition selects (opts : ListOptions) (om : ObjectMeta) : bool :=
  bool_decide (InNamespace opts = "" ∨ Namespace om = InNamespace opts)
  && bool_decide (labelsMatch (MatchingLabels opts) (Labels om)).

Definition Client_List {A : Type} (c : Client) (kind : ListKind)
    (items : list A) (meta : A → ObjectMeta) (opts : ListOptions)
    : M (error + list A) :=
  match ListError c kind opts with
  | Some err => emit (ListCall kind opts (Some err)) (inl err)
  | None =>
    emit (ListCall kind opts None)
         (inr (filter (λ x, selects opts (meta x) = true) items))
  end.

(** [Client.Get] of a service account, into an empty object. *)
Definition Client_Get (c : Client) (key : ObjectKey)
    : M (error * ServiceAccount + ServiceAccount) :=
  match GetServiceAccount c key with
  | inl (err, object) => emit (GetCall key (Some err)) (inl (err, object))
  | inr sa => emit (GetCall key None) (inr sa)
  end.

(** [repository.BestLabelMatches] is not among the sources: the mapper
    takes it as a parameter, from the selector getter, the labels of the
    intent and the candidates to the best matches. *)
Class LabelMatcher : Type :=
  BestLabelMatches :
    ∀ {A : Type}, (A → gmap string string) → gmap string string →
                  list A → list A.

(** Modelled from the spec: [repository.BestLabelMatches] after section
    4.1.  A blueprint matches iff its selector evaluates true on the
    intent's labels; the best matches are the matching blueprints whose
    selector has the largest number of requirements. *)
Definition mostSpecific {A : Type} (GetSelector : A → gmap string string)
    (labels : gmap string string) (selectors : list A) : list A :=
  let matching :=
    filter (λ s, labelsMatch (GetSelector s) labels) selectors in
  let most := max_list_with (λ s, size (GetSelector s)) matching in
  filter (λ s, size (GetSelector s) = most) matching.

(** *** The mapper

    The receiver [mapper] is the client; the logger is the trace.  A result
    is the slice returned; a nil and an empty slice are both [[]]. *)

Section Mapper.
Context `{!LabelMatcher}.

Definition requestFor (om : ObjectMeta) : Request :=
  {| Request_Name := Name om; Request_Namespace := Namespace om |}.

(** [addGVK]: on success the object carries the single kind the scheme
    knows for its type. *)
Definition addGVK `{ClientObject A} (mapper : Client) (obj : A) : error + A :=
  match Scheme_ObjectKinds mapper (GoTypeOf obj) with
  | inl err =>
    inl (fmt_Errorf ("missing apiVersion or kind: " +:+ GetName obj +:+ " err")
                    err)
  | inr (gvks, unversioned) =>
    if unversioned : bool
    then inl (errorString ("unversioned object: " +:+ GetName obj))
    else match gvks with
         | [gvk] => inr (SetGroupVersionKind obj gvk)
         | _ => inl (errorString ("unexpected GVK count: " +:+ GetName obj))
         end
  end.

Definition refersTo (templateKind templateName : string) (res : Resource)
    : bool :=
  bool_decide (Ref_Kind (TemplateRef res) = templateKind
               ∧ Ref_Name (TemplateRef res) = templateName).

Definition templateToSupplyChains (mapper : Client) (template : Object)
    : M (list ClusterSupplyChain) :=
  let templateName := GetName template in
  match addGVK mapper template with
  | inl err =>
    Logger_Error (Some err)
      ("could not get GVK for template: " +:+ templateName);;
    mret []
  | inr template =>
    list ← Client_List mapper KClusterSupplyChain (ClusterSupplyChains mapper)
                       sc_ObjectMeta noOptions;
    match list with
    | inl err =>
      Logger_Error (Some err) "list ClusterSupplyChains";;
      mret []
    | inr items =>
      let templateKind := Kind (GetTypeMeta template) in
      mret (flat_map
              (λ sc, flat_map
                       (λ res, if refersTo templateKind templateName res
                               then [sc] else [])
                       (sc_Resources (sc_Spec sc)))
              items)
    end
  end.

(** [clusterSupplyChainToWorkloads].  [sc] is the mapper's own copy of the
    object, on which [addGVK] sets the kind;
    [reflect.DeepEqual(matchingSC, &sc)] compares a best match, as the
    listing returned it, with that copy, whole object against whole
    object. *)
Definition clusterSupplyChainToWorkloads (mapper : Client)
    (sc : ClusterSupplyChain) : M (error + list Workload) :=
  match addGVK mapper sc with
  | inl err =>
    Logger_Error (Some err)
      ("could not get GVK for supply chain: " +:+ GetName sc);;
    mret (inl err)
  | inr sc =>
    scList ← Client_List mapper KClusterSupplyChain
                         (ClusterSupplyChains mapper) sc_ObjectMeta noOptions;
    match scList with
    | inl err =>
      Logger_Error (Some err)
        "cluster supply chain to workloads: client list supply chains";;
      mret (inl err)
    | inr selectorGetters =>
      workloadList ←
        Client_List mapper KWorkload (Workloads mapper) wl_ObjectMeta
          {| InNamespace := GetNamespace sc;
             MatchingLabels := sc_Selector (sc_Spec sc) |};
      match workloadList with
      | inl err =>
        Logger_Error (Some err)
          "cluster supply chain to workloads: client list workloads";;
        mret (inl err)
      | inr items =>
        mret (inr (flat_map
                     (λ wl, flat_map
                              (λ matchingSC,
                                 if bool_decide (matchingSC = sc)
                                 then [wl] else [])
                              (BestLabelMatches (λ s, sc_Selector (sc_Spec s))
                                 (Labels (wl_ObjectMeta wl)) selectorGetters))
                     items))
      end
    end
  end.

Definition ClusterSupplyChainToWorkloadRequests (mapper : Client)
    (object : Object) : M (list Request) :=
  match object with
  | ObjClusterSupplyChain supplyChain =>
    workloads ← clusterSupplyChainToWorkloads mapper supplyChain;
    match workloads with
    | inl err =>
      Logger_Error (Some err) "cluster supply chain to workload requests";;
      mret []
    | inr workloads => mret ((requestFor ∘ wl_ObjectMeta) <$> workloads)
    end
  | _ =>
    Logger_Error None
      "cluster supply chain to workload requests: cast to ClusterSupplyChain failed";;
    mret []
  end.

Definition TemplateToWorkloadRequests (mapper : Client) (template : Object)
    : M (list Request) :=
  supplyChains ← templateToSupplyChains mapper template;
  appendEach (λ supplyChain,
                ClusterSupplyChainToWorkloadRequests mapper
                  (ObjClusterSupplyChain supplyChain))
             supplyChains.

Definition TemplateToSupplyChainRequests (mapper : Client) (template : Object)
    : M (list Request) :=
  supplyChains ← templateToSupplyChains mapper template;
  mret ((λ supplyChain,
           {| Request_Name := GetName supplyChain; Request_Namespace := "" |})
        <$> supplyChains).

Definition templateToDeliveries (mapper : Client) (template : Object)
    : M (list ClusterDelivery) :=
  let templateName := GetName template in
  match addGVK mapper template with
  | inl err =>
    Logger_Error (Some err)
      ("could not get GVK for template: " +:+ templateName);;
    mret []
  | inr template =>
    list ← Client_List mapper KClusterDelivery (ClusterDeliveries mapper)
                       d_ObjectMeta noOptions;
    match list with
    | inl err =>
      Logger_Error (Some err) "list ClusterDeliveries";;
      mret []
    | inr items =>
      let templateKind := Kind (GetTypeMeta template) in
      mret (flat_map
              (λ delivery, flat_map
                             (λ res, if refersTo templateKind templateName res
                                     then [delivery] else [])
                             (d_Resources (d_Spec delivery)))
              items)
    end
  end.

(** [clusterDeliveryToDeliverables], with
    [reflect.DeepEqual(matchingDelivery, &d)] as above. *)
Definition clusterDeliveryToDeliverables (mapper : Client)
    (d : ClusterDelivery) : M (error + list Deliverable) :=
  match addGVK mapper d with
  | inl err =>
    Logger_Error (Some err) ("could not get GVK for delivery: " +:+ GetName d);;
    mret (inl err)
  | inr d =>
    deliveryList ← Client_List mapper KClusterDelivery
                               (ClusterDeliveries mapper) d_ObjectMeta
                               noOptions;
    match deliveryList with
    | inl err =>
      Logger_Error (Some err)
        "cluster delivery to deliverables: client list deliveries";;
      mret (inl err)
    | inr selectorGetters =>
      deliverableList ←
        Client_List mapper KDeliverable (Deliverables mapper) dv_ObjectMeta
          {| InNamespace := GetNamespace d;
             MatchingLabels := d_Selector (d_Spec d) |};
      match deliverableList with
      | inl err =>
        Logger_Error (Some err)
          "cluster delivery to deliverables: client list deliverables";;
        mret (inl err)
      | inr items =>
        mret (inr (flat_map
                     (λ deliverable,
                        flat_map
                          (λ matchingDelivery,
                             if bool_decide (matchingDelivery = d)
                             then [deliverable] else [])
                          (BestLabelMatches (λ s, d_Selector (d_Spec s))
                             (Labels (dv_ObjectMeta deliverable))
                             selectorGetters))
                     items))
      end
    end
  end.

Definition ClusterDeliveryToDeliverableRequests (mapper : Client)
    (object : Object) : M (list Request) :=
  match object with
  | ObjClusterDelivery delivery =>
    deliverables ← clusterDeliveryToDeliverables mapper delivery;
    match deliverables with
    | inl err =>
      Logger_Error (Some err) "cluster delivery to deliverable requests";;
      mret []
    | inr deliverables => mret ((requestFor ∘ dv_ObjectMeta) <$> deliverables)
    end
  | _ =>
    Logger_Error None
      "cluster delivery to deliverable requests: cast to ClusterDelivery failed";;
    mret []
  end.

Definition TemplateToDeliverableRequests (mapper : Client) (template : Object)
    : M (list Request) :=
  deliveries ← templateToDeliveries mapper template;
  appendEach (λ delivery,
                ClusterDeliveryToDeliverableRequests mapper
                  (ObjClusterDelivery delivery))
             deliveries.

Definition TemplateToDeliveryRequests (mapper : Client) (template : Object)
    : M (list Request) :=
  deliveries ← templateToDeliveries mapper template;
  mret ((λ delivery,
           {| Request_Name := GetName delivery; Request_Namespace := "" |})
        <$> deliveries).

Definition runTemplateRefMatch (ref : TemplateReference)
    (runTemplate : ClusterRunTemplate) : bool :=
  if bool_decide (Ref_Name ref ≠ Name (rt_ObjectMeta runTemplate)) then false
  else bool_decide (Ref_Kind ref = "ClusterRunTemplate")
       || bool_decide (Ref_Kind ref = "").

Definition RunTemplateToRunnableRequests (mapper : Client) (object : Object)
    : M (list Request) :=
  match object with
  | ObjClusterRunTemplate runTemplate =>
    list ← Client_List mapper KRunnable (Runnables mapper) rn_ObjectMeta
                       noOptions;
    match list with
    | inl err =>
      Logger_Error (Some (fmt_Errorf "client list" err))
        "run template to runnable requests: client list";;
      mret []
    | inr items =>
      mret ((requestFor ∘ rn_ObjectMeta)
            <$> filter (λ runnable,
                          runTemplateRefMatch (rn_RunTemplateRef runnable)
                                              runTemplate = true)
                       items)
    end
  | _ =>
    Logger_Error None
      "run template to runnable requests: cast to run template failed";;
    mret []
  end.

(** **** Service accounts and RBAC objects to workloads *)

Definition serviceAccountToSupplyChains (mapper : Client)
    (serviceAccountObject : Object) : M (list ClusterSupplyChain) :=
  list ← Client_List mapper KClusterSupplyChain (ClusterSupplyChains mapper)
                     sc_ObjectMeta noOptions;
  match list with
  | inl err =>
    Logger_Error (Some err)
      "service account to supply chains: list supply chains";;
    mret []
  | inr items =>
    mret (filter (λ sc, SARef_Name (sc_ServiceAccountRef (sc_Spec sc))
                        = GetName serviceAccountObject)
                 items)
  end.

(** The first loop of [ServiceAccountToWorkloadRequests]: the workloads
    that name the service account themselves. *)
Definition directWorkloads (serviceAccountObject : Object)
    (items : list Workload) : gset Request :=
  foldl (λ requestMap workload,
           if bool_decide
                (Namespace (wl_ObjectMeta workload)
                   = GetNamespace serviceAccountObject
                 ∧ wl_ServiceAccountName workload
                   = GetName serviceAccountObject)
           then {[ requestFor (wl_ObjectMeta workload) ]} ∪ requestMap
           else requestMap)
        ∅ items.

(** The body of the loop over the workloads of one supply chain. *)
Definition addIndirectWorkload (serviceAccountObject : Object)
    (sc : ClusterSupplyChain) (requestMap : gset Request)
    (workload : Workload) : gset Request :=
  if bool_decide (wl_ServiceAccountName workload ≠ "") then requestMap
  else if bool_decide
            (SARef_Namespace (sc_ServiceAccountRef (sc_Spec sc))
               = GetNamespace serviceAccountObject
             ∨ (SARef_Namespace (sc_ServiceAccountRef (sc_Spec sc)) = ""
                ∧ Namespace (wl_ObjectMeta workload)
                  = GetNamespace serviceAccountObject))
       then {[ requestFor (wl_ObjectMeta workload) ]} ∪ requestMap
       else requestMap.

(** The loop over the supply chains; [None] is the early [return nil]. *)
Fixpoint indirectWorkloads (mapper : Client) (serviceAccountObject : Object)
    (supplyChains : list ClusterSupplyChain) (requestMap : gset Request)
    : M (option (gset Request)) :=
  match supplyChains with
  | [] => mret (Some requestMap)
  | sc :: supplyChains =>
    scWorkloads ← clusterSupplyChainToWorkloads mapper sc;
    match scWorkloads with
    | inl err =>
      Logger_Error (Some err) "service account to workload requests";;
      mret None
    | inr scWorkloads =>
      indirectWorkloads mapper serviceAccountObject supplyChains
        (foldl (addIndirectWorkload serviceAccountObject sc) requestMap
               scWorkloads)
    end
  end.

Definition ServiceAccountToWorkloadRequests (mapper : Client)
    (serviceAccountObject : Object) : M (list Request) :=
  list ← Client_List mapper KWorkload (Workloads mapper) wl_ObjectMeta
                     noOptions;
  match list with
  | inl err =>
    Logger_Error (Some (fmt_Errorf "client list" err))
      "service account to workload requests: list workloads";;
    mret []
  | inr items =>
    let requestMap := directWorkloads serviceAccountObject items in
    supplyChains ← serviceAccountToSupplyChains mapper serviceAccountObject;
    requestMap ← indirectWorkloads mapper serviceAccountObject supplyChains
                                   requestMap;
    match requestMap with
    | None => mret []
    | Some requestMap => mret (elements requestMap)
    end
  end.

(** The first subject that is a service account of the core API group. *)
Definition isServiceAccount (subject : Subject) : Prop :=
  Subject_APIGroup subject = "" ∧ Subject_Kind subject = "ServiceAccount".

#[export] Instance isServiceAccount_dec subject :
  Decision (isServiceAccount subject).
Proof. unfold isServiceAccount. apply _. Defined.

Definition serviceAccountKey (subject : Subject) : ObjectKey :=
  {| Key_Namespace := Subject_Namespace subject;
     Key_Name := Subject_Name subject |}.

(** [&corev1.ServiceAccount{}], the object handed to [Get]. *)
Definition emptyServiceAccount : ServiceAccount :=
  {| sa_TypeMeta := {| Kind := ""; APIVersion := "" |};
     sa_ObjectMeta := {| Name := ""; Namespace := ""; Labels := ∅ |} |}.

Definition RoleBindingToWorkloadRequests (mapper : Client)
    (roleBindingObject : Object) : M (list Request) :=
  match roleBindingObject with
  | ObjRoleBinding roleBinding =>
    match find (λ subject, bool_decide (isServiceAccount subject))
               (rb_Subjects roleBinding) with
    | Some subject =>
      got ← Client_Get mapper (serviceAccountKey subject);
      match got with
      | inl (err, serviceAccountObject) =>
        Logger_Error (Some (fmt_Errorf "client get" err))
          "role binding to workload requests: get service account";;
        ServiceAccountToWorkloadRequests mapper
          (ObjServiceAccount serviceAccountObject)
      | inr serviceAccountObject =>
        ServiceAccountToWorkloadRequests mapper
          (ObjServiceAccount serviceAccountObject)
      end
    | None => mret []
    end
  | _ =>
    Logger_Error None
      "role binding to workload requests: cast to RoleBinding failed";;
    mret []
  end.

Definition ClusterRoleBindingToWorkloadRequests (mapper : Client)
    (clusterRoleBindingObject : Object) : M (list Request) :=
  match clusterRoleBindingObject with
  | ObjClusterRoleBinding clusterRoleBinding =>
    match find (λ subject, bool_decide (isServiceAccount subject))
               (crb_Subjects clusterRoleBinding) with
    | Some subject =>
      got ← Client_Get mapper (serviceAccountKey subject);
      match got with
      | inl (err, _) =>
        Logger_Error (Some (fmt_Errorf "client get" err))
          "cluster role binding to workload requests: get service account";;
        mret []
      | inr serviceAccountObject =>
        ServiceAccountToWorkloadRequests mapper
          (ObjServiceAccount serviceAccountObject)
      end
    | None => mret []
    end
  | _ =>
    Logger_Error None
      "cluster role binding to workload requests: cast to ClusterRoleBinding failed";;
    mret []
  end.

(** The tests on a binding's [RoleRef]. *)
Definition bindsRole (role : Role) (roleBinding : RoleBinding) : bool :=
  bool_decide (RoleRef_APIGroup (rb_RoleRef roleBinding) = ""
               ∧ RoleRef_Kind (rb_RoleRef roleBinding) = "Role"
               ∧ RoleRef_Name (rb_RoleRef roleBinding)
                 = Name (role_ObjectMeta role)
               ∧ Namespace (rb_ObjectMeta roleBinding)
                 = Namespace (role_ObjectMeta role)).

Definition bindsClusterRole (clusterRole : ClusterRole) (roleRef : RoleRef)
    : bool :=
  bool_decide (RoleRef_APIGroup roleRef = ""
               ∧ RoleRef_Kind roleRef = "ClusterRole"
               ∧ RoleRef_Name roleRef = Name (crole_ObjectMeta clusterRole)).

Definition RoleToWorkloadRequests (mapper : Client) (roleObject : Object)
    : M (list Request) :=
  match roleObject with
  | ObjRole role =>
    list ← Client_List mapper KRoleBinding (RoleBindings mapper) rb_ObjectMeta
                       noOptions;
    match list with
    | inl err =>
      Logger_Error (Some (fmt_Errorf "client list" err))
        "role to workload requests: list role bindings";;
      mret []
    | inr items =>
      appendEach (λ roleBinding,
                    if bindsRole role roleBinding
                    then RoleBindingToWorkloadRequests mapper
                           (ObjRoleBinding roleBinding)
                    else mret [])
                 items
    end
  | _ =>
    Logger_Error None "role to workload requests: cast to Role failed";;
    mret []
  end.

Definition ClusterRoleToWorkloadRequests (mapper : Client)
    (clusterRoleObject : Object) : M (list Request) :=
  match clusterRoleObject with
  | ObjClusterRole clusterRole =>
    clusterRoleBindingList ←
      Client_List mapper KClusterRoleBinding (ClusterRoleBindings mapper)
                  crb_ObjectMeta noOptions;
    match clusterRoleBindingList with
    | inl err =>
      Logger_Error (Some (fmt_Errorf "client list" err))
        "cluster role to workload requests: list cluster role bindings";;
      mret []
    | inr clusterRoleBindings =>
      requests ←
        appendEach (λ clusterRoleBinding,
                      if bindsClusterRole clusterRole
                           (crb_RoleRef clusterRoleBinding)
                      then ClusterRoleBindingToWorkloadRequests mapper
                             (ObjClusterRoleBinding clusterRoleBinding)
                      else mret [])
                   clusterRoleBindings;
      roleBindingList ←
        Client_List mapper KRoleBinding (RoleBindings mapper) rb_ObjectMeta
                    noOptions;
      match roleBindingList with
      | inl err =>
        Logger_Error (Some (fmt_Errorf "client list" err))
          "cluster role role to workload requests: list role bindings";;
        mret []
      | inr roleBindings =>
        more ←
          appendEach (λ roleBinding,
                        if bindsClusterRole clusterRole
                             (rb_RoleRef roleBinding)
                        then RoleBindingToWorkloadRequests mapper
                               (ObjRoleBinding roleBinding)
                        else mret [])
                     roleBindings;
        mret (requests ++ more)
      end
    end
  | _ =>
    Logger_Error None
      "cluster role to workload requests: cast to ClusterRole failed";;
    mret []
  end.


(** **** Service accounts and RBAC objects to deliverables *)

Definition serviceAccountToDeliveries (mapper : Client)
    (serviceAccountObject : Object) : M (list ClusterDelivery) :=
  list ← Client_List mapper KClusterDelivery (ClusterDeliveries mapper)
                     d_ObjectMeta noOptions;
  match list with
  | inl err =>
    Logger_Error (Some (fmt_Errorf "client list" err))
      "service account to deliveries: list deliveries";;
    mret []
  | inr items =>
    mret (filter (λ d, SARef_Name (d_ServiceAccountRef (d_Spec d))
                        = GetName serviceAccountObject)
                 items)
  end.

(** The first loop of [ServiceAccountToDeliverableRequests]: the deliverables
    that name the service account themselves. *)
Definition directDeliverables (serviceAccountObject : Object)
    (items : list Deliverable) : gset Request :=
  foldl (λ requestMap deliverable,
           if bool_decide
                (Namespace (dv_ObjectMeta deliverable)
                   = GetNamespace serviceAccountObject
                 ∧ dv_ServiceAccountName deliverable
                   = GetName serviceAccountObject)
           then {[ requestFor (dv_ObjectMeta deliverable) ]} ∪ requestMap
           else requestMap)
        ∅ items.

(** The body of the loop over the deliverables of one delivery. *)
Definition addIndirectDeliverable (serviceAccountObject : Object)
    (d : ClusterDelivery) (requestMap : gset Request)
    (deliverable : Deliverable) : gset Request :=
  if bool_decide (dv_ServiceAccountName deliverable ≠ "") then requestMap
  else if bool_decide
            (SARef_Namespace (d_ServiceAccountRef (d_Spec d))
               = GetNamespace serviceAccountObject
             ∨ (SARef_Namespace (d_ServiceAccountRef (d_Spec d)) = ""
                ∧ Namespace (dv_ObjectMeta deliverable)
                  = GetNamespace serviceAccountObject))
       then {[ requestFor (dv_ObjectMeta deliverable) ]} ∪ requestMap
       else requestMap.

(** The loop over the deliveries; a failing lookup is logged and counts
    as no deliverables. *)
Fixpoint indirectDeliverables (mapper : Client) (serviceAccountObject : Object)
    (deliveries : list ClusterDelivery) (requestMap : gset Request)
    : M (gset Request) :=
  match deliveries with
  | [] => mret requestMap
  | d :: deliveries =>
    deliveryDeliverables ← clusterDeliveryToDeliverables mapper d;
    deliveryDeliverables ←
      match deliveryDeliverables with
      | inl err =>
        Logger_Error (Some err) "service account to deliverable requests";;
        mret []
      | inr deliveryDeliverables => mret deliveryDeliverables
      end;
    indirectDeliverables mapper serviceAccountObject deliveries
      (foldl (addIndirectDeliverable serviceAccountObject d) requestMap
             deliveryDeliverables)
  end.

Definition ServiceAccountToDeliverableRequests (mapper : Client)
    (serviceAccountObject : Object) : M (list Request) :=
  list ← Client_List mapper KDeliverable (Deliverables mapper) dv_ObjectMeta
                     noOptions;
  match list with
  | inl err =>
    Logger_Error (Some (fmt_Errorf "client list" err))
      "service account to deliverable requests: list deliverables";;
    mret []
  | inr items =>
    let requestMap := directDeliverables serviceAccountObject items in
    deliveries ← serviceAccountToDeliveries mapper serviceAccountObject;
    requestMap ← indirectDeliverables mapper serviceAccountObject deliveries
                                      requestMap;
    mret (elements requestMap)
  end.

Definition RoleBindingToDeliverableRequests (mapper : Client)
    (roleBindingObject : Object) : M (list Request) :=
  match roleBindingObject with
  | ObjRoleBinding roleBinding =>
    match find (λ subject, bool_decide (isServiceAccount subject))
               (rb_Subjects roleBinding) with
    | Some subject =>
      got ← Client_Get mapper (serviceAccountKey subject);
      match got with
      | inl (err, serviceAccountObject) =>
        Logger_Error (Some (fmt_Errorf "client get" err))
          "role binding to deliverable requests: get service account";;
        ServiceAccountToDeliverableRequests mapper
          (ObjServiceAccount serviceAccountObject)
      | inr serviceAccountObject =>
        ServiceAccountToDeliverableRequests mapper
          (ObjServiceAccount serviceAccountObject)
      end
    | None => mret []
    end
  | _ =>
    Logger_Error None
      "role binding to deliverable requests: cast to RoleBinding failed";;
    mret []
  end.

Definition ClusterRoleBindingToDeliverableRequests (mapper : Client)
    (clusterRoleBindingObject : Object) : M (list Request) :=
  match clusterRoleBindingObject with
  | ObjClusterRoleBinding clusterRoleBinding =>
    match find (λ subject, bool_decide (isServiceAccount subject))
               (crb_Subjects clusterRoleBinding) with
    | Some subject =>
      got ← Client_Get mapper (serviceAccountKey subject);
      match got with
      | inl (err, _) =>
        Logger_Error (Some (fmt_Errorf "client get" err))
          "cluster role binding to deliverable requests: get service account";;
        mret []
      | inr serviceAccountObject =>
        ServiceAccountToDeliverableRequests mapper
          (ObjServiceAccount serviceAccountObject)
      end
    | None => mret []
    end
  | _ =>
    Logger_Error None
      "cluster role binding to deliverable requests: cast to ClusterRoleBinding failed";;
    mret []
  end.

Definition RoleToDeliverableRequests (mapper : Client) (roleObject : Object)
    : M (list Request) :=
  match roleObject with
  | ObjRole role =>
    list ← Client_List mapper KRoleBinding (RoleBindings mapper) rb_ObjectMeta
                       noOptions;
    match list with
    | inl err =>
      Logger_Error (Some (fmt_Errorf "client list" err))
        "role to deliverable requests: list role bindings";;
      mret []
    | inr items =>
      appendEach (λ roleBinding,
                    if bindsRole role roleBinding
                    then RoleBindingToDeliverableRequests mapper
                           (ObjRoleBinding roleBinding)
                    else mret [])
                 items
    end
  | _ =>
    Logger_Error None "role to deliverable requests: cast to Role failed";;
    mret []
  end.

Definition ClusterRoleToDeliverableRequests (mapper : Client)
    (clusterRoleObject : Object) : M (list Request) :=
  match clusterRoleObject with
  | ObjClusterRole clusterRole =>
    clusterRoleBindingList ←
      Client_List mapper KClusterRoleBinding (ClusterRoleBindings mapper)
                  crb_ObjectMeta noOptions;
    match clusterRoleBindingList with
    | inl err =>
      Logger_Error (Some (fmt_Errorf "client list" err))
        "cluster role to deliverable requests: list cluster role bindings";;
      mret []
    | inr clusterRoleBindings =>
      requests ←
        appendEach (λ clusterRoleBinding,
                      if bindsClusterRole clusterRole
                           (crb_RoleRef clusterRoleBinding)
                      then ClusterRoleBindingToDeliverableRequests mapper
                             (ObjClusterRoleBinding clusterRoleBinding)
                      else mret [])
                   clusterRoleBindings;
      roleBindingList ←
        Client_List mapper KRoleBinding (RoleBindings mapper) rb_ObjectMeta
                    noOptions;
      match roleBindingList with
      | inl err =>
        Logger_Error (Some (fmt_Errorf "client list" err))
          "cluster role role to deliverable requests: list role bindings";;
        mret []
      | inr roleBindings =>
        more ←
          appendEach (λ roleBinding,
                        if bindsClusterRole clusterRole
                             (rb_RoleRef roleBinding)
                        then RoleBindingToDeliverableRequests mapper
                               (ObjRoleBinding roleBinding)
                        else mret [])
                     roleBindings;
        mret (requests ++ more)
      end
    end
  | _ =>
    Logger_Error None
      "cluster role to deliverable requests: cast to ClusterRole failed";;
    mret []
  end.

(** **** Service accounts and RBAC objects to runnables *)

Definition ServiceAccountToRunnableRequests (mapper : Client)
    (serviceAccountObject : Object) : M (list Request) :=
  list ← Client_List mapper KRunnable (Runnables mapper) rn_ObjectMeta
                     noOptions;
  match list with
  | inl err =>
    Logger_Error (Some (fmt_Errorf "client list" err))
      "service account to runnable requests: list runnables";;
    mret []
  | inr items =>
    mret ((requestFor ∘ rn_ObjectMeta)
          <$> filter (λ runnable,
                        Namespace (rn_ObjectMeta runnable)
                          = GetNamespace serviceAccountObject
                        ∧ rn_ServiceAccountName runnable
                          = GetName serviceAccountObject)
                     items)
  end.

Definition RoleBindingToRunnableRequests (mapper : Client)
    (roleBindingObject : Object) : M (list Request) :=
  match roleBindingObject with
  | ObjRoleBinding roleBinding =>
    match find (λ subject, bool_decide (isServiceAccount subject))
               (rb_Subjects roleBinding) with
    | Some subject =>
      got ← Client_Get mapper (serviceAccountKey subject);
      match got with
      | inl (err, serviceAccountObject) =>
        Logger_Error (Some (fmt_Errorf "client get" err))
          "role binding to runnable requests: get service account";;
        ServiceAccountToRunnableRequests mapper
          (ObjServiceAccount serviceAccountObject)
      | inr serviceAccountObject =>
        ServiceAccountToRunnableRequests mapper
          (ObjServiceAccount serviceAccountObject)
      end
    | None => mret []
    end
  | _ =>
    Logger_Error None
      "role binding to runnable requests: cast to RoleBinding failed";;
    mret []
  end.

Definition ClusterRoleBindingToRunnableRequests (mapper : Client)
    (clusterRoleBindingObject : Object) : M (list Request) :=
  match clusterRoleBindingObject with
  | ObjClusterRoleBinding clusterRoleBinding =>
    match find (λ subject, bool_decide (isServiceAccount subject))
               (crb_Subjects clusterRoleBinding) with
    | Some subject =>
      got ← Client_Get mapper (serviceAccountKey subject);
      match got with
      | inl (err, _) =>
        Logger_Error (Some (fmt_Errorf "client get" err))
          "cluster role binding to runnable requests: get service account";;
        mret []
      | inr serviceAccountObject =>
        ServiceAccountToRunnableRequests mapper
          (ObjServiceAccount serviceAccountObject)
      end
    | None => mret []
    end
  | _ =>
    Logger_Error None
      "cluster role binding to runnable requests: cast to ClusterRoleBinding failed";;
    mret []
  end.

Definition RoleToRunnableRequests (mapper : Client) (roleObject : Object)
    : M (list Request) :=
  match roleObject with
  | ObjRole role =>
    list ← Client_List mapper KRoleBinding (RoleBindings mapper) rb_ObjectMeta
                       noOptions;
    match list with
    | inl err =>
      Logger_Error (Some (fmt_Errorf "client list" err))
        "role to runnable requests: list role bindings";;
      mret []
    | inr items =>
      appendEach (λ roleBinding,
                    if bindsRole role roleBinding
                    then RoleBindingToRunnableRequests mapper
                           (ObjRoleBinding roleBinding)
                    else mret [])
                 items
    end
  | _ =>
    Logger_Error None "role to runnable requests: cast to Role failed";;
    mret []
  end.

Definition ClusterRoleToRunnableRequests (mapper : Client)
    (clusterRoleObject : Object) : M (list Request) :=
  match clusterRoleObject with
  | ObjClusterRole clusterRole =>
    clusterRoleBindingList ←
      Client_List mapper KClusterRoleBinding (ClusterRoleBindings mapper)
                  crb_ObjectMeta noOptions;
    match clusterRoleBindingList with
    | inl err =>
      Logger_Error (Some (fmt_Errorf "client list" err))
        "cluster role to runnable requests: list cluster role bindings";;
      mret []
    | inr clusterRoleBindings =>
      requests ←
        appendEach (λ clusterRoleBinding,
                      if bindsClusterRole clusterRole
                           (crb_RoleRef clusterRoleBinding)
                      then ClusterRoleBindingToRunnableRequests mapper
                             (ObjClusterRoleBinding clusterRoleBinding)
                      else mret [])
                   clusterRoleBindings;
      roleBindingList ←
        Client_List mapper KRoleBinding (RoleBindings mapper) rb_ObjectMeta
                    noOptions;
      match roleBindingList with
      | inl err =>
        Logger_Error (Some (fmt_Errorf "client list" err))
          "cluster role role to runnable requests: list role bindings";;
        mret []
      | inr roleBindings =>
        more ←
          appendEach (λ roleBinding,
                        if bindsClusterRole clusterRole
                             (rb_RoleRef roleBinding)
                        then RoleBindingToRunnableRequests mapper
                               (ObjRoleBinding roleBinding)
                        else mret [])
                     roleBindings;
        mret (requests ++ more)
      end
    end
  | _ =>
    Logger_Error None
      "cluster role to runnable requests: cast to ClusterRole failed";;
    mret []
  end.

End Mapper.

(** The mapper's exported functions, by name. *)
Inductive MapperFunction : Type :=
| FTemplateToDeliverableRequests
| FTemplateToWorkloadRequests
| FClusterSupplyChainToWorkloadRequests
| FClusterDeliveryToDeliverableRequests
| FRunTemplateToRunnableRequests
| FTemplateToSupplyChainRequests
| FTemplateToDeliveryRequests
| FServiceAccountToWorkloadRequests
| FRoleBindingToWorkloadRequests
| FClusterRoleBindingToWorkloadRequests
| FRoleToWorkloadRequests
| FClusterRoleToWorkloadRequests
| FServiceAccountToDeliverableRequests
| FRoleBindingToDeliverableRequests
| FClusterRoleBindingToDeliverableRequests
| FRoleToDeliverableRequests
| FClusterRoleToDeliverableRequests
| FServiceAccountToRunnableRequests
| FRoleBindingToRunnableRequests
| FClusterRoleBindingToRunnableRequests
| FRoleToRunnableRequests
| FClusterRoleToRunnableRequests.

Definition run `{!LabelMatcher} (f : MapperFunction)
    : Client → Object → M (list Request) :=
  match f with
  | FTemplateToDeliverableRequests => TemplateToDeliverableRequests
  | FTemplateToWorkloadRequests => TemplateToWorkloadRequests
  | FClusterSupplyChainToWorkloadRequests =>
    ClusterSupplyChainToWorkloadRequests
  | FClusterDeliveryToDeliverableRequests =>
    ClusterDeliveryToDeliverableRequests
  | FRunTemplateToRunnableRequests => RunTemplateToRunnableRequests
  | FTemplateToSupplyChainRequests => TemplateToSupplyChainRequests
  | FTemplateToDeliveryRequests => TemplateToDeliveryRequests
  | FServiceAccountToWorkloadRequests => ServiceAccountToWorkloadRequests
  | FRoleBindingToWorkloadRequests => RoleBindingToWorkloadRequests
  | FClusterRoleBindingToWorkloadRequests =>
    ClusterRoleBindingToWorkloadRequests
  | FRoleToWorkloadRequests => RoleToWorkloadRequests
  | FClusterRoleToWorkloadRequests => ClusterRoleToWorkloadRequests
  | FServiceAccountToDeliverableRequests =>
    ServiceAccountToDeliverableRequests
  | FRoleBindingToDeliverableRequests => RoleBindingToDeliverableRequests
  | FClusterRoleBindingToDeliverableRequests =>
    ClusterRoleBindingToDeliverableRequests
  | FRoleToDeliverableRequests => RoleToDeliverableRequests
  | FClusterRoleToDeliverableRequests => ClusterRoleToDeliverableRequests
  | FServiceAccountToRunnableRequests => ServiceAccountToRunnableRequests
  | FRoleBindingToRunnableRequests => RoleBindingToRunnableRequests
  | FClusterRoleBindingToRunnableRequests =>
    ClusterRoleBindingToRunnableRequests
  | FRoleToRunnableRequests => RoleToRunnableRequests
  | FClusterRoleToRunnableRequests => ClusterRoleToRunnableRequests
  end.

(** *** Vocabulary of the properties *)

(** The options under which the workloads of a supply chain are listed. *)
Definition workloadsOptions (sc : ClusterSupplyChain) : ListOptions :=
  {| InNamespace := GetNamespace sc;
     MatchingLabels := sc_Selector (sc_Spec sc) |}.

(** [w] is a workload of the cluster that the listing for [sc] selects and
    for which [sc] is among the best label matches of all supply chains. *)
Definition bestMatchedBy `{!LabelMatcher} (mapper : Client)
    (sc : ClusterSupplyChain) (w : Workload) : Prop :=
  w ∈ Workloads mapper
  ∧ selects (workloadsOptions sc) (wl_ObjectMeta w) = true
  ∧ sc ∈ BestLabelMatches (λ s, sc_Selector (sc_Spec s))
           (Labels (wl_ObjectMeta w)) (ClusterSupplyChains mapper).

(** A workload names the service account itself. *)
Definition namesServiceAccount (serviceAccountObject : Object) (w : Workload)
    : Prop :=
  Namespace (wl_ObjectMeta w) = GetNamespace serviceAccountObject
  ∧ wl_ServiceAccountName w = GetName serviceAccountObject.

(** A workload without a service account of its own falls back on the one
    the supply chain refers to. *)
Definition fallsBackOn (serviceAccountObject : Object)
    (sc : ClusterSupplyChain) (w : Workload) : Prop :=
  wl_ServiceAccountName w = ""
  ∧ (SARef_Namespace (sc_ServiceAccountRef (sc_Spec sc))
       = GetNamespace serviceAccountObject
     ∨ (SARef_Namespace (sc_ServiceAccountRef (sc_Spec sc)) = ""
        ∧ Namespace (wl_ObjectMeta w) = GetNamespace serviceAccountObject)).

(** The error given to the logger is the failure itself or wraps it. *)
Definition carries (cause logged : error) : Prop :=
  logged = cause ∨ ∃ msg, logged = wrapError msg cause.

(** Every failed [List] or [Get] of the trace is followed at once by a
    [Logger.Error] that carries the failure. *)
Inductive Logged : list Event → Prop :=
| Logged_nil : Logged []
| Logged_list_ok kind opts tr :
    Logged tr → Logged (ListCall kind opts None :: tr)
| Logged_get_ok key tr :
    Logged tr → Logged (GetCall key None :: tr)
| Logged_log err msg tr :
    Logged tr → Logged (LoggerError err msg :: tr)
| Logged_list_failed kind opts err err' msg tr :
    carries err err' → Logged tr →
    Logged (ListCall kind opts (Some err) :: LoggerError (Some err') msg :: tr)
| Logged_get_failed key err err' msg tr :
    carries err err' → Logged tr →
    Logged (GetCall key (Some err) :: LoggerError (Some err') msg :: tr).

(** The outcomes of the [List] calls of a trace, in order, and whether the
    first of them is a failure. *)
Definition listOutcomes (tr : list Event) : list (option error) :=
  omap (λ e, match e with ListCall _ _ err => Some err | _ => None end) tr.

Definition firstListFailed (tr : list Event) : bool :=
  match listOutcomes tr with
  | Some _ :: _ => true
  | _ => false
  end.

(** The failed [Get] calls of a trace. *)
Definition failedGets (tr : list Event) : list ObjectKey :=
  omap (λ e, match e with GetCall key (Some _) => Some key | _ => None end)
       tr.

(** A computation whose result is empty when its first [List] fails. *)
Definition emptiesOnFirstList {A : Type} (m : M (list A)) : Prop :=
  firstListFailed m.2 = true → m.1 = [].

(** A helper that hands back a slice: without a successful first [List] it
    hands back nothing. *)
Definition nothingWithoutList {A : Type} (m : M (list A)) : Prop :=
  firstListFailed m.2 = true ∨ listOutcomes m.2 = [] → m.1 = [].

(** A helper that hands back a slice or an error: without a successful
    first [List] it hands back an error. *)
Definition errorWithoutList {A : Type} (m : M (error + A)) : Prop :=
  firstListFailed m.2 = true ∨ listOutcomes m.2 = [] →
  ∃ err, m.1 = inl err.

(** The functions that hand a binding's subject, or a service account, to
    the intent objects, and among them those for runnables. *)
Definition resolvesSubject (f : MapperFunction) : bool :=
  match f with
  | FServiceAccountToWorkloadRequests
  | FRoleBindingToWorkloadRequests
  | FClusterRoleBindingToWorkloadRequests
  | FServiceAccountToDeliverableRequests
  | FRoleBindingToDeliverableRequests
  | FClusterRoleBindingToDeliverableRequests
  | FServiceAccountToRunnableRequests
  | FRoleBindingToRunnableRequests
  | FClusterRoleBindingToRunnableRequests => true
  | _ => false
  end.

Definition forRunnables (f : MapperFunction) : bool :=
  match f with
  | FServiceAccountToRunnableRequests
  | FRoleBindingToRunnableRequests
  | FClusterRoleBindingToRunnableRequests
  | FRoleToRunnableRequests
  | FClusterRoleToRunnableRequests
  | FRunTemplateToRunnableRequests => true
  | _ => false
  end.

Definition fromClusterRoleBinding (f : MapperFunction) : bool :=
  match f with
  | FClusterRoleBindingToWorkloadRequests
  | FClusterRoleBindingToDeliverableRequests
  | FClusterRoleBindingToRunnableRequests => true
  | _ => false
  end.

(** *** An example cluster *)

(** The matcher of section 4.1. *)
Definition specMatcher : LabelMatcher := @mostSpecific.

Definition noTypeMeta : TypeMeta := {| Kind := ""; APIVersion := "" |}.

Definition supplyChainGVK : GroupVersionKind :=
  {| Group := "carto.run"; Version := "v1alpha1";
     GVK_Kind := "ClusterSupplyChain" |}.

Definition deliveryGVK : GroupVersionKind :=
  {| Group := "carto.run"; Version := "v1alpha1";
     GVK_Kind := "ClusterDelivery" |}.

Definition fake_SupplyChain (name : string) (selector : gmap string string)
    (ref : ServiceAccountRef) : ClusterSupplyChain :=
  {| sc_TypeMeta := TypeMeta_of supplyChainGVK;
     sc_ObjectMeta := {| Name := name; Namespace := ""; Labels := ∅ |};
     sc_Spec :=
       {| sc_Resources :=
            [ {| Resource_Name := "source-provider";
                 TemplateRef := {| Ref_Kind := "ClusterSourceTemplate";
                                   Ref_Name := "git-repository" |} |} ];
          sc_Selector := selector;
          sc_ServiceAccountRef := ref |};
     sc_Unread := [("metadata", VMap [("resourceVersion", VString "1")])] |}.

Definition fake_Workload (name namespace : string)
    (labels : gmap string string) (serviceAccount : string) : Workload :=
  {| wl_TypeMeta := noTypeMeta;
     wl_ObjectMeta :=
       {| Name := name; Namespace := namespace; Labels := labels |};
     wl_ServiceAccountName := serviceAccount |}.

Definition fake_Runnable (name namespace serviceAccount : string) : Runnable :=
  {| rn_TypeMeta := noTypeMeta;
     rn_ObjectMeta := {| Name := name; Namespace := namespace; Labels := ∅ |};
     rn_RunTemplateRef := {| Ref_Kind := "ClusterRunTemplate";
                             Ref_Name := "tekton-task" |};
     rn_ServiceAccountName := serviceAccount |}.

Definition fake_ServiceAccount (name namespace : string) : ServiceAccount :=
  {| sa_TypeMeta := noTypeMeta;
     sa_ObjectMeta :=
       {| Name := name; Namespace := namespace; Labels := ∅ |} |}.

Definition fake_Subject (name namespace : string) : Subject :=
  {| Subject_Kind := "ServiceAccount"; Subject_APIGroup := "";
     Subject_Name := name; Subject_Namespace := namespace |}.

Definition fake_RoleBinding (name : string) (subject : Subject)
    : RoleBinding :=
  {| rb_TypeMeta := noTypeMeta;
     rb_ObjectMeta := {| Name := name; Namespace := "ops"; Labels := ∅ |};
     rb_Subjects := [subject];
     rb_RoleRef := {| RoleRef_APIGroup := ""; RoleRef_Kind := "Role";
                      RoleRef_Name := "deployer" |} |}.

Definition fake_ClusterRoleBinding (name : string) (subject : Subject)
    : ClusterRoleBinding :=
  {| crb_TypeMeta := noTypeMeta;
     crb_ObjectMeta := {| Name := name; Namespace := ""; Labels := ∅ |};
     crb_Subjects := [subject];
     crb_RoleRef := {| RoleRef_APIGroup := ""; RoleRef_Kind := "ClusterRole";
                       RoleRef_Name := "deployer" |} |}.

Definition fake_Role : Role :=
  {| role_TypeMeta := noTypeMeta;
     role_ObjectMeta :=
       {| Name := "deployer"; Namespace := "ops"; Labels := ∅ |} |}.

Definition fake_ClusterRole : ClusterRole :=
  {| crole_TypeMeta := noTypeMeta;
     crole_ObjectMeta :=
       {| Name := "deployer"; Namespace := ""; Labels := ∅ |} |}.

Definition web : gmap string string := {[ "app" := "web" ]}.
Definition webProd : gmap string string := <[ "env" := "prod" ]> web.

(** Supply chain [web] matches the label [app=web] and refers to the
    service account [builder] of namespace [ops]; [web-prod] asks for
    [env=prod] as well.  Workloads [a] and [c] are best matched by [web],
    workload [b] by [web-prod].  Only the service account [builder] of
    namespace [ops] exists. *)
Definition fake_Client (listError : ListKind → ListOptions → option error)
    (roleBindings : list RoleBinding)
    (clusterRoleBindings : list ClusterRoleBinding) : Client :=
  {| ClusterSupplyChains :=
       [ fake_SupplyChain "web" web
           {| SARef_Name := "builder"; SARef_Namespace := "ops" |};
         fake_SupplyChain "web-prod" webProd
           {| SARef_Name := ""; SARef_Namespace := "" |} ];
     ClusterDeliveries := [];
     Workloads :=
       [ fake_Workload "a" "dev" web "";
         fake_Workload "b" "ops" webProd "builder";
         fake_Workload "c" "ops" web "" ];
     Deliverables := [];
     Runnables :=
       [ fake_Runnable "r1" "ops" "builder";
         fake_Runnable "r2" "dev" "builder" ];
     RoleBindings := roleBindings;
     ClusterRoleBindings := clusterRoleBindings;
     ListError := listError;
     GetServiceAccount := λ key,
       if bool_decide (Key_Namespace key = "ops" ∧ Key_Name key = "builder")
       then inr (fake_ServiceAccount "builder" "ops")
       else inl (StatusError StatusReasonNotFound
                   ("serviceaccounts " +:+ Key_Name key +:+ " not found"),
                 emptyServiceAccount);
     Scheme_ObjectKinds := λ t,
       match t with
       | TClusterSupplyChain => inr ([supplyChainGVK], false)
       | TClusterDelivery => inr ([deliveryGVK], false)
       | _ => inl (errorString "no kind is registered for the type")
       end |}.

Definition noListError : ListKind → ListOptions → option error :=
  λ _ _, None.

Definition builder : Object :=
  ObjServiceAccount (fake_ServiceAccount "builder" "ops").

Definition webChain : ClusterSupplyChain :=
  fake_SupplyChain "web" web
    {| SARef_Name := "builder"; SARef_Namespace := "ops" |}.

(** *** Vocabulary of the further properties *)

(** The Go type to which a mapper function asserts its argument, if it
    asserts one. *)
Definition asserted (f : MapperFunction) : option GoType :=
  match f with
  | FClusterSupplyChainToWorkloadRequests => Some TClusterSupplyChain
  | FClusterDeliveryToDeliverableRequests => Some TClusterDelivery
  | FRunTemplateToRunnableRequests => Some TClusterRunTemplate
  | FRoleBindingToWorkloadRequests
  | FRoleBindingToDeliverableRequests
  | FRoleBindingToRunnableRequests => Some TRoleBinding
  | FClusterRoleBindingToWorkloadRequests
  | FClusterRoleBindingToDeliverableRequests
  | FClusterRoleBindingToRunnableRequests => Some TClusterRoleBinding
  | FRoleToWorkloadRequests
  | FRoleToDeliverableRequests
  | FRoleToRunnableRequests => Some TRole
  | FClusterRoleToWorkloadRequests
  | FClusterRoleToDeliverableRequests
  | FClusterRoleToRunnableRequests => Some TClusterRole
  | _ => None
  end.

(** The function to which a Role or ClusterRole function hands the
    RoleBindings, and a ClusterRole function the ClusterRoleBindings. *)
Definition forRoleBindings (f : MapperFunction) : option MapperFunction :=
  match f with
  | FRoleToWorkloadRequests | FClusterRoleToWorkloadRequests =>
    Some FRoleBindingToWorkloadRequests
  | FRoleToDeliverableRequests | FClusterRoleToDeliverableRequests =>
    Some FRoleBindingToDeliverableRequests
  | FRoleToRunnableRequests | FClusterRoleToRunnableRequests =>
    Some FRoleBindingToRunnableRequests
  | _ => None
  end.

Definition forClusterRoleBindings (f : MapperFunction)
    : option MapperFunction :=
  match f with
  | FClusterRoleToWorkloadRequests =>
    Some FClusterRoleBindingToWorkloadRequests
  | FClusterRoleToDeliverableRequests =>
    Some FClusterRoleBindingToDeliverableRequests
  | FClusterRoleToRunnableRequests =>
    Some FClusterRoleBindingToRunnableRequests
  | _ => None
  end.

Definition fromRoleBinding (f : MapperFunction) : bool :=
  match f with
  | FRoleBindingToWorkloadRequests
  | FRoleBindingToDeliverableRequests
  | FRoleBindingToRunnableRequests => true
  | _ => false
  end.

Definition fromRole (f : MapperFunction) : bool :=
  match f with
  | FRoleToWorkloadRequests
  | FRoleToDeliverableRequests
  | FRoleToRunnableRequests => true
  | _ => false
  end.

Definition fromClusterRole (f : MapperFunction) : bool :=
  match f with
  | FClusterRoleToWorkloadRequests
  | FClusterRoleToDeliverableRequests
  | FClusterRoleToRunnableRequests => true
  | _ => false
  end.

(** The subjects of a binding, of either kind. *)
Definition subjectsOf (obj : Object) : list Subject :=
  match obj with
  | ObjRoleBinding rb => rb_Subjects rb
  | ObjClusterRoleBinding crb => crb_Subjects crb
  | _ => []
  end.

(** The options under which the deliverables of a delivery are listed. *)
Definition deliverablesOptions (d : ClusterDelivery) : ListOptions :=
  {| InNamespace := GetNamespace d;
     MatchingLabels := d_Selector (d_Spec d) |}.

(** [dv] is a deliverable of the cluster that the listing for [d] selects
    and for which [d] is among the best label matches of all deliveries. *)
Definition bestMatchedByDelivery `{!LabelMatcher} (mapper : Client)
    (d : ClusterDelivery) (dv : Deliverable) : Prop :=
  dv ∈ Deliverables mapper
  ∧ selects (deliverablesOptions d) (dv_ObjectMeta dv) = true
  ∧ d ∈ BestLabelMatches (λ s, d_Selector (d_Spec s))
          (Labels (dv_ObjectMeta dv)) (ClusterDeliveries mapper).

(** A deliverable names the service account itself. *)
Definition deliverableNames (serviceAccountObject : Object)
    (dv : Deliverable) : Prop :=
  Namespace (dv_ObjectMeta dv) = GetNamespace serviceAccountObject
  ∧ dv_ServiceAccountName dv = GetName serviceAccountObject.

(** A deliverable without a service account of its own falls back on the
    one the delivery refers to. *)
Definition deliverableFallsBackOn (serviceAccountObject : Object)
    (d : ClusterDelivery) (dv : Deliverable) : Prop :=
  dv_ServiceAccountName dv = ""
  ∧ (SARef_Namespace (d_ServiceAccountRef (d_Spec d))
       = GetNamespace serviceAccountObject
     ∨ (SARef_Namespace (d_ServiceAccountRef (d_Spec d)) = ""
        ∧ Namespace (dv_ObjectMeta dv) = GetNamespace serviceAccountObject)).

(** The errors given to the logger, in order. *)
Definition errorsLogged (tr : list Event) : list (option error * string) :=
  omap (λ e, match e with
             | LoggerError err msg => Some (err, msg)
             | _ => None
             end) tr.

(** *** An example cluster with deliveries *)

Definition fake_Delivery (name : string) (selector : gmap string string)
    (ref : ServiceAccountRef) : ClusterDelivery :=
  {| d_TypeMeta := TypeMeta_of deliveryGVK;
     d_ObjectMeta := {| Name := name; Namespace := ""; Labels := ∅ |};
     d_Spec :=
       {| d_Resources :=
            [ {| Resource_Name := "config-provider";
                 TemplateRef := {| Ref_Kind := "ClusterSourceTemplate";
                                   Ref_Name := "git-repository" |} |};
              {| Resource_Name := "config-mirror";
                 TemplateRef := {| Ref_Kind := "ClusterSourceTemplate";
                                   Ref_Name := "git-repository" |} |};
              {| Resource_Name := "deployer";
                 TemplateRef := {| Ref_Kind := "ClusterDeploymentTemplate";
                                   Ref_Name := "app-deploy" |} |} ];
          d_Selector := selector;
          d_ServiceAccountRef := ref |};
     d_Unread := [("metadata", VMap [("resourceVersion", VString "1")])] |}.

Definition fake_Deliverable (name namespace : string)
    (labels : gmap string string) (serviceAccount : string) : Deliverable :=
  {| dv_TypeMeta := noTypeMeta;
     dv_ObjectMeta :=
       {| Name := name; Namespace := namespace; Labels := labels |};
     dv_ServiceAccountName := serviceAccount |}.

Definition fake_RunTemplate : ClusterRunTemplate :=
  {| rt_TypeMeta := noTypeMeta;
     rt_ObjectMeta :=
       {| Name := "tekton-task"; Namespace := ""; Labels := ∅ |} |}.

(** The template [git-repository], of a Go type the mapper never asserts. *)
Definition fake_Template : Object :=
  ObjOther "ClusterSourceTemplate" noTypeMeta
    {| Name := "git-repository"; Namespace := ""; Labels := ∅ |}.

(** A scheme that knows one versioned kind for every type. *)
Definition fake_Scheme (t : GoType)
    : error + (list GroupVersionKind * bool) :=
  match t with
  | TClusterSupplyChain => inr ([supplyChainGVK], false)
  | TClusterDelivery => inr ([deliveryGVK], false)
  | TClusterRunTemplate =>
    inr ([ {| Group := "carto.run"; Version := "v1alpha1";
              GVK_Kind := "ClusterRunTemplate" |} ], false)
  | TServiceAccount =>
    inr ([ {| Group := ""; Version := "v1";
              GVK_Kind := "ServiceAccount" |} ], false)
  | TRoleBinding =>
    inr ([ {| Group := "rbac.authorization.k8s.io"; Version := "v1";
              GVK_Kind := "RoleBinding" |} ], false)
  | TClusterRoleBinding =>
    inr ([ {| Group := "rbac.authorization.k8s.io"; Version := "v1";
              GVK_Kind := "ClusterRoleBinding" |} ], false)
  | TRole =>
    inr ([ {| Group := "rbac.authorization.k8s.io"; Version := "v1";
              GVK_Kind := "Role" |} ], false)
  | TClusterRole =>
    inr ([ {| Group := "rbac.authorization.k8s.io"; Version := "v1";
              GVK_Kind := "ClusterRole" |} ], false)
  | TOther name =>
    inr ([ {| Group := "carto.run"; Version := "v1alpha1";
              GVK_Kind := name |} ], false)
  end.

(** Every service account asked for exists; none does, and the failed
    [Get] leaves the object as it was. *)
Definition everyServiceAccount (key : ObjectKey)
    : error * ServiceAccount + ServiceAccount :=
  inr (fake_ServiceAccount (Key_Name key) (Key_Namespace key)).

Definition noServiceAccount (key : ObjectKey)
    : error * ServiceAccount + ServiceAccount :=
  inl (StatusError StatusReasonNotFound
         ("serviceaccounts " +:+ Key_Name key +:+ " not found"),
       emptyServiceAccount).

(** Supply chains and deliveries [web] and [web-prod] as in the cluster
    above, except that delivery [web-prod] refers to the service account
    [builder] too, in no namespace.  Workloads and deliverables [a] and [c]
    are best matched by [web], [b] and [d] by [web-prod]; only [b] names a
    service account. *)
Definition fake_Cluster (listError : ListKind → ListOptions → option error)
    (getServiceAccount : ObjectKey → error * ServiceAccount + ServiceAccount)
    (roleBindings : list RoleBinding)
    (clusterRoleBindings : list ClusterRoleBinding) : Client :=
  {| ClusterSupplyChains :=
       [ fake_SupplyChain "web" web
           {| SARef_Name := "builder"; SARef_Namespace := "ops" |};
         fake_SupplyChain "web-prod" webProd
           {| SARef_Name := ""; SARef_Namespace := "" |} ];
     ClusterDeliveries :=
       [ fake_Delivery "web" web
           {| SARef_Name := "builder"; SARef_Namespace := "ops" |};
         fake_Delivery "web-prod" webProd
           {| SARef_Name := "builder"; SARef_Namespace := "" |} ];
     Workloads :=
       [ fake_Workload "a" "dev" web "";
         fake_Workload "b" "ops" webProd "builder";
         fake_Workload "c" "ops" web "";
         fake_Workload "d" "dev" webProd "" ];
     Deliverables :=
       [ fake_Deliverable "a" "dev" web "";
         fake_Deliverable "b" "ops" webProd "builder";
         fake_Deliverable "c" "ops" web "";
         fake_Deliverable "d" "ops" webProd "" ];
     Runnables :=
       [ fake_Runnable "r1" "ops" "builder";
         fake_Runnable "r2" "dev" "builder" ];
     RoleBindings := roleBindings;
     ClusterRoleBindings := clusterRoleBindings;
     ListError := listError;
     GetServiceAccount := getServiceAccount;
     Scheme_ObjectKinds := fake_Scheme |}.

(** The listing of the intents that carry the labels [labels] fails. *)
Definition selectedListFails (labels : gmap string string)
    : ListKind → ListOptions → option error :=
  λ kind opts,
    match kind with
    | KWorkload | KDeliverable =>
      if bool_decide (MatchingLabels opts = labels)
      then Some (errorString "timeout") else None
    | _ => None
    end.

(** The same cluster behind a client whose listings return the supply
    chains and deliveries without kind and API version. *)
Definition listsWithoutKind (mapper : Client) : Client :=
  {| ClusterSupplyChains :=
       (λ sc, SetTypeMeta sc noTypeMeta) <$> ClusterSupplyChains mapper;
     ClusterDeliveries :=
       (λ d, SetTypeMeta d noTypeMeta) <$> ClusterDeliveries mapper;
     Workloads := Workloads mapper;
     Deliverables := Deliverables mapper;
     Runnables := Runnables mapper;
     RoleBindings := RoleBindings mapper;
     ClusterRoleBindings := ClusterRoleBindings mapper;
     ListError := ListError mapper;
     GetServiceAccount := GetServiceAccount mapper;
     Scheme_ObjectKinds := Scheme_ObjectKinds mapper |}.

Definition webDelivery : ClusterDelivery :=
  fake_Delivery "web" web
    {| SARef_Name := "builder"; SARef_Namespace := "ops" |}.

End registrar.

(** ** Package [runnable]: the Runnable reconciler *)

Module runnable.

(** [metav1.Condition]. *)
Record metav1_Condition : Type := mkCondition {
  Type_ : string;
  Status_ : string;
  Reason : string;
  Message : string
}.

(** [apiextensionsv1.JSON]: raw bytes, possibly a nil slice. *)
Record JSON : Type := mkJSON {
  Raw : option (list Byte.byte)
}.

#[export] Instance Byte_eq_dec : EqDecision Byte.byte := Byte.byte_eq_dec.
#[export] Instance JSON_eq_dec : EqDecision JSON.
Proof. solve_decision. Defined.

(** [map[string]apiextensionsv1.JSON]; [None] is the nil map, which
    [reflect.DeepEqual] tells apart from an empty one. *)
Abbreviation Outputs := (option (gmap string JSON)).

Record TemplateReference : Type := mkTemplateReference {
  TemplateReference_Kind : string;
  TemplateReference_Name : string
}.

Record RunnableSpec : Type := mkRunnableSpec {
  RunTemplateRef : TemplateReference;
  ServiceAccountName : string
}.

Record RunnableStatus : Type := mkRunnableStatus {
  ObservedGeneration : Z;
  Conditions : list metav1_Condition;
  Outputs_ : Outputs
}.

Record Runnable : Type := mkRunnable {
  Name : string;
  Namespace : string;
  Generation : Z;
  Spec : RunnableSpec;
  Status : RunnableStatus
}.

(** [ctrl.Request]. *)
Record Request : Type := mkRequest {
  Request_Name : string;
  Request_Namespace : string
}.

(** Modelled from the spec: the condition constructors of the package
    ([conditions.go] is not among the sources), kept symbolic; section 7
    names the conditions they stand for.
    [OutputPathNotSatisfiedCondition] takes the stamped object and the
    error whose [Error()] text is its message. *)
Inductive Condition : Type :=
| ServiceAccountSecretNotFoundCondition (err : error)
| ClientBuilderErrorCondition (err : error)
| RunTemplateMissingCondition (err : error)
| TemplateStampFailureCondition (err : error)
| StampedObjectRejectedByAPIServerCondition (err : error)
| FailedToListCreatedObjectsCondition (err : error)
| OutputPathNotSatisfiedCondition (obj : option Unstructured) (err : error)
| UnknownErrorCondition (err : error)
| RunTemplateReadyCondition.

(** The secret of a service account and the client built from it are
    opaque handles. *)
Record Secret : Type := mkSecret { token : string }.
Record Client : Type := mkClient { impersonates : Secret }.

(** The state of the [conditions.ConditionManager] held in the
    reconciler's [conditionManager] field: the conditions it was built
    with and the conditions added since, oldest first. *)
Record ConditionManager : Type := mkConditionManager {
  previous : list metav1_Condition;
  added : list Condition
}.

(** The collaborators of the [Reconciler] struct.  Each field answers
    the call of the same name; [Finalize] is the answer of the condition
    manager, which depends on what it was built with and on what was
    added to it. *)
Record Reconciler : Type := mkReconciler {
  Repo_GetRunnable : string → string → error + option Runnable;
  Repo_GetServiceAccountSecret : string → string → error + Secret;
  Repo_StatusUpdate : Runnable → option error;
  ClientBuilder : Secret → error + Client;
  Realizer_Realize :
    Runnable → Client → option Unstructured * Outputs * option error;
  DynamicTracker_Watch : Unstructured → option error;
  ConditionManager_Finalize :
    list metav1_Condition → list Condition → list metav1_Condition * bool
}.

(** Calls made on the collaborators, in program order. *)
Inductive Call : Type :=
| GetRunnableCall (name namespace : string)
| GetServiceAccountSecretCall (name namespace : string)
| ClientBuilderCall (secret : Secret)
| RealizeCall (runnable : Runnable) (client : Client)
| AddPositiveCall (c : Condition)
| WatchCall (obj : Unstructured)
| FinalizeCall
| StatusUpdateCall (runnable : Runnable).

(** A computation that returns a value and the calls it made. *)
Abbreviation M := (Traced Call).

Definition call {A : Type} (c : Call) (answer : A) : M A := emit c answer.

Definition ConditionManagerBuilder (conds : list metav1_Condition)
    : ConditionManager :=
  {| previous := conds; added := [] |}.

Definition AddPositive (cm : ConditionManager) (c : Condition)
    : M ConditionManager :=
  call (AddPositiveCall c)
       {| previous := previous cm; added := added cm ++ [c] |}.

Definition Finalize (r : Reconciler) (cm : ConditionManager)
    : M (list metav1_Condition * bool) :=
  call FinalizeCall (ConditionManager_Finalize r (previous cm) (added cm)).

Definition with_Conditions (runnable : Runnable)
    (conds : list metav1_Condition) : Runnable :=
  {| Name := Name runnable; Namespace := Namespace runnable;
     Generation := Generation runnable; Spec := Spec runnable;
     Status := {| ObservedGeneration := ObservedGeneration (Status runnable);
                  Conditions := conds;
                  Outputs_ := Outputs_ (Status runnable) |} |}.

Definition with_Outputs_and_ObservedGeneration (runnable : Runnable)
    (outputs : Outputs) (generation : Z) : Runnable :=
  {| Name := Name runnable; Namespace := Namespace runnable;
     Generation := Generation runnable; Spec := Spec runnable;
     Status := {| ObservedGeneration := generation;
                  Conditions := Conditions (Status runnable);
                  Outputs_ := outputs |} |}.

(** The test guarding the status write in [completeReconciliation]. *)
Definition statusChanged (changed : bool) (runnable : Runnable)
    (outputs : Outputs) : bool :=
  changed
  || negb (ObservedGeneration (Status runnable) =? Generation runnable)%Z
  || negb (bool_decide (Outputs_ (Status runnable) = outputs)).

(** [completeReconciliation].  The result is the error handed to the
    runtime ([ctrl.Result] is always the zero value). *)
Definition completeReconciliation (r : Reconciler) (cm : ConditionManager)
    (runnable : Runnable) (outputs : Outputs) (err : option error)
    : M (option error) :=
  '(conds, changed) ← Finalize r cm;
  let runnable := with_Conditions runnable conds in
  let finish : M (option error) :=
    match err with
    | Some e =>
      if controller.IsUnhandledError e then mret (Some e) else mret None
    | None => mret None
    end in
  if statusChanged changed runnable outputs then
    let runnable :=
      with_Outputs_and_ObservedGeneration runnable outputs
        (Generation runnable) in
    statusUpdateError ←
      call (StatusUpdateCall runnable) (Repo_StatusUpdate r runnable);
    match statusUpdateError with
    | Some e =>
      mret (Some (fmt_Errorf "failed to update status for runnable" e))
    | None => finish
    end
  else finish.

(** The [switch] on the realizer's error in [Reconcile]: the condition
    added and the error carried on. *)
Definition classify (err : error) : Condition * error :=
  match err with
  | realizer_GetRunTemplateError _ =>
    (RunTemplateMissingCondition err, controller.NewUnhandledError err)
  | realizer_ResolveSelectorError _ =>
    (TemplateStampFailureCondition err, err)
  | realizer_StampError _ =>
    (TemplateStampFailureCondition err, err)
  | realizer_ApplyStampedObjectError Err _ =>
    (StampedObjectRejectedByAPIServerCondition err,
     if negb (kerrors.IsForbidden Err)
     then controller.NewUnhandledError err else err)
  | realizer_ListCreatedObjectsError _ =>
    (FailedToListCreatedObjectsCondition err,
     controller.NewUnhandledError err)
  | realizer_RetrieveOutputError _ StampedObject =>
    (OutputPathNotSatisfiedCondition StampedObject err, err)
  | _ =>
    (UnknownErrorCondition err, controller.NewUnhandledError err)
  end.

(** The service account whose secret is looked up. *)
Definition serviceAccountName (runnable : Runnable) : string :=
  if bool_decide (ServiceAccountName (Spec runnable) ≠ "")
  then ServiceAccountName (Spec runnable)
  else "default".

(** [Reconciler.Reconcile]. *)
Definition Reconcile (r : Reconciler) (req : Request) : M (option error) :=
  let name := Request_Name req in
  let namespace := Request_Namespace req in
  got ← call (GetRunnableCall name namespace)
             (Repo_GetRunnable r name namespace);
  match got with
  | inl err =>
    mret (Some (fmt_Errorf ("failed to get runnable [" +:+ namespace +:+ "/"
                            +:+ name +:+ "]") err))
  | inr None => mret None
  | inr (Some runnable) =>
    let cm := ConditionManagerBuilder (Conditions (Status runnable)) in
    let serviceAccountName := serviceAccountName runnable in
    secret ← call (GetServiceAccountSecretCall serviceAccountName namespace)
                  (Repo_GetServiceAccountSecret r serviceAccountName
                                                namespace);
    match secret with
    | inl err =>
      cm ← AddPositive cm (ServiceAccountSecretNotFoundCondition err);
      completeReconciliation r cm runnable None
        (Some (fmt_Errorf ("failed to get secret for service account ["
                           +:+ serviceAccountName +:+ "]") err))
    | inr secret =>
      runnableClient ← call (ClientBuilderCall secret)
                            (ClientBuilder r secret);
      match runnableClient with
      | inl err =>
        cm ← AddPositive cm (ClientBuilderErrorCondition err);
        completeReconciliation r cm runnable None
          (Some (controller.NewUnhandledError
                   (fmt_Errorf "failed to build resource realizer" err)))
      | inr runnableClient =>
        '(stampedObject, outputs, err) ←
          call (RealizeCall runnable runnableClient)
               (Realizer_Realize r runnable runnableClient);
        '(cm, err) ←
          match err with
          | Some e =>
            let '(condition, e) := classify e in
            cm ← AddPositive cm condition;
            mret (cm, Some e)
          | None =>
            cm ← AddPositive cm RunTemplateReadyCondition;
            mret (cm, None)
          end;
        err ←
          match stampedObject with
          | Some obj =>
            trackingError ← call (WatchCall obj)
                                 (DynamicTracker_Watch r obj);
            match trackingError with
            | Some trackingError =>
              mret (Some (controller.NewUnhandledError trackingError))
            | None => mret err
            end
          | None => mret err
          end;
        completeReconciliation r cm runnable outputs err
      end
    end
  end.

(** *** Reading a trace *)

(** The conditions added, the outputs the realizer returned (nil when it was
    never called) and the objects written by a status update. *)
Definition added_in (tr : list Call) : list Condition :=
  omap (λ c, match c with AddPositiveCall x => Some x | _ => None end) tr.

Definition realized_outputs (r : Reconciler) (tr : list Call) : Outputs :=
  match omap (λ c, match c with
                   | RealizeCall rn cl => Some (Realizer_Realize r rn cl).1.2
                   | _ => None
                   end) tr with
  | o :: _ => o
  | [] => None
  end.

Definition status_writes (tr : list Call) : list Runnable :=
  omap (λ c, match c with StatusUpdateCall w => Some w | _ => None end) tr.

Definition secret_lookups (tr : list Call) : list (string * string) :=
  omap (λ c, match c with
             | GetServiceAccountSecretCall name namespace =>
               Some (name, namespace)
             | _ => None
             end) tr.

(** What [Reconcile] does with a runnable it has loaded: the calls made
    before completion and the arguments handed to
    [completeReconciliation]. *)
Definition before_completion (r : Reconciler) (req : Request)
    (runnable : Runnable)
    : list Call * ConditionManager * Outputs * option error :=
  let namespace := Request_Namespace req in
  let sa := serviceAccountName runnable in
  let cm c := {| previous := Conditions (Status runnable); added := [c] |} in
  let pre := [GetRunnableCall (Request_Name req) namespace;
              GetServiceAccountSecretCall sa namespace] in
  match Repo_GetServiceAccountSecret r sa namespace with
  | inl err =>
    let c := ServiceAccountSecretNotFoundCondition err in
    (pre ++ [AddPositiveCall c], cm c, None,
     Some (fmt_Errorf ("failed to get secret for service account ["
                       +:+ sa +:+ "]") err))
  | inr secret =>
    match ClientBuilder r secret with
    | inl err =>
      let c := ClientBuilderErrorCondition err in
      (pre ++ [ClientBuilderCall secret; AddPositiveCall c], cm c, None,
       Some (controller.NewUnhandledError
               (fmt_Errorf "failed to build resource realizer" err)))
    | inr client =>
      let '(obj, outputs, err) := Realizer_Realize r runnable client in
      let c := match err with
               | Some e => (classify e).1
               | None => RunTemplateReadyCondition
               end in
      let err1 := match err with
                  | Some e => Some (classify e).2
                  | None => None
                  end in
      let watch := match obj with Some o => [WatchCall o] | None => [] end in
      let err2 :=
        match obj with
        | Some o => match DynamicTracker_Watch r o with
                    | Some te => Some (controller.NewUnhandledError te)
                    | None => err1
                    end
        | None => err1
        end in
      (pre ++ [ClientBuilderCall secret; RealizeCall runnable client;
               AddPositiveCall c] ++ watch,
       cm c, outputs, err2)
    end
  end.

(** *** A reconciler with canned answers *)

(** The repository holds one runnable and one secret and every collaborator
    answers with the given value, whatever it is asked. *)
Definition fake_Reconciler (runnable : Runnable)
    (realized : option Unstructured * Outputs * option error)
    (watched updated : option error) (changed : bool) : Reconciler :=
  {| Repo_GetRunnable := λ _ _, inr (Some runnable);
     Repo_GetServiceAccountSecret := λ name _, inr {| token := name |};
     Repo_StatusUpdate := λ _, updated;
     ClientBuilder := λ secret, inr {| impersonates := secret |};
     Realizer_Realize := λ _ _, realized;
     DynamicTracker_Watch := λ _, watched;
     ConditionManager_Finalize := λ previous _, (previous, changed) |}.

Definition fake_Runnable (serviceAccount : string) (generation : Z)
    : Runnable :=
  {| Name := "my-runnable"; Namespace := "my-namespace";
     Generation := generation;
     Spec := {| RunTemplateRef :=
                  {| TemplateReference_Kind := "ClusterRunTemplate";
                     TemplateReference_Name := "my-run-template" |};
                ServiceAccountName := serviceAccount |};
     Status := {| ObservedGeneration := 0; Conditions := [];
                  Outputs_ := None |} |}.

Definition fake_Request : Request :=
  {| Request_Name := "my-runnable"; Request_Namespace := "my-namespace" |}.

(** *** Vocabulary of the further properties *)

(** The stamped objects watched, the realizer calls and the secrets handed
    to the client builder. *)
Definition watches (tr : list Call) : list Unstructured :=
  omap (λ c, match c with WatchCall o => Some o | _ => None end) tr.

Definition realizations (tr : list Call) : list (Runnable * Client) :=
  omap (λ c, match c with RealizeCall rn cl => Some (rn, cl) | _ => None end)
       tr.

Definition client_builds (tr : list Call) : list Secret :=
  omap (λ c, match c with ClientBuilderCall s => Some s | _ => None end) tr.

(** The errors of the realizer that the [switch] of [Reconcile] names. *)
Definition namedByReconcile (err : error) : bool :=
  match err with
  | realizer_GetRunTemplateError _
  | realizer_ResolveSelectorError _
  | realizer_StampError _
  | realizer_ApplyStampedObjectError _ _
  | realizer_ListCreatedObjectsError _
  | realizer_RetrieveOutputError _ _ => true
  | _ => false
  end.

(** The errors of the realizer that [Reconcile] carries on as they are,
    whatever they wrap. *)
Definition handedOnByReconcile (err : error) : bool :=
  match err with
  | realizer_ResolveSelectorError _
  | realizer_StampError _
  | realizer_RetrieveOutputError _ _ => true
  | _ => false
  end.

(** A reconciler whose repository holds [runnable] and whose secret lookup
    and client builder answer as given. *)
Definition fake_Reconciler_before (runnable : Runnable)
    (secret : error + Secret) (client : error + Client)
    (updated : option error) (changed : bool) : Reconciler :=
  {| Repo_GetRunnable := λ _ _, inr (Some runnable);
     Repo_GetServiceAccountSecret := λ _ _, secret;
     Repo_StatusUpdate := λ _, updated;
     ClientBuilder := λ _, client;
     Realizer_Realize := λ _ _, (None, None, None);
     DynamicTracker_Watch := λ _, None;
     ConditionManager_Finalize := λ previous _, (previous, changed) |}.

(** A runnable whose status is up to date and holds the given outputs. *)
Definition fake_Runnable_realized (outputs : Outputs) : Runnable :=
  {| Name := "my-runnable"; Namespace := "my-namespace";
     Generation := 1;
     Spec := {| RunTemplateRef :=
                  {| TemplateReference_Kind := "ClusterRunTemplate";
                     TemplateReference_Name := "my-run-template" |};
                ServiceAccountName := "" |};
     Status := {| ObservedGeneration := 1; Conditions := [];
                  Outputs_ := outputs |} |}.

Definition fake_Outputs : Outputs :=
  Some {[ "digest" := {| Raw := Some [] |} ]}.

Definition fake_Stamped : Unstructured :=
  {| Object := Some [("kind", VString "TaskRun")] |}.

End runnable.

(** * Properties *)

#[local] Set Warnings "-clear-no-such-hyp".

(** ** Traced computations *)

Lemma bind_fst {E A B} (m : Traced E A) (k : A → Traced E B) :
  (m ≫= k).1 = (k m.1).1.
Proof. reflexivity. Qed.

Lemma bind_snd {E A B} (m : Traced E A) (k : A → Traced E B) :
  (m ≫= k).2 = m.2 ++ (k m.1).2.
Proof. reflexivity. Qed.

Lemma elem_of_flat_map {A B} (f : A → list B) (l : list A) (y : B) :
  y ∈ flat_map f l ↔ ∃ x, x ∈ l ∧ y ∈ f x.
Proof.
  rewrite list_elem_of_In, in_flat_map. setoid_rewrite list_elem_of_In. done.
Qed.

(** ** The image template model *)

Section ImageTemplate.
Import templates.

Lemma JsonPathExpression_of_JsonPathError Err expression :
  workload.JsonPathExpression (JsonPathError Err expression) = expression.
Proof. reflexivity. Qed.

(** C5: on a stamped object, [GetOutput] evaluates the template's
    [imagePath] against the object's content.  When the evaluation succeeds
    the result is an [Output] whose [Image] is the value found, and no
    error; when it fails there is no [Output] and the error is a
    [JsonPathError] that holds the [imagePath] as its expression, which a
    [RetrieveOutputError] built around it reads back as its JSONPath
    expression. *)
Theorem GetOutput_image_or_jsonpath_error (t : clusterImageTemplate)
    (obj : Unstructured) :
  stampedObject t = Some obj →
  match EvaluateJsonPath (evaluator_ t) (ImagePath (Spec (template t)))
                         (UnstructuredContent obj) with
  | inr image =>
    ∃ output, GetOutput t = Some (Some output, None) ∧ Image output = image
  | inl cause =>
    ∃ msg,
      let err := JsonPathError (wrapError msg cause)
                               (ImagePath (Spec (template t))) in
      GetOutput t = Some (None, Some err)
      ∧ workload.JsonPathExpression err = ImagePath (Spec (template t))
  end.
Proof.
  intros Hobj. unfold GetOutput. rewrite Hobj.
  destruct (EvaluateJsonPath _ _ _) as [cause|image].
  - eexists. split; [reflexivity|].
    apply JsonPathExpression_of_JsonPathError.
  - eexists. split; reflexivity.
Qed.

Lemma GetOutput_image_witness :
  let found :=
    SetStampedObject (NewClusterImageTemplateModel fake_template fake_evaluator)
      (Some {| Object := Some [("latestImage", VString "registry/web:1")] |}) in
  let missing :=
    SetStampedObject (NewClusterImageTemplateModel fake_template fake_evaluator)
      (Some {| Object := Some [("status", VMap [])] |}) in
  (∃ output, GetOutput found = Some (Some output, None)
             ∧ Image output = VString "registry/web:1")
  ∧ (∃ msg,
       let err :=
         JsonPathError
           (wrapError msg (errorString "evaluate: find results: latestImage"))
           "latestImage" in
       GetOutput missing = Some (None, Some err)
       ∧ workload.JsonPathExpression err = "latestImage").
Proof.
  split.
  - exact (GetOutput_image_or_jsonpath_error
             (SetStampedObject
                (NewClusterImageTemplateModel fake_template fake_evaluator)
                (Some {| Object :=
                           Some [("latestImage", VString "registry/web:1")] |}))
             {| Object := Some [("latestImage", VString "registry/web:1")] |}
             eq_refl).
  - exact (GetOutput_image_or_jsonpath_error
             (SetStampedObject
                (NewClusterImageTemplateModel fake_template fake_evaluator)
                (Some {| Object := Some [("status", VMap [])] |}))
             {| Object := Some [("status", VMap [])] |}
             eq_refl).
Defined.

End ImageTemplate.

(** ** The Runnable reconciler *)

Section Reconciler.
Import runnable.

(** *** Completion *)

Lemma completeReconciliation_result r cm runnable outputs err :
  (completeReconciliation r cm runnable outputs err).1 =
  let finished := ConditionManager_Finalize r (previous cm) (added cm) in
  let runnable := with_Conditions runnable finished.1 in
  let finish :=
    match err with
    | Some e => if controller.IsUnhandledError e then Some e else None
    | None => None
    end in
  if statusChanged finished.2 runnable outputs
  then match Repo_StatusUpdate r
               (with_Outputs_and_ObservedGeneration runnable outputs
                  (Generation runnable)) with
       | Some e => Some (fmt_Errorf "failed to update status for runnable" e)
       | None => finish
       end
  else finish.
Proof.
  unfold completeReconciliation, Finalize. rewrite bind_fst.
  cbn [call emit fst].
  destruct (ConditionManager_Finalize r (previous cm) (added cm))
    as [conds changed].
  cbn [fst snd].
  assert (∀ err : option error,
    (match err with
     | Some e =>
       if controller.IsUnhandledError e then mret (Some e) else mret None
     | None => mret None
     end : M (option error)).1 =
    match err with
    | Some e => if controller.IsUnhandledError e then Some e else None
    | None => None
    end) as Hfinish.
  { intros [e|]; [by destruct (controller.IsUnhandledError e)|done]. }
  destruct (statusChanged _ _ _); [|apply Hfinish].
  rewrite bind_fst. cbn [call emit fst].
  destruct (Repo_StatusUpdate _ _); [done|apply Hfinish].
Qed.

Lemma completeReconciliation_trace r cm runnable outputs err :
  (completeReconciliation r cm runnable outputs err).2 =
  let finished := ConditionManager_Finalize r (previous cm) (added cm) in
  let runnable := with_Conditions runnable finished.1 in
  FinalizeCall ::
  (if statusChanged finished.2 runnable outputs
   then [StatusUpdateCall
           (with_Outputs_and_ObservedGeneration runnable outputs
              (Generation runnable))]
   else []).
Proof.
  unfold completeReconciliation, Finalize. rewrite bind_snd.
  cbn [call emit fst snd].
  destruct (ConditionManager_Finalize r (previous cm) (added cm))
    as [conds changed].
  cbn [fst snd app]. f_equal.
  destruct (statusChanged _ _ _).
  - rewrite bind_snd. cbn [call emit fst snd].
    destruct (Repo_StatusUpdate _ _); [done|].
    destruct err as [e|]; [by destruct (controller.IsUnhandledError e)|done].
  - destruct err as [e|]; [by destruct (controller.IsUnhandledError e)|done].
Qed.

Lemma statusChanged_true changed runnable outputs :
  statusChanged changed runnable outputs = true ↔
  changed = true
  ∨ ObservedGeneration (Status runnable) ≠ Generation runnable
  ∨ Outputs_ (Status runnable) ≠ outputs.
Proof.
  unfold statusChanged.
  rewrite !orb_true_iff, !negb_true_iff, Z.eqb_neq, bool_decide_eq_false.
  tauto.
Qed.

(** *** The steps before completion *)

Lemma Reconcile_loaded r req runnable :
  Repo_GetRunnable r (Request_Name req) (Request_Namespace req)
    = inr (Some runnable) →
  let '(pre, cm, outputs, err) := before_completion r req runnable in
  Reconcile r req =
  ((completeReconciliation r cm runnable outputs err).1,
   pre ++ (completeReconciliation r cm runnable outputs err).2).
Proof.
  intros Hget. unfold before_completion, Reconcile.
  unfold mbind, Traced_bind. cbn [call emit fst snd]. rewrite Hget.
  destruct (Repo_GetServiceAccountSecret r _ _) as [e|secret]; [reflexivity|].
  destruct (ClientBuilder r secret) as [e|client]; [reflexivity|].
  destruct (Realizer_Realize r runnable client) as [[obj outputs] [e|]];
    [destruct (classify e)|];
    (destruct obj as [o|]; [destruct (DynamicTracker_Watch r o)|]);
    reflexivity.
Qed.

Lemma before_completion_facts r req runnable :
  let '(pre, cm, outputs, err) := before_completion r req runnable in
  status_writes pre = []
  ∧ secret_lookups pre
    = [(serviceAccountName runnable, Request_Namespace req)]
  ∧ previous cm = Conditions (Status runnable)
  ∧ added cm = added_in pre
  ∧ outputs = realized_outputs r pre.
Proof.
  unfold before_completion.
  destruct (Repo_GetServiceAccountSecret r _ _) as [e|secret]; [done|].
  destruct (ClientBuilder r secret) as [e|client]; [done|].
  destruct (Realizer_Realize r runnable client) as [[obj outputs] err] eqn:HR.
  unfold realized_outputs. cbn. rewrite HR.
  destruct obj; done.
Qed.

(** Completion adds no condition, asks for no secret and calls no
    realizer. *)
Lemma completion_adds_nothing pre r cm runnable outputs err :
  let tr := pre ++ (completeReconciliation r cm runnable outputs err).2 in
  added_in tr = added_in pre
  ∧ secret_lookups tr = secret_lookups pre
  ∧ realized_outputs r tr = realized_outputs r pre.
Proof.
  cbn zeta. unfold added_in, secret_lookups, realized_outputs.
  rewrite !omap_app, completeReconciliation_trace. cbn.
  destruct (statusChanged _ _ _); cbn; by rewrite !app_nil_r.
Qed.

Lemma status_writes_complete pre r cm runnable outputs err :
  status_writes pre = [] →
  status_writes (pre ++ (completeReconciliation r cm runnable outputs err).2) =
  let finished := ConditionManager_Finalize r (previous cm) (added cm) in
  let runnable := with_Conditions runnable finished.1 in
  if statusChanged finished.2 runnable outputs
  then [with_Outputs_and_ObservedGeneration runnable outputs
          (Generation runnable)]
  else [].
Proof.
  intros Hpre. unfold status_writes in *.
  rewrite omap_app, Hpre, completeReconciliation_trace. cbn.
  by destruct (statusChanged _ _ _).
Qed.

Lemma elem_of_status_writes w tr :
  StatusUpdateCall w ∈ tr ↔ w ∈ status_writes tr.
Proof.
  unfold status_writes. rewrite list_elem_of_omap. split.
  - intros Hin. by exists (StatusUpdateCall w).
  - intros (c & Hin & Hc). destruct c; try discriminate.
    by injection Hc as ->.
Qed.

Lemma elem_of_secret_lookups name namespace tr :
  GetServiceAccountSecretCall name namespace ∈ tr ↔
  (name, namespace) ∈ secret_lookups tr.
Proof.
  unfold secret_lookups. rewrite list_elem_of_omap. split.
  - intros Hin. by exists (GetServiceAccountSecretCall name namespace).
  - intros (c & Hin & Hc). destruct c; try discriminate.
    by injection Hc as -> ->.
Qed.

(** The status writes of a reconcile that loaded [runnable]. *)
Lemma Reconcile_status_writes r req runnable :
  Repo_GetRunnable r (Request_Name req) (Request_Namespace req)
    = inr (Some runnable) →
  let tr := (Reconcile r req).2 in
  let finished :=
    ConditionManager_Finalize r (Conditions (Status runnable)) (added_in tr) in
  let finalized := with_Conditions runnable finished.1 in
  status_writes tr =
  if statusChanged finished.2 finalized (realized_outputs r tr)
  then [with_Outputs_and_ObservedGeneration finalized (realized_outputs r tr)
          (Generation runnable)]
  else [].
Proof.
  intros Hget. pose proof (Reconcile_loaded r req runnable Hget) as Heq.
  pose proof (before_completion_facts r req runnable) as Hf.
  destruct (before_completion r req runnable) as [[[pre cm] outputs] err].
  destruct Hf as (Hw & _ & Hprev & Hadd & Hout).
  cbn zeta. rewrite Heq. cbn [snd].
  destruct (completion_adds_nothing pre r cm runnable outputs err)
    as (-> & _ & ->).
  rewrite status_writes_complete by done.
  by rewrite <- Hadd, <- Hout, <- Hprev.
Qed.

(** *** A failing realizer *)

Section Realized.
Variables (r : Reconciler) (req : Request) (runnable : Runnable)
          (secret : Secret) (client : Client)
          (obj : option Unstructured) (outputs : Outputs) (err : error).
Hypothesis Hget :
  Repo_GetRunnable r (Request_Name req) (Request_Namespace req)
    = inr (Some runnable).
Hypothesis Hsecret :
  Repo_GetServiceAccountSecret r (serviceAccountName runnable)
    (Request_Namespace req) = inr secret.
Hypothesis Hclient : ClientBuilder r secret = inr client.
Hypothesis Hrealize :
  Realizer_Realize r runnable client = (obj, outputs, Some err).

(** The error after the watch has been registered. *)
Let tracked (e : option error) : option error :=
  match obj with
  | Some o => match DynamicTracker_Watch r o with
              | Some te => Some (controller.NewUnhandledError te)
              | None => e
              end
  | None => e
  end.

Lemma Reconcile_realize_failed :
  let cm := {| previous := Conditions (Status runnable);
               added := [(classify err).1] |} in
  let fin := completeReconciliation r cm runnable outputs
               (tracked (Some (classify err).2)) in
  Reconcile r req =
  (fin.1,
   [GetRunnableCall (Request_Name req) (Request_Namespace req);
    GetServiceAccountSecretCall (serviceAccountName runnable)
      (Request_Namespace req);
    ClientBuilderCall secret; RealizeCall runnable client;
    AddPositiveCall (classify err).1]
   ++ match obj with Some o => [WatchCall o] | None => [] end ++ fin.2).
Proof using Hget Hsecret Hclient Hrealize.
  pose proof (Reconcile_loaded r req runnable Hget) as Heq.
  unfold before_completion in Heq.
  rewrite Hsecret, Hclient, Hrealize in Heq. rewrite Heq. reflexivity.
Qed.

Lemma Reconcile_adds_condition :
  AddPositiveCall (classify err).1 ∈ (Reconcile r req).2.
Proof using Hget Hsecret Hclient Hrealize.
  rewrite Reconcile_realize_failed. cbn. do 4 right. left.
Qed.

(** An unhandled error stays an error: the runtime gets it, or the failure
    of the watch, or the failure of the status update. *)
Lemma Reconcile_unhandled_result :
  controller.IsUnhandledError (classify err).2 = true →
  ∃ e, (Reconcile r req).1 = Some e
       ∧ (controller.IsUnhandledError e = true
          ∨ ∃ e', e = fmt_Errorf "failed to update status for runnable" e').
Proof using Hget Hsecret Hclient Hrealize.
  intros Hun. rewrite Reconcile_realize_failed. cbn [fst].
  rewrite completeReconciliation_result. cbn zeta.
  assert (∃ e, tracked (Some (classify err).2) = Some e
               ∧ controller.IsUnhandledError e = true) as (e & -> & He).
  { unfold tracked.
    destruct obj as [o|]; [destruct (DynamicTracker_Watch r o)|]; eauto. }
  rewrite He.
  destruct (statusChanged _ _ _); [destruct (Repo_StatusUpdate _ _) as [e'|]|];
    eauto.
Qed.

(** The result when neither the watch nor the status update fails. *)
Lemma Reconcile_result_undisturbed :
  (∀ o, obj = Some o → DynamicTracker_Watch r o = None) →
  (∀ w, Repo_StatusUpdate r w = None) →
  (Reconcile r req).1 =
  if controller.IsUnhandledError (classify err).2
  then Some (classify err).2 else None.
Proof using Hget Hsecret Hclient Hrealize.
  intros Hwatch Hstatus. rewrite Reconcile_realize_failed. cbn [fst].
  rewrite completeReconciliation_result. cbn zeta.
  assert (tracked (Some (classify err).2) = Some (classify err).2) as ->.
  { unfold tracked. destruct obj as [o|]; [rewrite (Hwatch o eq_refl)|]; done. }
  rewrite Hstatus. by destruct (statusChanged _ _ _).
Qed.

End Realized.

(** *** The claims about the reconciler *)

(** C1, as the code has it: when the realizer returns an
    [ApplyStampedObjectError], the reconciler adds the
    [StampedObjectRejectedByAPIServer] condition.  For a cause other than
    a Forbidden API error it returns an error in every case.  When the
    later steps of the reconcile (registering the watch on a returned
    stamped object, updating the status) do not fail themselves, it
    returns nil to the runtime if the cause is a Forbidden API error and
    the realizer's error wrapped as unhandled otherwise. *)
Theorem apply_error_forbidden_is_handled (r : Reconciler) (req : Request)
    (runnable : Runnable) (secret : Secret) (client : Client)
    (obj : option Unstructured) (outputs : Outputs) (cause : error)
    (stamped : option Unstructured) :
  Repo_GetRunnable r (Request_Name req) (Request_Namespace req)
    = inr (Some runnable) →
  Repo_GetServiceAccountSecret r (serviceAccountName runnable)
    (Request_Namespace req) = inr secret →
  ClientBuilder r secret = inr client →
  Realizer_Realize r runnable client
    = (obj, outputs, Some (realizer_ApplyStampedObjectError cause stamped)) →
  let err := realizer_ApplyStampedObjectError cause stamped in
  AddPositiveCall (StampedObjectRejectedByAPIServerCondition err)
    ∈ (Reconcile r req).2
  ∧ (kerrors.IsForbidden cause = false →
     ∃ e, (Reconcile r req).1 = Some e
          ∧ (controller.IsUnhandledError e = true
             ∨ ∃ e',
                 e = fmt_Errorf "failed to update status for runnable" e'))
  ∧ ((∀ o, obj = Some o → DynamicTracker_Watch r o = None) →
     (∀ w, Repo_StatusUpdate r w = None) →
     (Reconcile r req).1 =
     if kerrors.IsForbidden cause then None
     else Some (controller.NewUnhandledError err)).
Proof.
  intros Hget Hsecret Hclient Hrealize err. split; [|split].
  - apply (Reconcile_adds_condition r req runnable secret client obj outputs
             err Hget Hsecret Hclient Hrealize).
  - intros Hcause.
    apply (Reconcile_unhandled_result r req runnable secret client obj
             outputs err Hget Hsecret Hclient Hrealize).
    cbn. by rewrite Hcause.
  - intros Hwatch Hstatus.
    rewrite (Reconcile_result_undisturbed r req runnable secret client obj
               outputs err Hget Hsecret Hclient Hrealize Hwatch Hstatus).
    cbn. by destruct (kerrors.IsForbidden cause).
Qed.

Lemma apply_error_forbidden_witness :
  let err :=
    realizer_ApplyStampedObjectError
      (StatusError StatusReasonForbidden "configmaps is forbidden") None in
  let r := fake_Reconciler (fake_Runnable "" 1) (None, None, Some err)
                           None None true in
  AddPositiveCall (StampedObjectRejectedByAPIServerCondition err)
    ∈ (Reconcile r fake_Request).2
  ∧ (Reconcile r fake_Request).1 = None.
Proof.
  pose proof (apply_error_forbidden_is_handled
                (fake_Reconciler (fake_Runnable "" 1)
                   (None, None,
                    Some (realizer_ApplyStampedObjectError
                            (StatusError StatusReasonForbidden
                               "configmaps is forbidden") None))
                   None None true)
                fake_Request (fake_Runnable "" 1) {| token := "default" |}
                {| impersonates := {| token := "default" |} |}
                None None
                (StatusError StatusReasonForbidden "configmaps is forbidden")
                None eq_refl eq_refl eq_refl eq_refl) as (Hadd & _ & Hres).
  split; [exact Hadd|]. apply Hres; [intros o H; reflexivity|reflexivity].
Defined.

(** C1 as stated fails: the cause of the [ApplyStampedObjectError] is a
    Forbidden API error, and yet the runtime gets an error, because the
    watch on the stamped object that came with the error fails (first
    reconciler), or because the status update fails (second one). *)
Lemma forbidden_apply_error_not_nil :
  let cause := StatusError StatusReasonForbidden "configmaps is forbidden" in
  let tracking := errorString "no informer for the kind" in
  let conflict := StatusError StatusReasonConflict "the object was modified" in
  let watchFails :=
    fake_Reconciler (fake_Runnable "" 1)
      (Some fake_Stamped, None,
       Some (realizer_ApplyStampedObjectError cause (Some fake_Stamped)))
      (Some tracking) None true in
  let updateFails :=
    fake_Reconciler (fake_Runnable "" 1)
      (None, None, Some (realizer_ApplyStampedObjectError cause None))
      None (Some conflict) true in
  kerrors.IsForbidden cause = true
  ∧ (Reconcile watchFails fake_Request).1
    = Some (controller.NewUnhandledError tracking)
  ∧ (Reconcile updateFails fake_Request).1
    = Some (fmt_Errorf "failed to update status for runnable" conflict)
  ∧ (Reconcile watchFails fake_Request).1 ≠ None
  ∧ (Reconcile updateFails fake_Request).1 ≠ None.
Proof.
  cbn zeta. split; [reflexivity|]. split; [reflexivity|].
  split; [reflexivity|]. split; discriminate.
Qed.

(** C2: in a reconcile that loaded a runnable, the repository's status
    update is called if and only if the condition manager reports a change,
    or the status' observed generation differs from the object's
    generation, or the realized outputs differ from the status' outputs;
    otherwise no status update is made. *)
Theorem status_update_iff_changed (r : Reconciler) (req : Request)
    (runnable : Runnable) :
  Repo_GetRunnable r (Request_Name req) (Request_Namespace req)
    = inr (Some runnable) →
  let tr := (Reconcile r req).2 in
  let changed :=
    (ConditionManager_Finalize r (Conditions (Status runnable))
       (added_in tr)).2 in
  let outputs := realized_outputs r tr in
  (∃ w, StatusUpdateCall w ∈ tr) ↔
  (changed = true
   ∨ ObservedGeneration (Status runnable) ≠ Generation runnable
   ∨ Outputs_ (Status runnable) ≠ outputs).
Proof.
  intros Hget tr changed outputs.
  setoid_rewrite elem_of_status_writes. subst tr changed outputs.
  rewrite (Reconcile_status_writes r req runnable Hget).
  rewrite <- (statusChanged_true _
    (with_Conditions runnable
       (ConditionManager_Finalize r (Conditions (Status runnable))
          (added_in (Reconcile r req).2)).1)).
  destruct (statusChanged _ _ _).
  - split; [done|]. intros _. eexists. apply list_elem_of_singleton. done.
  - split; [|done]. intros [w Hin]. by apply elem_of_nil in Hin.
Qed.

Lemma status_update_witness :
  let r := fake_Reconciler (fake_Runnable "" 1) (None, None, None)
                           None None false in
  ∃ w, StatusUpdateCall w ∈ (Reconcile r fake_Request).2.
Proof.
  apply (proj2 (status_update_iff_changed
                  (fake_Reconciler (fake_Runnable "" 1) (None, None, None)
                                   None None false)
                  fake_Request (fake_Runnable "" 1) eq_refl)).
  right. left. vm_compute. discriminate.
Defined.

(** C8, as the code has it: when the realizer fails to look up the run
    template ([GetRunTemplateError]), the reconciler adds the
    run-template-missing condition and returns an error to the runtime,
    never nil: the realizer's error wrapped as unhandled, or the unhandled
    failure of the watch, or the failure of the status update. *)
Theorem missing_run_template_is_unhandled (r : Reconciler) (req : Request)
    (runnable : Runnable) (secret : Secret) (client : Client)
    (obj : option Unstructured) (outputs : Outputs) (cause : error) :
  Repo_GetRunnable r (Request_Name req) (Request_Namespace req)
    = inr (Some runnable) →
  Repo_GetServiceAccountSecret r (serviceAccountName runnable)
    (Request_Namespace req) = inr secret →
  ClientBuilder r secret = inr client →
  Realizer_Realize r runnable client
    = (obj, outputs, Some (realizer_GetRunTemplateError cause)) →
  let err := realizer_GetRunTemplateError cause in
  AddPositiveCall (RunTemplateMissingCondition err) ∈ (Reconcile r req).2
  ∧ (∃ e, (Reconcile r req).1 = Some e
          ∧ (controller.IsUnhandledError e = true
             ∨ ∃ e',
                 e = fmt_Errorf "failed to update status for runnable" e'))
  ∧ ((∀ o, obj = Some o → DynamicTracker_Watch r o = None) →
     (∀ w, Repo_StatusUpdate r w = None) →
     (Reconcile r req).1 = Some (controller.NewUnhandledError err)).
Proof.
  intros Hget Hsecret Hclient Hrealize err. split; [|split].
  - apply (Reconcile_adds_condition r req runnable secret client obj outputs
             err Hget Hsecret Hclient Hrealize).
  - by apply (Reconcile_unhandled_result r req runnable secret client obj
                outputs err Hget Hsecret Hclient Hrealize).
  - intros Hwatch Hstatus.
    by rewrite (Reconcile_result_undisturbed r req runnable secret client obj
                  outputs err Hget Hsecret Hclient Hrealize Hwatch Hstatus).
Qed.

Lemma missing_run_template_witness :
  let err := realizer_GetRunTemplateError
               (StatusError StatusReasonNotFound "run template not found") in
  let r := fake_Reconciler (fake_Runnable "" 1) (None, None, Some err)
                           None None true in
  AddPositiveCall (RunTemplateMissingCondition err)
    ∈ (Reconcile r fake_Request).2
  ∧ (Reconcile r fake_Request).1 = Some (controller.NewUnhandledError err).
Proof.
  pose proof (missing_run_template_is_unhandled
                (fake_Reconciler (fake_Runnable "" 1)
                   (None, None,
                    Some (realizer_GetRunTemplateError
                            (StatusError StatusReasonNotFound
                               "run template not found")))
                   None None true)
                fake_Request (fake_Runnable "" 1) {| token := "default" |}
                {| impersonates := {| token := "default" |} |}
                None None
                (StatusError StatusReasonNotFound "run template not found")
                eq_refl eq_refl eq_refl eq_refl) as (Hadd & _ & Hres).
  split; [exact Hadd|]. apply Hres; [intros o H; reflexivity|reflexivity].
Defined.

(** C8 as stated fails: with a realizer that reports a missing run template
    and every other collaborator succeeding, the reconciler does not return
    nil but the unhandled error. *)
Lemma missing_run_template_not_nil :
  let err := realizer_GetRunTemplateError
               (StatusError StatusReasonNotFound "run template not found") in
  let r := fake_Reconciler (fake_Runnable "" 1) (None, None, Some err)
                           None None true in
  Realizer_Realize r (fake_Runnable "" 1)
    {| impersonates := {| token := "default" |} |} = (None, None, Some err)
  ∧ (Reconcile r fake_Request).1 = Some (unhandledError err)
  ∧ (Reconcile r fake_Request).1 ≠ None.
Proof. split; [reflexivity|]. split; [reflexivity|discriminate]. Qed.

(** The generation written by a status update. *)
Lemma status_write_generation r req runnable w :
  Repo_GetRunnable r (Request_Name req) (Request_Namespace req)
    = inr (Some runnable) →
  StatusUpdateCall w ∈ (Reconcile r req).2 →
  ObservedGeneration (Status w) = Generation runnable.
Proof.
  intros Hget Hin. apply elem_of_status_writes in Hin. revert Hin.
  rewrite (Reconcile_status_writes r req runnable Hget). cbn zeta.
  destruct (statusChanged _ _ _); [|by intros ?%elem_of_nil].
  intros ->%list_elem_of_singleton. reflexivity.
Qed.

(** C9: a status update writes, as observed generation, the generation of
    the object loaded at the start of the reconcile; hence of two
    reconciles of an object whose generation did not decrease, the second
    never writes a lower observed generation than the first. *)
Theorem observedGeneration_monotone (r1 r2 : Reconciler) (req : Request)
    (runnable1 runnable2 w1 w2 : Runnable) :
  Repo_GetRunnable r1 (Request_Name req) (Request_Namespace req)
    = inr (Some runnable1) →
  Repo_GetRunnable r2 (Request_Name req) (Request_Namespace req)
    = inr (Some runnable2) →
  (Generation runnable1 ≤ Generation runnable2)%Z →
  StatusUpdateCall w1 ∈ (Reconcile r1 req).2 →
  StatusUpdateCall w2 ∈ (Reconcile r2 req).2 →
  ObservedGeneration (Status w1) = Generation runnable1
  ∧ ObservedGeneration (Status w2) = Generation runnable2
  ∧ (ObservedGeneration (Status w1) ≤ ObservedGeneration (Status w2))%Z.
Proof.
  intros H1 H2 Hle Hw1 Hw2.
  rewrite (status_write_generation r1 req runnable1 w1 H1 Hw1).
  rewrite (status_write_generation r2 req runnable2 w2 H2 Hw2).
  done.
Qed.

Lemma observedGeneration_witness :
  let r1 := fake_Reconciler (fake_Runnable "" 1) (None, None, None)
                            None None false in
  let r2 := fake_Reconciler (fake_Runnable "" 2) (None, None, None)
                            None None false in
  let w1 := with_Outputs_and_ObservedGeneration
              (with_Conditions (fake_Runnable "" 1) []) None 1 in
  let w2 := with_Outputs_and_ObservedGeneration
              (with_Conditions (fake_Runnable "" 2) []) None 2 in
  StatusUpdateCall w1 ∈ (Reconcile r1 fake_Request).2
  ∧ StatusUpdateCall w2 ∈ (Reconcile r2 fake_Request).2
  ∧ ObservedGeneration (Status w1) = 1%Z
  ∧ ObservedGeneration (Status w2) = 2%Z
  ∧ (ObservedGeneration (Status w1) ≤ ObservedGeneration (Status w2))%Z.
Proof.
  intros r1 r2 w1 w2.
  assert (StatusUpdateCall w1 ∈ (Reconcile r1 fake_Request).2) as Hw1.
  { apply list_elem_of_In. vm_compute. do 6 right. left. reflexivity. }
  assert (StatusUpdateCall w2 ∈ (Reconcile r2 fake_Request).2) as Hw2.
  { apply list_elem_of_In. vm_compute. do 6 right. left. reflexivity. }
  split; [exact Hw1|]. split; [exact Hw2|].
  exact (observedGeneration_monotone r1 r2 fake_Request
           (fake_Runnable "" 1) (fake_Runnable "" 2) w1 w2 eq_refl eq_refl
           ltac:(vm_compute; discriminate) Hw1 Hw2).
Defined.

(** C10: in a reconcile that loaded a runnable, the one service-account
    secret looked up is that of the account named by
    [spec.serviceAccountName], or of ["default"] when that name is empty,
    in the namespace of the request by which the runnable was loaded. *)
Theorem default_service_account (r : Reconciler) (req : Request)
    (runnable : Runnable) :
  Repo_GetRunnable r (Request_Name req) (Request_Namespace req)
    = inr (Some runnable) →
  secret_lookups (Reconcile r req).2 =
  [(if String.eqb (ServiceAccountName (Spec runnable)) ""
    then "default" else ServiceAccountName (Spec runnable),
    Request_Namespace req)].
Proof.
  intros Hget. pose proof (Reconcile_loaded r req runnable Hget) as Heq.
  pose proof (before_completion_facts r req runnable) as Hf.
  destruct (before_completion r req runnable) as [[[pre cm] outputs] err].
  destruct Hf as (_ & Hsecret & _). rewrite Heq. cbn [snd].
  destruct (completion_adds_nothing pre r cm runnable outputs err)
    as (_ & -> & _).
  rewrite Hsecret. unfold serviceAccountName. do 2 f_equal.
  destruct (String.eqb_spec (ServiceAccountName (Spec runnable)) "")
    as [->|Hne].
  - by rewrite bool_decide_eq_false_2 by (intros H; by apply H).
  - by rewrite bool_decide_eq_true_2.
Qed.

Lemma default_service_account_witness :
  secret_lookups
    (Reconcile (fake_Reconciler (fake_Runnable "" 1) (None, None, None)
                                None None false) fake_Request).2
    = [("default", "my-namespace")]
  ∧ secret_lookups
      (Reconcile (fake_Reconciler (fake_Runnable "builder" 1)
                                  (None, None, None) None None false)
                 fake_Request).2
    = [("builder", "my-namespace")].
Proof.
  split.
  - exact (default_service_account
             (fake_Reconciler (fake_Runnable "" 1) (None, None, None)
                              None None false)
             fake_Request (fake_Runnable "" 1) eq_refl).
  - exact (default_service_account
             (fake_Reconciler (fake_Runnable "builder" 1) (None, None, None)
                              None None false)
             fake_Request (fake_Runnable "builder" 1) eq_refl).
Defined.

End Reconciler.

(** ** The mapper *)

Section MapperProperties.
Import registrar.
Context `{!LabelMatcher}.

(** *** Listing and best matches *)

Lemma Client_List_fst {A} mapper kind (items : list A) meta opts :
  (Client_List mapper kind items meta opts).1 =
  match ListError mapper kind opts with
  | Some err => inl err
  | None => inr (filter (λ x, selects opts (meta x) = true) items)
  end.
Proof. unfold Client_List. by destruct (ListError _ _ _). Qed.

Lemma addGVK_ok `{ClientObject A} mapper (obj : A) gvk :
  Scheme_ObjectKinds mapper (GoTypeOf obj) = inr ([gvk], false) →
  addGVK mapper obj = inr (SetGroupVersionKind obj gvk).
Proof. intros Hk. unfold addGVK. by rewrite Hk. Qed.

Lemma selects_noOptions om : selects noOptions om = true.
Proof.
  unfold selects, noOptions. cbn.
  rewrite bool_decide_eq_true_2 by (by left).
  rewrite bool_decide_eq_true_2; [done|]. apply map_Forall_empty.
Qed.

Lemma filter_noOptions {A} (meta : A → ObjectMeta) (items : list A) :
  filter (λ x, selects noOptions (meta x) = true) items = items.
Proof.
  induction items as [|x items IH]; [done|].
  rewrite filter_cons_True by apply selects_noOptions. by rewrite IH.
Qed.

Lemma clusterSupplyChainToWorkloads_ok mapper sc gvk :
  Scheme_ObjectKinds mapper TClusterSupplyChain = inr ([gvk], false) →
  ListError mapper KClusterSupplyChain noOptions = None →
  ListError mapper KWorkload (workloadsOptions sc) = None →
  ∃ workloads,
    (clusterSupplyChainToWorkloads mapper sc).1 = inr workloads ∧
    ∀ w, w ∈ workloads
         ↔ bestMatchedBy mapper (SetGroupVersionKind sc gvk) w.
Proof.
  intros Hk Hsc Hwl. unfold clusterSupplyChainToWorkloads.
  rewrite (addGVK_ok mapper sc gvk) by exact Hk.
  rewrite bind_fst, Client_List_fst, Hsc, bind_fst, Client_List_fst.
  change (GetNamespace (SetGroupVersionKind sc gvk)) with (GetNamespace sc).
  change (sc_Selector (sc_Spec (SetGroupVersionKind sc gvk)))
    with (sc_Selector (sc_Spec sc)).
  fold (workloadsOptions sc). rewrite Hwl. eexists. split; [reflexivity|].
  intros w. rewrite elem_of_flat_map. unfold bestMatchedBy.
  rewrite filter_noOptions.
  split.
  - intros (w' & Hin & Hw). apply elem_of_flat_map in Hw as (m & Hm & Hw).
    case_bool_decide; [|by apply elem_of_nil in Hw].
    apply list_elem_of_singleton in Hw. subst.
    apply list_elem_of_filter in Hin as [Hsel Hin]. done.
  - intros (Hin & Hsel & Hbest). exists w. split.
    + apply list_elem_of_filter. done.
    + apply elem_of_flat_map. exists (SetGroupVersionKind sc gvk).
      split; [done|].
      rewrite bool_decide_eq_true_2 by done. apply list_elem_of_singleton. done.
Qed.

Lemma clusterSupplyChainToWorkloads_inr mapper sc workloads :
  (clusterSupplyChainToWorkloads mapper sc).1 = inr workloads →
  ∃ gvk,
    Scheme_ObjectKinds mapper TClusterSupplyChain = inr ([gvk], false)
    ∧ ListError mapper KClusterSupplyChain noOptions = None
    ∧ ListError mapper KWorkload (workloadsOptions sc) = None.
Proof.
  unfold clusterSupplyChainToWorkloads, addGVK.
  change (GoTypeOf sc) with TClusterSupplyChain.
  destruct (Scheme_ObjectKinds mapper TClusterSupplyChain)
    as [err|[gvks unversioned]] eqn:Hk; [done|].
  destruct unversioned; [done|].
  destruct gvks as [|gvk [|gvk' gvks]]; [done| |done].
  rewrite bind_fst, Client_List_fst.
  destruct (ListError mapper KClusterSupplyChain noOptions) as [err|] eqn:Hsc;
    [done|].
  rewrite bind_fst, Client_List_fst.
  change (GetNamespace (SetGroupVersionKind sc gvk)) with (GetNamespace sc).
  change (sc_Selector (sc_Spec (SetGroupVersionKind sc gvk)))
    with (sc_Selector (sc_Spec sc)).
  fold (workloadsOptions sc).
  destruct (ListError mapper KWorkload (workloadsOptions sc)) as [err|] eqn:Hwl;
    [done|].
  intros _. by exists gvk.
Qed.

(** C3, as the code has it: on a change of the supply chain [sc], when the
    scheme knows one kind for supply chains and the listing of the supply
    chains and that of the workloads succeed, the requests returned are
    exactly the names and namespaces of the workloads in the namespace of
    [sc] (any namespace when, as for a cluster-scoped object, it has
    none) whose labels match the selector of [sc] and among whose best
    label matches, over the supply chains listed, is an object deeply
    equal to [sc] with its kind set.  When the scheme does not know one
    kind, or one of the two listings fails, no request is returned. *)
Theorem supply_chain_enqueues_best_matched (mapper : Client)
    (sc : ClusterSupplyChain) :
  let result :=
    (ClusterSupplyChainToWorkloadRequests mapper
       (ObjClusterSupplyChain sc)).1 in
  (∀ gvk,
     Scheme_ObjectKinds mapper TClusterSupplyChain = inr ([gvk], false) →
     ListError mapper KClusterSupplyChain noOptions = None →
     ListError mapper KWorkload (workloadsOptions sc) = None →
     ∀ req,
       req ∈ result ↔
       ∃ w, w ∈ Workloads mapper
            ∧ req = {| Request_Name := Name (wl_ObjectMeta w);
                       Request_Namespace := Namespace (wl_ObjectMeta w) |}
            ∧ (Namespace (sc_ObjectMeta sc) = ""
               ∨ Namespace (wl_ObjectMeta w) = Namespace (sc_ObjectMeta sc))
            ∧ labelsMatch (sc_Selector (sc_Spec sc))
                          (Labels (wl_ObjectMeta w))
            ∧ SetGroupVersionKind sc gvk
                ∈ BestLabelMatches (λ s, sc_Selector (sc_Spec s))
                    (Labels (wl_ObjectMeta w)) (ClusterSupplyChains mapper))
  ∧ ((∀ gvk,
        Scheme_ObjectKinds mapper TClusterSupplyChain ≠ inr ([gvk], false))
     ∨ ListError mapper KClusterSupplyChain noOptions ≠ None
     ∨ ListError mapper KWorkload (workloadsOptions sc) ≠ None →
     result = []).
Proof.
  cbn zeta. split.
  - intros gvk Hk Hsc Hwl req.
    destruct (clusterSupplyChainToWorkloads_ok mapper sc gvk Hk Hsc Hwl)
      as (workloads & Heq & Hiff).
    unfold ClusterSupplyChainToWorkloadRequests. rewrite bind_fst, Heq. cbn.
    rewrite list_elem_of_fmap. setoid_rewrite Hiff.
    unfold bestMatchedBy, selects.
    change (InNamespace (workloadsOptions (SetGroupVersionKind sc gvk)))
      with (Namespace (sc_ObjectMeta sc)).
    change (MatchingLabels (workloadsOptions (SetGroupVersionKind sc gvk)))
      with (sc_Selector (sc_Spec sc)).
    setoid_rewrite andb_true_iff. setoid_rewrite bool_decide_eq_true.
    split.
    + intros (w & -> & Hin & [Hns Hl] & Hbest). exists w. done.
    + intros (w & Hin & -> & Hns & Hl & Hbest). exists w. done.
  - intros Hfail. unfold ClusterSupplyChainToWorkloadRequests.
    rewrite bind_fst.
    destruct (clusterSupplyChainToWorkloads mapper sc).1 as [err|ws] eqn:Heq;
      [done|].
    apply clusterSupplyChainToWorkloads_inr in Heq as (gvk & Hk & Hsc & Hwl).
    destruct Hfail as [Hf|[Hf|Hf]];
      [by destruct (Hf gvk)|by destruct Hf|by destruct Hf].
Qed.

Lemma elem_of_directWorkloads sa items req :
  req ∈ directWorkloads sa items ↔
  ∃ w, w ∈ items ∧ namesServiceAccount sa w
       ∧ req = requestFor (wl_ObjectMeta w).
Proof.
  unfold directWorkloads.
  assert (∀ m : gset Request,
    req ∈ foldl (λ requestMap workload,
           if bool_decide
                (Namespace (wl_ObjectMeta workload) = GetNamespace sa
                 ∧ wl_ServiceAccountName workload = GetName sa)
           then {[ requestFor (wl_ObjectMeta workload) ]} ∪ requestMap
           else requestMap) m items ↔
    req ∈ m ∨ ∃ w, w ∈ items ∧ namesServiceAccount sa w
                   ∧ req = requestFor (wl_ObjectMeta w)) as Hgen.
  { induction items as [|w items IH]; intros m; cbn.
    - split; [by left|]. intros [?|(w & Hin & _)]; [done|].
      by apply elem_of_nil in Hin.
    - rewrite IH. setoid_rewrite elem_of_cons. unfold namesServiceAccount.
      case_bool_decide; set_solver. }
  rewrite Hgen. set_solver.
Qed.

Lemma elem_of_addIndirectWorkloads sa sc ws (m : gset Request) req :
  req ∈ foldl (addIndirectWorkload sa sc) m ws ↔
  req ∈ m ∨ ∃ w, w ∈ ws ∧ fallsBackOn sa sc w
                 ∧ req = requestFor (wl_ObjectMeta w).
Proof.
  revert m. induction ws as [|w ws IH]; intros m; cbn.
  - split; [by left|]. intros [?|(w & Hin & _)]; [done|].
    by apply elem_of_nil in Hin.
  - rewrite IH. setoid_rewrite elem_of_cons.
    unfold addIndirectWorkload, fallsBackOn.
    repeat case_bool_decide; set_solver.
Qed.

Lemma indirectWorkloads_ok mapper sa gvk supplyChains
    (requestMap : gset Request) :
  Scheme_ObjectKinds mapper TClusterSupplyChain = inr ([gvk], false) →
  ListError mapper KClusterSupplyChain noOptions = None →
  (∀ sc, sc ∈ supplyChains →
         ListError mapper KWorkload (workloadsOptions sc) = None) →
  ∃ result,
    (indirectWorkloads mapper sa supplyChains requestMap).1 = Some result ∧
    ∀ req, req ∈ result ↔
      req ∈ requestMap
      ∨ ∃ sc w, sc ∈ supplyChains
                ∧ bestMatchedBy mapper (SetGroupVersionKind sc gvk) w
                ∧ fallsBackOn sa sc w
                ∧ req = requestFor (wl_ObjectMeta w).
Proof.
  intros Hk Hsc. revert requestMap.
  induction supplyChains as [|sc scs IH]; intros requestMap Hwl.
  - exists requestMap. split; [done|]. intros req. split; [by left|].
    intros [?|(sc & w & Hin & _)]; [done|]. by apply elem_of_nil in Hin.
  - destruct (clusterSupplyChainToWorkloads_ok mapper sc gvk Hk Hsc)
      as (workloads & Heq & Hiff); [apply Hwl; left|].
    cbn [indirectWorkloads]. rewrite bind_fst, Heq.
    destruct (IH (foldl (addIndirectWorkload sa sc) requestMap workloads))
      as (result & Hres & Hmem); [intros sc' Hin; apply Hwl; by right|].
    exists result. split; [done|]. intros req. rewrite Hmem.
    rewrite elem_of_addIndirectWorkloads. setoid_rewrite Hiff.
    setoid_rewrite elem_of_cons. split.
    + intros [[?|(w & Hb & Hf & ->)]|(sc' & w & Hin & Hb & Hf & ->)].
      * by left.
      * right. exists sc, w. auto.
      * right. exists sc', w. auto.
    + intros [?|(sc' & w & [->|Hin] & Hb & Hf & ->)].
      * left. by left.
      * left. right. exists w. auto.
      * right. exists sc', w. auto.
Qed.

Lemma serviceAccountToSupplyChains_ok mapper sa :
  ListError mapper KClusterSupplyChain noOptions = None →
  (serviceAccountToSupplyChains mapper sa).1 =
  filter (λ sc, SARef_Name (sc_ServiceAccountRef (sc_Spec sc)) = GetName sa)
         (ClusterSupplyChains mapper).
Proof.
  intros Hsc. unfold serviceAccountToSupplyChains.
  rewrite bind_fst, Client_List_fst, Hsc. cbn. by rewrite filter_noOptions.
Qed.

Lemma indirectWorkloads_failed mapper sa supplyChains
    (requestMap : gset Request) sc err :
  sc ∈ supplyChains →
  (clusterSupplyChainToWorkloads mapper sc).1 = inl err →
  (indirectWorkloads mapper sa supplyChains requestMap).1 = None.
Proof.
  intros Hin Hfail. revert requestMap.
  induction supplyChains as [|sc' scs IH]; intros requestMap.
  { by apply elem_of_nil in Hin. }
  cbn [indirectWorkloads]. rewrite bind_fst.
  destruct (clusterSupplyChainToWorkloads mapper sc').1 as [err'|ws] eqn:Heq.
  { done. }
  apply elem_of_cons in Hin as [->|Hin].
  { rewrite Hfail in Heq. discriminate. }
  by apply IH.
Qed.

(** C4, as the code has it: on a change of a service account, when the
    scheme knows one kind for supply chains and the listing of the
    workloads, that of the supply chains and that of the workloads of
    every supply chain whose [serviceAccountRef] names the account
    succeed, the requests returned are exactly the names and namespaces of
    the workloads in the account's namespace that name it in
    [spec.serviceAccountName], and of the workloads best matched by a
    supply chain whose [serviceAccountRef] names the account, provided the
    workload names no service account itself and the reference's namespace
    is the account's, or is empty while the workload's namespace is the
    account's.  No request at all is returned when the workloads cannot be
    listed, and when the supply chains can be listed but the lookup of the
    workloads of one that names the account fails. *)
Theorem service_account_enqueues (mapper : Client) (sa : Object) :
  let result := (ServiceAccountToWorkloadRequests mapper sa).1 in
  let named sc := SARef_Name (sc_ServiceAccountRef (sc_Spec sc)) = GetName sa in
  (∀ gvk,
     Scheme_ObjectKinds mapper TClusterSupplyChain = inr ([gvk], false) →
     ListError mapper KWorkload noOptions = None →
     ListError mapper KClusterSupplyChain noOptions = None →
     (∀ sc, sc ∈ ClusterSupplyChains mapper → named sc →
            ListError mapper KWorkload (workloadsOptions sc) = None) →
     ∀ req,
       req ∈ result ↔
       (∃ w, w ∈ Workloads mapper
             ∧ Namespace (wl_ObjectMeta w) = GetNamespace sa
             ∧ wl_ServiceAccountName w = GetName sa
             ∧ req = {| Request_Name := Name (wl_ObjectMeta w);
                        Request_Namespace := Namespace (wl_ObjectMeta w) |})
       ∨ (∃ sc w,
             sc ∈ ClusterSupplyChains mapper
             ∧ named sc
             ∧ bestMatchedBy mapper (SetGroupVersionKind sc gvk) w
             ∧ wl_ServiceAccountName w = ""
             ∧ (SARef_Namespace (sc_ServiceAccountRef (sc_Spec sc))
                  = GetNamespace sa
                ∨ (SARef_Namespace (sc_ServiceAccountRef (sc_Spec sc)) = ""
                   ∧ Namespace (wl_ObjectMeta w) = GetNamespace sa))
             ∧ req = {| Request_Name := Name (wl_ObjectMeta w);
                        Request_Namespace := Namespace (wl_ObjectMeta w) |}))
  ∧ (ListError mapper KWorkload noOptions ≠ None → result = [])
  ∧ (ListError mapper KClusterSupplyChain noOptions = None →
     (∃ sc err, sc ∈ ClusterSupplyChains mapper ∧ named sc
                ∧ (clusterSupplyChainToWorkloads mapper sc).1 = inl err) →
     result = []).
Proof.
  cbn zeta. split; [|split].
  - intros gvk Hk Hwl Hsc Hlist req. unfold ServiceAccountToWorkloadRequests.
    rewrite bind_fst, Client_List_fst, Hwl, filter_noOptions.
    rewrite !bind_fst, serviceAccountToSupplyChains_ok by exact Hsc.
    destruct (indirectWorkloads_ok mapper sa gvk
                (filter (λ sc, SARef_Name (sc_ServiceAccountRef (sc_Spec sc))
                               = GetName sa) (ClusterSupplyChains mapper))
                (directWorkloads sa (Workloads mapper)) Hk Hsc)
      as (result & -> & Hmem).
    { intros sc [Hn Hin]%list_elem_of_filter. by apply Hlist. }
    cbn. rewrite elem_of_elements, Hmem, elem_of_directWorkloads.
    setoid_rewrite list_elem_of_filter.
    unfold namesServiceAccount, fallsBackOn.
    split.
    + intros [(w & ? & [? ?] & ->)|(sc & w & [? ?] & ? & [? ?] & ->)].
      * left. exists w. done.
      * right. exists sc, w. done.
    + intros [(w & ? & ? & ? & ->)|(sc & w & ? & ? & ? & ? & ? & ->)].
      * left. exists w. done.
      * right. exists sc, w. done.
  - intros Hwl. unfold ServiceAccountToWorkloadRequests.
    rewrite bind_fst, Client_List_fst.
    by destruct (ListError mapper KWorkload noOptions).
  - intros Hsc (sc & err & Hin & Href & Hfail).
    unfold ServiceAccountToWorkloadRequests. rewrite bind_fst.
    destruct (Client_List _ _ _ _ _).1 as [err'|items]; [done|].
    rewrite !bind_fst, serviceAccountToSupplyChains_ok by done.
    rewrite (indirectWorkloads_failed _ _ _ _ sc err); [done| |done].
    by apply list_elem_of_filter.
Qed.

(** *** Duplicates *)

Lemma ServiceAccountToWorkloadRequests_NoDup mapper sa :
  NoDup (ServiceAccountToWorkloadRequests mapper sa).1.
Proof.
  unfold ServiceAccountToWorkloadRequests. rewrite bind_fst.
  destruct (Client_List _ _ _ _ _).1 as [err|items]; [apply NoDup_nil_2|].
  rewrite !bind_fst.
  destruct (indirectWorkloads _ _ _ _).1 as [requestMap|];
    [apply NoDup_elements|apply NoDup_nil_2].
Qed.

Lemma ServiceAccountToDeliverableRequests_NoDup mapper sa :
  NoDup (ServiceAccountToDeliverableRequests mapper sa).1.
Proof.
  unfold ServiceAccountToDeliverableRequests. rewrite bind_fst.
  destruct (Client_List _ _ _ _ _).1 as [err|items]; [apply NoDup_nil_2|].
  rewrite !bind_fst. apply NoDup_elements.
Qed.

Lemma ServiceAccountToRunnableRequests_NoDup mapper sa :
  NoDup ((requestFor ∘ rn_ObjectMeta) <$> Runnables mapper) →
  NoDup (ServiceAccountToRunnableRequests mapper sa).1.
Proof.
  intros Hnd. unfold ServiceAccountToRunnableRequests.
  rewrite bind_fst, Client_List_fst.
  destruct (ListError _ _ _); [apply NoDup_nil_2|]. cbn.
  eapply sublist_NoDup; [exact Hnd|].
  apply fmap_sublist. etrans; apply sublist_filter.
Qed.

Lemma RoleBindingToWorkloadRequests_NoDup mapper obj :
  NoDup (RoleBindingToWorkloadRequests mapper obj).1.
Proof.
  destruct obj; try apply NoDup_nil_2. unfold RoleBindingToWorkloadRequests.
  destruct (find _ _); [|apply NoDup_nil_2]. rewrite bind_fst.
  destruct (Client_Get _ _).1 as [[? ?]|?]; [rewrite bind_fst|];
    apply ServiceAccountToWorkloadRequests_NoDup.
Qed.

Lemma ClusterRoleBindingToWorkloadRequests_NoDup mapper obj :
  NoDup (ClusterRoleBindingToWorkloadRequests mapper obj).1.
Proof.
  destruct obj; try apply NoDup_nil_2.
  unfold ClusterRoleBindingToWorkloadRequests.
  destruct (find _ _); [|apply NoDup_nil_2]. rewrite bind_fst.
  destruct (Client_Get _ _).1 as [[? ?]|?]; [apply NoDup_nil_2|];
    apply ServiceAccountToWorkloadRequests_NoDup.
Qed.

Lemma RoleBindingToDeliverableRequests_NoDup mapper obj :
  NoDup (RoleBindingToDeliverableRequests mapper obj).1.
Proof.
  destruct obj; try apply NoDup_nil_2. unfold RoleBindingToDeliverableRequests.
  destruct (find _ _); [|apply NoDup_nil_2]. rewrite bind_fst.
  destruct (Client_Get _ _).1 as [[? ?]|?]; [rewrite bind_fst|];
    apply ServiceAccountToDeliverableRequests_NoDup.
Qed.

Lemma ClusterRoleBindingToDeliverableRequests_NoDup mapper obj :
  NoDup (ClusterRoleBindingToDeliverableRequests mapper obj).1.
Proof.
  destruct obj; try apply NoDup_nil_2.
  unfold ClusterRoleBindingToDeliverableRequests.
  destruct (find _ _); [|apply NoDup_nil_2]. rewrite bind_fst.
  destruct (Client_Get _ _).1 as [[? ?]|?]; [apply NoDup_nil_2|];
    apply ServiceAccountToDeliverableRequests_NoDup.
Qed.

Lemma RoleBindingToRunnableRequests_NoDup mapper obj :
  NoDup ((requestFor ∘ rn_ObjectMeta) <$> Runnables mapper) →
  NoDup (RoleBindingToRunnableRequests mapper obj).1.
Proof.
  intros Hnd.
  destruct obj; try apply NoDup_nil_2. unfold RoleBindingToRunnableRequests.
  destruct (find _ _); [|apply NoDup_nil_2]. rewrite bind_fst.
  destruct (Client_Get _ _).1 as [[? ?]|?]; [rewrite bind_fst|];
    by apply ServiceAccountToRunnableRequests_NoDup.
Qed.

Lemma ClusterRoleBindingToRunnableRequests_NoDup mapper obj :
  NoDup ((requestFor ∘ rn_ObjectMeta) <$> Runnables mapper) →
  NoDup (ClusterRoleBindingToRunnableRequests mapper obj).1.
Proof.
  intros Hnd.
  destruct obj; try apply NoDup_nil_2.
  unfold ClusterRoleBindingToRunnableRequests.
  destruct (find _ _); [|apply NoDup_nil_2]. rewrite bind_fst.
  destruct (Client_Get _ _).1 as [[? ?]|?]; [apply NoDup_nil_2|];
    by apply ServiceAccountToRunnableRequests_NoDup.
Qed.

(** *** Logging *)

Lemma Logged_app tr1 tr2 : Logged tr1 → Logged tr2 → Logged (tr1 ++ tr2).
Proof. induction 1; intros; cbn; try constructor; auto. Qed.

Lemma Logged_bind {A B} (m : M A) (k : A → M B) :
  Logged m.2 → Logged (k m.1).2 → Logged (m ≫= k).2.
Proof. rewrite bind_snd. apply Logged_app. Qed.

Lemma Logged_appendEach {A B} (f : A → M (list B)) (xs : list A) :
  (∀ x, Logged (f x).2) → Logged (appendEach f xs).2.
Proof.
  intros Hf. induction xs as [|x xs IH]; [constructor|].
  cbn [appendEach]. apply Logged_bind; [apply Hf|].
  apply Logged_bind; [apply IH|constructor].
Qed.

Lemma carries_refl err : carries err err.
Proof. by left. Qed.

Lemma carries_wrap msg err : carries err (fmt_Errorf msg err).
Proof. right. by exists msg. Qed.

(** A [List] whose failure the continuation logs first. *)
Lemma Logged_List {A B} mapper kind (items : list A) meta opts
    (k : error + list A → M B) :
  (∀ err, ∃ err' msg tr,
      (k (inl err)).2 = LoggerError (Some err') msg :: tr
      ∧ carries err err' ∧ Logged tr) →
  (∀ l, Logged (k (inr l)).2) →
  Logged (Client_List mapper kind items meta opts ≫= k).2.
Proof.
  intros Hfail Hok. rewrite bind_snd. unfold Client_List.
  destruct (ListError mapper kind opts) as [err|]; cbn.
  - destruct (Hfail err) as (err' & msg & tr & -> & Hc & Htr).
    by constructor.
  - constructor. apply Hok.
Qed.

Lemma Logged_Get {B} mapper key
    (k : error * ServiceAccount + ServiceAccount → M B) :
  (∀ err object, ∃ err' msg tr,
      (k (inl (err, object))).2 = LoggerError (Some err') msg :: tr
      ∧ carries err err' ∧ Logged tr) →
  (∀ sa, Logged (k (inr sa)).2) →
  Logged (Client_Get mapper key ≫= k).2.
Proof.
  intros Hfail Hok. rewrite bind_snd. unfold Client_Get.
  destruct (GetServiceAccount mapper key) as [[err object]|sa]; cbn.
  - destruct (Hfail err object) as (err' & msg & tr & -> & Hc & Htr).
    by constructor.
  - constructor. apply Hok.
Qed.

Lemma Logged_log_then {B} err msg (k : M B) :
  Logged k.2 → Logged (Logger_Error err msg;; k).2.
Proof. intros Hk. rewrite bind_snd. cbn. by constructor. Qed.

Lemma Logged_ret {A} (a : A) : Logged (mret a : M A).2.
Proof. constructor. Qed.

(** Discharge one [List] or [Get] followed by its handling. *)
Ltac logged_failure :=
  intros; do 3 eexists; split; [reflexivity|];
  split; [first [apply carries_refl | apply carries_wrap]|].

Ltac logged_step :=
  lazymatch goal with
  | |- Logged (Client_List _ _ _ _ _ ≫= _).2 =>
    apply Logged_List; [logged_failure|intros ?]
  | |- Logged (Client_Get _ _ ≫= _).2 =>
    apply Logged_Get; [logged_failure|intros ?]
  | |- Logged (Logger_Error _ _ ≫= _).2 => apply Logged_log_then
  | |- Logged (mret _).2 => apply Logged_ret
  | |- Logged (appendEach _ _).2 => apply Logged_appendEach; intros ?
  | |- Logged (match ?x with _ => _ end).2 => destruct x
  | |- Logged (if ?b then _ else _).2 => destruct b
  | |- Logged (_ ≫= _).2 => apply Logged_bind
  | |- Logged [] => constructor
  end.

Lemma templateToSupplyChains_Logged mapper template :
  Logged (templateToSupplyChains mapper template).2.
Proof. unfold templateToSupplyChains. repeat logged_step. Qed.

Lemma clusterSupplyChainToWorkloads_Logged mapper sc :
  Logged (clusterSupplyChainToWorkloads mapper sc).2.
Proof. unfold clusterSupplyChainToWorkloads. repeat logged_step. Qed.

Lemma templateToDeliveries_Logged mapper obj :
  Logged (templateToDeliveries mapper obj).2.
Proof. unfold templateToDeliveries. repeat logged_step. Qed.

Lemma clusterDeliveryToDeliverables_Logged mapper obj :
  Logged (clusterDeliveryToDeliverables mapper obj).2.
Proof. unfold clusterDeliveryToDeliverables. repeat logged_step. Qed.

Lemma ClusterSupplyChainToWorkloadRequests_Logged mapper obj :
  Logged (ClusterSupplyChainToWorkloadRequests mapper obj).2.
Proof.
  unfold ClusterSupplyChainToWorkloadRequests.
  repeat logged_step;
    auto using clusterSupplyChainToWorkloads_Logged.
Qed.

Lemma ClusterDeliveryToDeliverableRequests_Logged mapper obj :
  Logged (ClusterDeliveryToDeliverableRequests mapper obj).2.
Proof.
  unfold ClusterDeliveryToDeliverableRequests.
  repeat logged_step;
    auto using clusterDeliveryToDeliverables_Logged.
Qed.

Lemma TemplateToWorkloadRequests_Logged mapper obj :
  Logged (TemplateToWorkloadRequests mapper obj).2.
Proof.
  unfold TemplateToWorkloadRequests.
  repeat logged_step;
    auto using templateToSupplyChains_Logged,
      ClusterSupplyChainToWorkloadRequests_Logged.
Qed.

Lemma TemplateToDeliverableRequests_Logged mapper obj :
  Logged (TemplateToDeliverableRequests mapper obj).2.
Proof.
  unfold TemplateToDeliverableRequests.
  repeat logged_step;
    auto using templateToDeliveries_Logged,
      ClusterDeliveryToDeliverableRequests_Logged.
Qed.

Lemma TemplateToSupplyChainRequests_Logged mapper obj :
  Logged (TemplateToSupplyChainRequests mapper obj).2.
Proof.
  unfold TemplateToSupplyChainRequests.
  repeat logged_step;
    auto using templateToSupplyChains_Logged.
Qed.

Lemma TemplateToDeliveryRequests_Logged mapper obj :
  Logged (TemplateToDeliveryRequests mapper obj).2.
Proof.
  unfold TemplateToDeliveryRequests.
  repeat logged_step;
    auto using templateToDeliveries_Logged.
Qed.

Lemma RunTemplateToRunnableRequests_Logged mapper obj :
  Logged (RunTemplateToRunnableRequests mapper obj).2.
Proof. unfold RunTemplateToRunnableRequests. repeat logged_step. Qed.

Lemma serviceAccountToSupplyChains_Logged mapper obj :
  Logged (serviceAccountToSupplyChains mapper obj).2.
Proof. unfold serviceAccountToSupplyChains. repeat logged_step. Qed.

Lemma serviceAccountToDeliveries_Logged mapper obj :
  Logged (serviceAccountToDeliveries mapper obj).2.
Proof. unfold serviceAccountToDeliveries. repeat logged_step. Qed.

Lemma indirectWorkloads_Logged mapper sa supplyChains requestMap :
  Logged (indirectWorkloads mapper sa supplyChains requestMap).2.
Proof.
  revert requestMap. induction supplyChains as [|sc scs IH]; intros requestMap.
  - constructor.
  - cbn [indirectWorkloads]. apply Logged_bind;
      [apply clusterSupplyChainToWorkloads_Logged|].
    repeat logged_step. apply IH.
Qed.

Lemma indirectDeliverables_Logged mapper sa deliveries requestMap :
  Logged (indirectDeliverables mapper sa deliveries requestMap).2.
Proof.
  revert requestMap. induction deliveries as [|d ds IH]; intros requestMap.
  - constructor.
  - cbn [indirectDeliverables]. apply Logged_bind;
      [apply clusterDeliveryToDeliverables_Logged|].
    apply Logged_bind; [repeat logged_step|apply IH].
Qed.

Lemma ServiceAccountToWorkloadRequests_Logged mapper obj :
  Logged (ServiceAccountToWorkloadRequests mapper obj).2.
Proof.
  unfold ServiceAccountToWorkloadRequests.
  repeat logged_step;
    auto using serviceAccountToSupplyChains_Logged,
      indirectWorkloads_Logged.
Qed.

Lemma ServiceAccountToDeliverableRequests_Logged mapper obj :
  Logged (ServiceAccountToDeliverableRequests mapper obj).2.
Proof.
  unfold ServiceAccountToDeliverableRequests.
  repeat logged_step;
    auto using serviceAccountToDeliveries_Logged,
      indirectDeliverables_Logged.
Qed.

Lemma ServiceAccountToRunnableRequests_Logged mapper obj :
  Logged (ServiceAccountToRunnableRequests mapper obj).2.
Proof. unfold ServiceAccountToRunnableRequests. repeat logged_step. Qed.

Lemma RoleBindingToWorkloadRequests_Logged mapper obj :
  Logged (RoleBindingToWorkloadRequests mapper obj).2.
Proof.
  unfold RoleBindingToWorkloadRequests.
  repeat logged_step;
    auto using ServiceAccountToWorkloadRequests_Logged.
Qed.

Lemma ClusterRoleBindingToWorkloadRequests_Logged mapper obj :
  Logged (ClusterRoleBindingToWorkloadRequests mapper obj).2.
Proof.
  unfold ClusterRoleBindingToWorkloadRequests.
  repeat logged_step;
    auto using ServiceAccountToWorkloadRequests_Logged.
Qed.

Lemma RoleToWorkloadRequests_Logged mapper obj :
  Logged (RoleToWorkloadRequests mapper obj).2.
Proof.
  unfold RoleToWorkloadRequests.
  repeat logged_step;
    auto using RoleBindingToWorkloadRequests_Logged.
Qed.

Lemma ClusterRoleToWorkloadRequests_Logged mapper obj :
  Logged (ClusterRoleToWorkloadRequests mapper obj).2.
Proof.
  unfold ClusterRoleToWorkloadRequests.
  repeat logged_step;
    auto using RoleBindingToWorkloadRequests_Logged,
      ClusterRoleBindingToWorkloadRequests_Logged.
Qed.

Lemma RoleBindingToDeliverableRequests_Logged mapper obj :
  Logged (RoleBindingToDeliverableRequests mapper obj).2.
Proof.
  unfold RoleBindingToDeliverableRequests.
  repeat logged_step;
    auto using ServiceAccountToDeliverableRequests_Logged.
Qed.

Lemma ClusterRoleBindingToDeliverableRequests_Logged mapper obj :
  Logged (ClusterRoleBindingToDeliverableRequests mapper obj).2.
Proof.
  unfold ClusterRoleBindingToDeliverableRequests.
  repeat logged_step;
    auto using ServiceAccountToDeliverableRequests_Logged.
Qed.

Lemma RoleToDeliverableRequests_Logged mapper obj :
  Logged (RoleToDeliverableRequests mapper obj).2.
Proof.
  unfold RoleToDeliverableRequests.
  repeat logged_step;
    auto using RoleBindingToDeliverableRequests_Logged.
Qed.

Lemma ClusterRoleToDeliverableRequests_Logged mapper obj :
  Logged (ClusterRoleToDeliverableRequests mapper obj).2.
Proof.
  unfold ClusterRoleToDeliverableRequests.
  repeat logged_step;
    auto using RoleBindingToDeliverableRequests_Logged,
      ClusterRoleBindingToDeliverableRequests_Logged.
Qed.

Lemma RoleBindingToRunnableRequests_Logged mapper obj :
  Logged (RoleBindingToRunnableRequests mapper obj).2.
Proof.
  unfold RoleBindingToRunnableRequests.
  repeat logged_step;
    auto using ServiceAccountToRunnableRequests_Logged.
Qed.

Lemma ClusterRoleBindingToRunnableRequests_Logged mapper obj :
  Logged (ClusterRoleBindingToRunnableRequests mapper obj).2.
Proof.
  unfold ClusterRoleBindingToRunnableRequests.
  repeat logged_step;
    auto using ServiceAccountToRunnableRequests_Logged.
Qed.

Lemma RoleToRunnableRequests_Logged mapper obj :
  Logged (RoleToRunnableRequests mapper obj).2.
Proof.
  unfold RoleToRunnableRequests.
  repeat logged_step;
    auto using RoleBindingToRunnableRequests_Logged.
Qed.

Lemma ClusterRoleToRunnableRequests_Logged mapper obj :
  Logged (ClusterRoleToRunnableRequests mapper obj).2.
Proof.
  unfold ClusterRoleToRunnableRequests.
  repeat logged_step;
    auto using RoleBindingToRunnableRequests_Logged,
      ClusterRoleBindingToRunnableRequests_Logged.
Qed.

Lemma run_Logged f mapper obj : Logged (run f mapper obj).2.
Proof.
  destruct f; cbn [run];
    auto using TemplateToDeliverableRequests_Logged,
      TemplateToWorkloadRequests_Logged,
      ClusterSupplyChainToWorkloadRequests_Logged,
      ClusterDeliveryToDeliverableRequests_Logged,
      RunTemplateToRunnableRequests_Logged,
      TemplateToSupplyChainRequests_Logged, TemplateToDeliveryRequests_Logged,
      ServiceAccountToWorkloadRequests_Logged,
      RoleBindingToWorkloadRequests_Logged,
      ClusterRoleBindingToWorkloadRequests_Logged,
      RoleToWorkloadRequests_Logged, ClusterRoleToWorkloadRequests_Logged,
      ServiceAccountToDeliverableRequests_Logged,
      RoleBindingToDeliverableRequests_Logged,
      ClusterRoleBindingToDeliverableRequests_Logged,
      RoleToDeliverableRequests_Logged, ClusterRoleToDeliverableRequests_Logged,
      ServiceAccountToRunnableRequests_Logged,
      RoleBindingToRunnableRequests_Logged,
      ClusterRoleBindingToRunnableRequests_Logged,
      RoleToRunnableRequests_Logged, ClusterRoleToRunnableRequests_Logged.
Qed.

(** *** The first [List] call *)

(** The first [List] of [m ≫= k] is the first [List] of [m], if it has
    one. *)
Lemma firstListFailed_bind {A B} (m : M A) (k : A → M B) :
  firstListFailed (m ≫= k).2 =
  match listOutcomes m.2 with
  | [] => firstListFailed (k m.1).2
  | _ => firstListFailed m.2
  end.
Proof.
  rewrite bind_snd. unfold firstListFailed, listOutcomes. rewrite omap_app.
  by destruct (omap _ m.2).
Qed.

Lemma emptiesOnFirstList_ret {A} (l : list A) :
  emptiesOnFirstList (mret l : M (list A)).
Proof. intros Hf. discriminate Hf. Qed.

Lemma emptiesOnFirstList_log {A} err msg (k : M (list A)) :
  emptiesOnFirstList k → emptiesOnFirstList (Logger_Error err msg;; k).
Proof. intros Hk Hf. apply Hk, Hf. Qed.

Lemma emptiesOnFirstList_List {A B} mapper kind (items : list A) meta opts
    (k : error + list A → M (list B)) :
  (∀ err, (k (inl err)).1 = []) →
  emptiesOnFirstList (Client_List mapper kind items meta opts ≫= k).
Proof.
  intros Hfail Hf. rewrite bind_fst. revert Hf. rewrite firstListFailed_bind.
  unfold Client_List. destruct (ListError mapper kind opts) as [err|]; cbn.
  - intros _. apply Hfail.
  - discriminate.
Qed.

Lemma emptiesOnFirstList_Get {B} mapper key
    (k : error * ServiceAccount + ServiceAccount → M (list B)) :
  (∀ r, emptiesOnFirstList (k r)) →
  emptiesOnFirstList (Client_Get mapper key ≫= k).
Proof.
  intros Hk Hf. rewrite bind_fst. apply Hk. revert Hf.
  rewrite firstListFailed_bind. unfold Client_Get.
  by destruct (GetServiceAccount mapper key) as [[? ?]|?].
Qed.

Lemma emptiesOnFirstList_bind {A B} (m : M A) (k : A → M (list B)) :
  (firstListFailed m.2 = true → (k m.1).1 = []) →
  (listOutcomes m.2 = [] → emptiesOnFirstList (k m.1)) →
  emptiesOnFirstList (m ≫= k).
Proof.
  intros Hfailed Hnone Hf. rewrite bind_fst. revert Hf.
  rewrite firstListFailed_bind.
  destruct (listOutcomes m.2) eqn:Hl; [by apply Hnone|apply Hfailed].
Qed.

Lemma withoutList_Client_List {A B} mapper kind (items : list A) meta opts
    (k : error + list A → M B) (P : B → Prop) :
  (∀ err, P (k (inl err)).1) →
  firstListFailed (Client_List mapper kind items meta opts ≫= k).2 = true
  ∨ listOutcomes (Client_List mapper kind items meta opts ≫= k).2 = [] →
  P (Client_List mapper kind items meta opts ≫= k).1.
Proof.
  intros Hfail. rewrite bind_fst, firstListFailed_bind, bind_snd.
  unfold listOutcomes at 2. rewrite omap_app. unfold Client_List.
  destruct (ListError mapper kind opts) as [err|]; cbn.
  - intros _. apply Hfail.
  - intros [?|?]; discriminate.
Qed.

Lemma templateToSupplyChains_nothing mapper template :
  nothingWithoutList (templateToSupplyChains mapper template).
Proof.
  unfold nothingWithoutList, templateToSupplyChains.
  destruct (addGVK mapper template); [done|].
  apply (withoutList_Client_List _ _ _ _ _ _ (λ l, l = [])). done.
Qed.

Lemma templateToDeliveries_nothing mapper template :
  nothingWithoutList (templateToDeliveries mapper template).
Proof.
  unfold nothingWithoutList, templateToDeliveries.
  destruct (addGVK mapper template); [done|].
  apply (withoutList_Client_List _ _ _ _ _ _ (λ l, l = [])). done.
Qed.

Lemma clusterSupplyChainToWorkloads_error mapper sc :
  errorWithoutList (clusterSupplyChainToWorkloads mapper sc).
Proof.
  unfold errorWithoutList, clusterSupplyChainToWorkloads.
  destruct (addGVK mapper sc); [by eexists|].
  apply (withoutList_Client_List _ _ _ _ _ _ (λ r, ∃ err, r = inl err)).
  intros err. by eexists.
Qed.

Lemma clusterDeliveryToDeliverables_error mapper d :
  errorWithoutList (clusterDeliveryToDeliverables mapper d).
Proof.
  unfold errorWithoutList, clusterDeliveryToDeliverables.
  destruct (addGVK mapper d); [by eexists|].
  apply (withoutList_Client_List _ _ _ _ _ _ (λ r, ∃ err, r = inl err)).
  intros err. by eexists.
Qed.

(** The callers of the two kinds of helpers. *)
Lemma emptiesOnFirstList_nothing {A B} (m : M (list A))
    (k : list A → M (list B)) :
  nothingWithoutList m → (k []).1 = [] → emptiesOnFirstList (k []) →
  emptiesOnFirstList (m ≫= k).
Proof.
  intros Hm Hk1 Hk2. apply emptiesOnFirstList_bind.
  - intros Hf. by rewrite Hm by (by left).
  - intros Hl. by rewrite Hm by (by right).
Qed.

Lemma emptiesOnFirstList_error {A B} (m : M (error + A))
    (k : error + A → M (list B)) :
  errorWithoutList m →
  (∀ err, (k (inl err)).1 = []) →
  (∀ err, emptiesOnFirstList (k (inl err))) →
  emptiesOnFirstList (m ≫= k).
Proof.
  intros Hm Hk1 Hk2. apply emptiesOnFirstList_bind.
  - intros Hf. destruct Hm as [err ->]; [by left|]. apply Hk1.
  - intros Hl. destruct Hm as [err ->]; [by right|]. apply Hk2.
Qed.

Ltac first_list_step :=
  lazymatch goal with
  | |- emptiesOnFirstList (Client_List _ _ _ _ _ ≫= _) =>
    apply emptiesOnFirstList_List; intros ?; reflexivity
  | |- emptiesOnFirstList (Client_Get _ _ ≫= _) =>
    apply emptiesOnFirstList_Get; intros ?
  | |- emptiesOnFirstList (Logger_Error _ _ ≫= _) =>
    apply emptiesOnFirstList_log
  | |- emptiesOnFirstList (mret _) => apply emptiesOnFirstList_ret
  | |- emptiesOnFirstList (match ?x with _ => _ end) => destruct x
  end.

Lemma TemplateToWorkloadRequests_first mapper obj :
  emptiesOnFirstList (TemplateToWorkloadRequests mapper obj).
Proof.
  apply emptiesOnFirstList_nothing;
    [apply templateToSupplyChains_nothing|done|apply emptiesOnFirstList_ret].
Qed.

Lemma TemplateToDeliverableRequests_first mapper obj :
  emptiesOnFirstList (TemplateToDeliverableRequests mapper obj).
Proof.
  apply emptiesOnFirstList_nothing;
    [apply templateToDeliveries_nothing|done|apply emptiesOnFirstList_ret].
Qed.

Lemma TemplateToSupplyChainRequests_first mapper obj :
  emptiesOnFirstList (TemplateToSupplyChainRequests mapper obj).
Proof.
  apply emptiesOnFirstList_nothing;
    [apply templateToSupplyChains_nothing|done|apply emptiesOnFirstList_ret].
Qed.

Lemma TemplateToDeliveryRequests_first mapper obj :
  emptiesOnFirstList (TemplateToDeliveryRequests mapper obj).
Proof.
  apply emptiesOnFirstList_nothing;
    [apply templateToDeliveries_nothing|done|apply emptiesOnFirstList_ret].
Qed.

Lemma ClusterSupplyChainToWorkloadRequests_first mapper obj :
  emptiesOnFirstList (ClusterSupplyChainToWorkloadRequests mapper obj).
Proof.
  unfold ClusterSupplyChainToWorkloadRequests.
  destruct obj; try (repeat first_list_step).
  apply emptiesOnFirstList_error;
    [apply clusterSupplyChainToWorkloads_error|done|].
  intros err. repeat first_list_step.
Qed.

Lemma ClusterDeliveryToDeliverableRequests_first mapper obj :
  emptiesOnFirstList (ClusterDeliveryToDeliverableRequests mapper obj).
Proof.
  unfold ClusterDeliveryToDeliverableRequests.
  destruct obj; try (repeat first_list_step).
  apply emptiesOnFirstList_error;
    [apply clusterDeliveryToDeliverables_error|done|].
  intros err. repeat first_list_step.
Qed.

Lemma RunTemplateToRunnableRequests_first mapper obj :
  emptiesOnFirstList (RunTemplateToRunnableRequests mapper obj).
Proof. unfold RunTemplateToRunnableRequests. repeat first_list_step. Qed.

Lemma ServiceAccountToWorkloadRequests_first mapper obj :
  emptiesOnFirstList (ServiceAccountToWorkloadRequests mapper obj).
Proof. unfold ServiceAccountToWorkloadRequests. repeat first_list_step. Qed.

Lemma RoleBindingToWorkloadRequests_first mapper obj :
  emptiesOnFirstList (RoleBindingToWorkloadRequests mapper obj).
Proof.
  unfold RoleBindingToWorkloadRequests.
  repeat first_list_step;
    auto using ServiceAccountToWorkloadRequests_first.
Qed.

Lemma ClusterRoleBindingToWorkloadRequests_first mapper obj :
  emptiesOnFirstList (ClusterRoleBindingToWorkloadRequests mapper obj).
Proof.
  unfold ClusterRoleBindingToWorkloadRequests.
  repeat first_list_step;
    auto using ServiceAccountToWorkloadRequests_first.
Qed.

Lemma RoleToWorkloadRequests_first mapper obj :
  emptiesOnFirstList (RoleToWorkloadRequests mapper obj).
Proof. unfold RoleToWorkloadRequests. repeat first_list_step. Qed.

Lemma ClusterRoleToWorkloadRequests_first mapper obj :
  emptiesOnFirstList (ClusterRoleToWorkloadRequests mapper obj).
Proof. unfold ClusterRoleToWorkloadRequests. repeat first_list_step. Qed.

Lemma ServiceAccountToDeliverableRequests_first mapper obj :
  emptiesOnFirstList (ServiceAccountToDeliverableRequests mapper obj).
Proof. unfold ServiceAccountToDeliverableRequests. repeat first_list_step. Qed.

Lemma RoleBindingToDeliverableRequests_first mapper obj :
  emptiesOnFirstList (RoleBindingToDeliverableRequests mapper obj).
Proof.
  unfold RoleBindingToDeliverableRequests.
  repeat first_list_step;
    auto using ServiceAccountToDeliverableRequests_first.
Qed.

Lemma ClusterRoleBindingToDeliverableRequests_first mapper obj :
  emptiesOnFirstList (ClusterRoleBindingToDeliverableRequests mapper obj).
Proof.
  unfold ClusterRoleBindingToDeliverableRequests.
  repeat first_list_step;
    auto using ServiceAccountToDeliverableRequests_first.
Qed.

Lemma RoleToDeliverableRequests_first mapper obj :
  emptiesOnFirstList (RoleToDeliverableRequests mapper obj).
Proof. unfold RoleToDeliverableRequests. repeat first_list_step. Qed.

Lemma ClusterRoleToDeliverableRequests_first mapper obj :
  emptiesOnFirstList (ClusterRoleToDeliverableRequests mapper obj).
Proof. unfold ClusterRoleToDeliverableRequests. repeat first_list_step. Qed.

Lemma ServiceAccountToRunnableRequests_first mapper obj :
  emptiesOnFirstList (ServiceAccountToRunnableRequests mapper obj).
Proof. unfold ServiceAccountToRunnableRequests. repeat first_list_step. Qed.

Lemma RoleBindingToRunnableRequests_first mapper obj :
  emptiesOnFirstList (RoleBindingToRunnableRequests mapper obj).
Proof.
  unfold RoleBindingToRunnableRequests.
  repeat first_list_step;
    auto using ServiceAccountToRunnableRequests_first.
Qed.

Lemma ClusterRoleBindingToRunnableRequests_first mapper obj :
  emptiesOnFirstList (ClusterRoleBindingToRunnableRequests mapper obj).
Proof.
  unfold ClusterRoleBindingToRunnableRequests.
  repeat first_list_step;
    auto using ServiceAccountToRunnableRequests_first.
Qed.

Lemma RoleToRunnableRequests_first mapper obj :
  emptiesOnFirstList (RoleToRunnableRequests mapper obj).
Proof. unfold RoleToRunnableRequests. repeat first_list_step. Qed.

Lemma ClusterRoleToRunnableRequests_first mapper obj :
  emptiesOnFirstList (ClusterRoleToRunnableRequests mapper obj).
Proof. unfold ClusterRoleToRunnableRequests. repeat first_list_step. Qed.

Lemma run_first f mapper obj : emptiesOnFirstList (run f mapper obj).
Proof.
  destruct f; cbn [run];
    auto using TemplateToDeliverableRequests_first,
      TemplateToWorkloadRequests_first,
      ClusterSupplyChainToWorkloadRequests_first,
      ClusterDeliveryToDeliverableRequests_first,
      RunTemplateToRunnableRequests_first,
      TemplateToSupplyChainRequests_first,
      TemplateToDeliveryRequests_first,
      ServiceAccountToWorkloadRequests_first,
      RoleBindingToWorkloadRequests_first,
      ClusterRoleBindingToWorkloadRequests_first,
      RoleToWorkloadRequests_first,
      ClusterRoleToWorkloadRequests_first,
      ServiceAccountToDeliverableRequests_first,
      RoleBindingToDeliverableRequests_first,
      ClusterRoleBindingToDeliverableRequests_first,
      RoleToDeliverableRequests_first,
      ClusterRoleToDeliverableRequests_first,
      ServiceAccountToRunnableRequests_first,
      RoleBindingToRunnableRequests_first,
      ClusterRoleBindingToRunnableRequests_first,
      RoleToRunnableRequests_first,
      ClusterRoleToRunnableRequests_first.
Qed.

(** *** Failed [Get] calls *)

Lemma failedGets_bind {A B} (m : M A) (k : A → M B) :
  failedGets (m ≫= k).2 = failedGets m.2 ++ failedGets (k m.1).2.
Proof. rewrite bind_snd. apply omap_app. Qed.

Lemma failedGets_List {A} mapper kind (items : list A) meta opts :
  failedGets (Client_List mapper kind items meta opts).2 = [].
Proof. unfold Client_List. by destruct (ListError mapper kind opts). Qed.

Lemma failedGets_clusterSupplyChainToWorkloads mapper sc :
  failedGets (clusterSupplyChainToWorkloads mapper sc).2 = [].
Proof.
  unfold clusterSupplyChainToWorkloads. destruct (addGVK mapper sc); [done|].
  rewrite failedGets_bind, failedGets_List.
  destruct (Client_List _ _ _ _ _).1; [done|].
  rewrite failedGets_bind, failedGets_List.
  by destruct (Client_List _ _ _ _ _).1.
Qed.

Lemma failedGets_clusterDeliveryToDeliverables mapper d :
  failedGets (clusterDeliveryToDeliverables mapper d).2 = [].
Proof.
  unfold clusterDeliveryToDeliverables. destruct (addGVK mapper d); [done|].
  rewrite failedGets_bind, failedGets_List.
  destruct (Client_List _ _ _ _ _).1; [done|].
  rewrite failedGets_bind, failedGets_List.
  by destruct (Client_List _ _ _ _ _).1.
Qed.

Lemma failedGets_indirectWorkloads mapper sa supplyChains requestMap :
  failedGets (indirectWorkloads mapper sa supplyChains requestMap).2 = [].
Proof.
  revert requestMap. induction supplyChains as [|sc scs IH]; intros requestMap.
  - done.
  - cbn [indirectWorkloads].
    rewrite failedGets_bind, failedGets_clusterSupplyChainToWorkloads.
    destruct (clusterSupplyChainToWorkloads mapper sc).1; [done|apply IH].
Qed.

Lemma failedGets_indirectDeliverables mapper sa deliveries requestMap :
  failedGets (indirectDeliverables mapper sa deliveries requestMap).2 = [].
Proof.
  revert requestMap. induction deliveries as [|d ds IH]; intros requestMap.
  - done.
  - cbn [indirectDeliverables].
    rewrite failedGets_bind, failedGets_clusterDeliveryToDeliverables.
    rewrite failedGets_bind, IH.
    by destruct (clusterDeliveryToDeliverables mapper d).1.
Qed.

Lemma failedGets_ServiceAccountToWorkloadRequests mapper sa :
  failedGets (ServiceAccountToWorkloadRequests mapper sa).2 = [].
Proof.
  unfold ServiceAccountToWorkloadRequests.
  rewrite failedGets_bind, failedGets_List.
  destruct (Client_List _ _ _ _ _).1; [done|].
  rewrite !failedGets_bind, failedGets_indirectWorkloads.
  unfold serviceAccountToSupplyChains.
  rewrite failedGets_bind, failedGets_List.
  destruct (Client_List _ _ _ _ _).1;
    by destruct (indirectWorkloads _ _ _ _).1.
Qed.

Lemma failedGets_ServiceAccountToDeliverableRequests mapper sa :
  failedGets (ServiceAccountToDeliverableRequests mapper sa).2 = [].
Proof.
  unfold ServiceAccountToDeliverableRequests.
  rewrite failedGets_bind, failedGets_List.
  destruct (Client_List _ _ _ _ _).1; [done|].
  rewrite !failedGets_bind, failedGets_indirectDeliverables.
  unfold serviceAccountToDeliveries.
  rewrite failedGets_bind, failedGets_List.
  by destruct (Client_List _ _ _ _ _).1.
Qed.

Lemma failedGets_ServiceAccountToRunnableRequests mapper sa :
  failedGets (ServiceAccountToRunnableRequests mapper sa).2 = [].
Proof.
  unfold ServiceAccountToRunnableRequests.
  rewrite failedGets_bind, failedGets_List.
  by destruct (Client_List _ _ _ _ _).1.
Qed.

(** A ClusterRoleBinding function whose [Get] failed returns nothing. *)
Lemma clusterRoleBinding_get_failed mapper (subjects : list Subject)
    (g : Client → Object → M (list Request)) msg :
  (∀ sa, failedGets (g mapper sa).2 = []) →
  let m : M (list Request) :=
    match find (λ subject, bool_decide (isServiceAccount subject))
               subjects with
    | Some subject =>
      got ← Client_Get mapper (serviceAccountKey subject);
      match got with
      | inl (err, _) =>
        Logger_Error (Some (fmt_Errorf "client get" err)) msg;;
        mret []
      | inr serviceAccountObject =>
        g mapper (ObjServiceAccount serviceAccountObject)
      end
    | None => mret []
    end in
  failedGets m.2 ≠ [] → m.1 = [].
Proof.
  intros Hg m Hfailed. subst m.
  destruct (find _ _) as [subject|]; [|done].
  rewrite bind_fst. revert Hfailed. rewrite failedGets_bind.
  unfold Client_Get.
  destruct (GetServiceAccount mapper (serviceAccountKey subject))
    as [[? ?]|?]; [done|].
  cbn. by rewrite Hg.
Qed.

Lemma run_get_failed f mapper obj :
  fromClusterRoleBinding f = true →
  failedGets (run f mapper obj).2 ≠ [] → (run f mapper obj).1 = [].
Proof.
  destruct f; try discriminate; intros _; cbn [run].
  - unfold ClusterRoleBindingToWorkloadRequests. destruct obj; try done.
    apply clusterRoleBinding_get_failed,
      failedGets_ServiceAccountToWorkloadRequests.
  - unfold ClusterRoleBindingToDeliverableRequests. destruct obj; try done.
    apply clusterRoleBinding_get_failed,
      failedGets_ServiceAccountToDeliverableRequests.
  - unfold ClusterRoleBindingToRunnableRequests. destruct obj; try done.
    apply clusterRoleBinding_get_failed,
      failedGets_ServiceAccountToRunnableRequests.
Qed.

(** *** The claims about failures and duplicates *)

(** C6, as the code has it: no mapper function hands an error to its
    caller (it returns requests only); every [List] or [Get] that fails is
    logged at once, with the failure; the result is empty when the first
    [List] the function makes fails, and, for the ClusterRoleBinding
    functions, when the [Get] of the subject service account fails. *)
Theorem mapper_failures_logged (f : MapperFunction) (mapper : Client)
    (obj : Object) :
  Logged (run f mapper obj).2
  ∧ (firstListFailed (run f mapper obj).2 = true →
     (run f mapper obj).1 = [])
  ∧ (fromClusterRoleBinding f = true →
     failedGets (run f mapper obj).2 ≠ [] → (run f mapper obj).1 = []).
Proof.
  split; [apply run_Logged|]. split; [apply run_first|apply run_get_failed].
Qed.

(** C7, as the code has it: the functions that take a service account, a
    RoleBinding or a ClusterRoleBinding return no request twice, the
    runnable ones because the runnables the client lists have distinct
    namespaced names. *)
Theorem subject_requests_NoDup (f : MapperFunction) (mapper : Client)
    (obj : Object) :
  resolvesSubject f = true →
  (forRunnables f = true →
   NoDup ((requestFor ∘ rn_ObjectMeta) <$> Runnables mapper)) →
  NoDup (run f mapper obj).1.
Proof.
  destruct f; try discriminate; intros _ Hrunnables; cbn [run];
    auto using ServiceAccountToWorkloadRequests_NoDup,
      RoleBindingToWorkloadRequests_NoDup,
      ClusterRoleBindingToWorkloadRequests_NoDup,
      ServiceAccountToDeliverableRequests_NoDup,
      RoleBindingToDeliverableRequests_NoDup,
      ClusterRoleBindingToDeliverableRequests_NoDup,
      ServiceAccountToRunnableRequests_NoDup,
      RoleBindingToRunnableRequests_NoDup,
      ClusterRoleBindingToRunnableRequests_NoDup.
Qed.

End MapperProperties.

(** ** The mapper on the example cluster *)

Section MapperExamples.
Import registrar.

Lemma supply_chain_enqueues_witness :
  let mapper := fake_Client noListError [] [] in
  let failing := fake_Client (selectedListFails web) [] [] in
  let result m :=
    (@ClusterSupplyChainToWorkloadRequests specMatcher m
       (ObjClusterSupplyChain webChain)).1 in
  {| Request_Name := "a"; Request_Namespace := "dev" |} ∈ result mapper
  ∧ ({| Request_Name := "b"; Request_Namespace := "ops" |} ∉ result mapper)
  ∧ result failing = [].
Proof.
  intros mapper failing result.
  pose proof (@supply_chain_enqueues_best_matched specMatcher mapper webChain)
    as [Hiff _].
  pose proof (@supply_chain_enqueues_best_matched specMatcher failing webChain)
    as [_ Hfail].
  specialize (Hiff supplyChainGVK eq_refl eq_refl eq_refl).
  split; [|split].
  - apply Hiff. exists (fake_Workload "a" "dev" web ""). split; [left|].
    split; [reflexivity|]. split; [by left|]. split.
    + compute_done.
    + apply list_elem_of_In. vm_compute. left. reflexivity.
  - intros Hin. apply Hiff in Hin as (w & Hw & Hreq & _ & _ & Hbest).
    apply list_elem_of_In in Hw. cbn in Hw.
    destruct Hw as [<-|[<-|[<-|[]]]]; try discriminate Hreq.
    apply list_elem_of_In in Hbest. vm_compute in Hbest.
    destruct Hbest as [Hbest|[]]. discriminate Hbest.
  - apply Hfail. right. right. vm_compute. discriminate.
Defined.

(** C3 as stated fails: workload [a] carries the labels that the selector
    of supply chain [web] asks for and [web] is its one best match, but the
    listing of the workloads fails and the change of [web] enqueues
    nothing. *)
Lemma workload_list_failure_enqueues_nothing :
  let mapper := fake_Client (selectedListFails web) [] [] in
  let w := fake_Workload "a" "dev" web "" in
  w ∈ Workloads mapper
  ∧ labelsMatch (sc_Selector (sc_Spec webChain)) (Labels (wl_ObjectMeta w))
  ∧ @BestLabelMatches specMatcher _ (λ s, sc_Selector (sc_Spec s))
      (Labels (wl_ObjectMeta w)) (ClusterSupplyChains mapper) = [webChain]
  ∧ (@ClusterSupplyChainToWorkloadRequests specMatcher mapper
       (ObjClusterSupplyChain webChain)).1 = [].
Proof.
  cbn zeta. split; [left|]. split; [compute_done|].
  split; vm_compute; reflexivity.
Qed.

(** The best match is compared as a whole object: when the client lists
    the supply chains without kind and API version, the copy of [web] on
    which [addGVK] has set them equals none of the objects listed, and the
    change of [web] enqueues nothing, although every listing succeeds and
    [web] is the one best match of workload [a]. *)
Lemma best_match_listed_without_kind :
  let mapper := listsWithoutKind (fake_Client noListError [] []) in
  let event := SetTypeMeta webChain noTypeMeta in
  @BestLabelMatches specMatcher _ (λ s, sc_Selector (sc_Spec s)) web
    (ClusterSupplyChains mapper) = [event]
  ∧ (@ClusterSupplyChainToWorkloadRequests specMatcher mapper
       (ObjClusterSupplyChain event)).1 = [].
Proof. cbn zeta. split; vm_compute; reflexivity. Qed.

Lemma service_account_enqueues_witness :
  let mapper := fake_Cluster noListError everyServiceAccount [] [] in
  let failing :=
    fake_Cluster (selectedListFails web) everyServiceAccount [] [] in
  let result m := (@ServiceAccountToWorkloadRequests specMatcher m builder).1 in
  {| Request_Name := "b"; Request_Namespace := "ops" |} ∈ result mapper
  ∧ {| Request_Name := "a"; Request_Namespace := "dev" |} ∈ result mapper
  ∧ ({| Request_Name := "d"; Request_Namespace := "dev" |} ∉ result mapper)
  ∧ result failing = [].
Proof.
  intros mapper failing result.
  pose proof (@service_account_enqueues specMatcher mapper builder)
    as [Hiff _].
  pose proof (@service_account_enqueues specMatcher failing builder)
    as (_ & _ & Hfail).
  specialize (Hiff supplyChainGVK eq_refl eq_refl eq_refl
                (λ sc Hin Hnamed, eq_refl)).
  split; [|split; [|split]].
  - apply Hiff. left. exists (fake_Workload "b" "ops" webProd "builder").
    split; [right; left|]. done.
  - apply Hiff. right. exists webChain, (fake_Workload "a" "dev" web "").
    split; [left|]. split; [reflexivity|]. split.
    { split; [left|]. split; [compute_done|].
      apply list_elem_of_In. vm_compute. left. reflexivity. }
    split; [reflexivity|]. split; [by left|reflexivity].
  - intros Hin.
    apply Hiff in Hin
      as [(w & Hw & Hns & Hsa & Hreq)
         |(sc & w & Hsc & Hnamed & (Hw & _ & Hbest) & Hsa & _ & Hreq)].
    + apply list_elem_of_In in Hw. cbn in Hw.
      destruct Hw as [<-|[<-|[<-|[<-|[]]]]];
        first [discriminate Hreq|discriminate Hns].
    + apply list_elem_of_In in Hw. cbn in Hw.
      destruct Hw as [<-|[<-|[<-|[<-|[]]]]]; try discriminate Hreq.
      apply list_elem_of_In in Hsc. cbn in Hsc.
      destruct Hsc as [<-|[<-|[]]]; [|discriminate Hnamed].
      apply list_elem_of_In in Hbest. vm_compute in Hbest.
      destruct Hbest as [Hbest|[]]. discriminate Hbest.
  - apply Hfail; [reflexivity|].
    exists webChain, (errorString "timeout").
    split; [left|]. split; [reflexivity|]. vm_compute. reflexivity.
Defined.

(** C4 as stated fails: workload [b] is in the namespace of the service
    account [builder] and names it, and the workloads are listed; but the
    listing of the workloads of supply chain [web], whose
    [serviceAccountRef] names the account, fails, and the change of the
    account enqueues nothing. *)
Lemma workload_lookup_failure_drops_direct_match :
  let mapper :=
    fake_Cluster (selectedListFails web) everyServiceAccount [] [] in
  let w := fake_Workload "b" "ops" webProd "builder" in
  w ∈ Workloads mapper
  ∧ Namespace (wl_ObjectMeta w) = GetNamespace builder
  ∧ wl_ServiceAccountName w = GetName builder
  ∧ ListError mapper KWorkload noOptions = None
  ∧ (@ServiceAccountToWorkloadRequests specMatcher mapper builder).1 = [].
Proof.
  cbn zeta. split; [right; left|]. split; [reflexivity|].
  split; [reflexivity|]. split; [reflexivity|]. vm_compute. reflexivity.
Qed.

Lemma mapper_failures_witness :
  let mapper :=
    fake_Client (λ kind _, match kind with
                           | KWorkload => Some (errorString "timeout")
                           | _ => None
                           end) [] [] in
  (@ServiceAccountToWorkloadRequests specMatcher mapper builder).1 = [].
Proof.
  intros mapper.
  apply (proj1 (proj2 (@mapper_failures_logged specMatcher
                         FServiceAccountToWorkloadRequests mapper builder))).
  vm_compute. reflexivity.
Defined.

(** C6 as stated fails: of two ClusterRoleBindings to the changed
    ClusterRole, the first names a service account whose [Get] fails; the
    failure is logged, and the requests found through the second binding
    are returned all the same. *)
Lemma get_failure_keeps_requests :
  let mapper :=
    fake_Client noListError []
      [ fake_ClusterRoleBinding "crb-gone" (fake_Subject "gone" "ops");
        fake_ClusterRoleBinding "crb-builder"
          (fake_Subject "builder" "ops") ] in
  let result :=
    @ClusterRoleToWorkloadRequests specMatcher mapper
      (ObjClusterRole fake_ClusterRole) in
  failedGets result.2 = [ {| Key_Namespace := "ops"; Key_Name := "gone" |} ]
  ∧ length result.1 = 3
  ∧ result.1 ≠ [].
Proof.
  cbn zeta. split; [vm_compute; reflexivity|].
  split; [vm_compute; reflexivity|].
  intros Hnil. apply (f_equal length) in Hnil. vm_compute in Hnil.
  discriminate Hnil.
Qed.

Lemma subject_requests_witness :
  let mapper := fake_Client noListError [] [] in
  NoDup (@ServiceAccountToRunnableRequests mapper builder).1.
Proof.
  intros mapper.
  apply (@subject_requests_NoDup specMatcher FServiceAccountToRunnableRequests
           mapper builder eq_refl).
  intros _. compute_done.
Defined.

(** C7 as stated fails: two RoleBindings grant the changed Role to the same
    service account, and [RoleToWorkloadRequests] returns the requests of
    that service account's workloads once per binding. *)
Lemma role_requests_duplicated :
  let mapper :=
    fake_Client noListError
      [ fake_RoleBinding "rb1" (fake_Subject "builder" "ops");
        fake_RoleBinding "rb2" (fake_Subject "builder" "ops") ] [] in
  let result :=
    (@RoleToWorkloadRequests specMatcher mapper (ObjRole fake_Role)).1 in
  length result = 6 ∧ ¬ NoDup result.
Proof.
  cbn zeta. split; [vm_compute; reflexivity|].
  compute_done.
Qed.

End MapperExamples.

(** * Further properties *)

(** ** The image template model and the realizer's errors *)

Section ImageTemplateFurther.
Import templates.

Lemma perform_fields t calls :
  template (foldl perform t calls) = template t
  ∧ evaluator_ (foldl perform t calls) = evaluator_ t
  ∧ stampedObject (foldl perform t calls)
    = foldl (λ last c, match c with
                       | CallSetInputs => last
                       | CallSetStampedObject stampedObject => stampedObject
                       end) (stampedObject t) calls.
Proof.
  revert t. induction calls as [|c calls IH]; intros t; [done|].
  cbn [foldl]. destruct (IH (perform t c)) as (-> & -> & ->).
  by destruct c.
Qed.

(** X1: a model built by [NewClusterImageTemplateModel] and then given any
    sequence of [SetInputs] and [SetStampedObject] calls keeps the kind and
    the name of its template, and [GetOutput] depends on the calls only
    through the last stamped object set: it panics when none was set or
    the last one set is nil, and otherwise evaluates the template's
    [imagePath] against that object, giving an [Output] that holds the
    image and neither a source nor a config, or an error that carries the
    [imagePath] as its JSONPath expression. *)
Theorem model_reads_last_stamped_object (tmpl : ClusterImageTemplate)
    (eval : evaluator) (calls : list Setter) :
  let t := foldl perform (NewClusterImageTemplateModel tmpl eval) calls in
  GetKind t = Kind tmpl
  ∧ GetName t = Name tmpl
  ∧ match lastStamped calls with
    | None => GetOutput t = None
    | Some obj =>
      match EvaluateJsonPath eval (ImagePath (Spec tmpl))
                             (UnstructuredContent obj) with
      | inr image =>
        GetOutput t
        = Some (Some {| Source_ := None; Image := image; Config := VNull |},
                None)
      | inl cause =>
        ∃ msg,
          GetOutput t
          = Some (None,
                  Some (JsonPathError (fmt_Errorf msg cause)
                                      (ImagePath (Spec tmpl))))
      end
    end.
Proof.
  cbn zeta.
  destruct (perform_fields (NewClusterImageTemplateModel tmpl eval) calls)
    as (Ht & He & Hs).
  unfold GetKind, GetName, GetOutput. rewrite Ht, He, Hs. cbn.
  split; [done|]. split; [done|]. fold (lastStamped calls).
  destruct (lastStamped calls) as [obj|]; [|done].
  destruct (EvaluateJsonPath _ _ _); [|done].
  eexists. reflexivity.
Qed.

Import workload.

(** X2: [RetrieveOutputError.JsonPathExpression] asserts the type of [Err]
    and does not unwrap it: through [RetrieveOutputError]s nested directly
    in one another it gives the expression of what is innermost, but for a
    [JsonPathError] wrapped by [fmt.Errorf], at any depth of nesting, it
    gives the text [<no jsonpath context>]. *)
Theorem JsonPathExpression_does_not_unwrap
    (wraps : list (string * Unstructured)) :
  (∀ Err expression,
     JsonPathExpression (nested wraps (JsonPathError Err expression))
     = expression)
  ∧ (∀ msg err,
       JsonPathExpression (nested wraps (fmt_Errorf msg err))
       = "<no jsonpath context>")
  ∧ (∀ err, JsonPathExpression (nested wraps err) = JsonPathExpression err).
Proof.
  assert (∀ err, JsonPathExpression (nested wraps err)
                 = JsonPathExpression err) as Hn.
  { intros err. induction wraps as [|[res obj] wraps IH]; [done|].
    cbn. unfold JsonPathExpression in *. cbn. by rewrite <- IH. }
  split; [|split; [|done]].
  - intros Err expression. by rewrite Hn.
  - intros msg err. by rewrite Hn.
Qed.
End ImageTemplateFurther.

(** ** The Runnable reconciler, call by call *)

Section ReconcilerFurther.
Import runnable.

Lemma Reconcile_not_loaded r req :
  (∀ runnable,
     Repo_GetRunnable r (Request_Name req) (Request_Namespace req)
       ≠ inr (Some runnable)) →
  (Reconcile r req).2
    = [GetRunnableCall (Request_Name req) (Request_Namespace req)].
Proof.
  intros Hno. unfold Reconcile. rewrite bind_snd. cbn [call emit fst snd].
  destruct (Repo_GetRunnable r _ _) as [e|[runnable|]]; [done| |done].
  by destruct (Hno runnable).
Qed.

(** The calls made before completion, by kind. *)
Lemma before_completion_calls r req runnable :
  let '(pre, cm, outputs, err) := before_completion r req runnable in
  (FinalizeCall ∉ pre)
  ∧ client_builds pre
    = match Repo_GetServiceAccountSecret r (serviceAccountName runnable)
              (Request_Namespace req) with
      | inl _ => []
      | inr secret => [secret]
      end
  ∧ realizations pre
    = match Repo_GetServiceAccountSecret r (serviceAccountName runnable)
              (Request_Namespace req) with
      | inl _ => []
      | inr secret =>
        match ClientBuilder r secret with
        | inl _ => []
        | inr client => [(runnable, client)]
        end
      end.
Proof.
  unfold before_completion.
  destruct (Repo_GetServiceAccountSecret r _ _) as [e|secret];
    [|destruct (ClientBuilder r secret) as [e|client];
      [|destruct (Realizer_Realize r runnable client)
          as [[[o|] outputs] err]]];
    (split; [|done]); cbn; intros Hin;
    repeat (apply elem_of_cons in Hin as [Hin|Hin]; [discriminate Hin|]);
    by apply elem_of_nil in Hin.
Qed.

Lemma completion_calls pre r cm runnable outputs err :
  let tr := pre ++ (completeReconciliation r cm runnable outputs err).2 in
  client_builds tr = client_builds pre
  ∧ realizations tr = realizations pre
  ∧ watches tr = watches pre.
Proof.
  cbn zeta. unfold client_builds, realizations, watches.
  rewrite !omap_app, completeReconciliation_trace. cbn.
  destruct (statusChanged _ _ _); cbn; by rewrite !app_nil_r.
Qed.

(** X3: a reconcile that has loaded its runnable calls [Finalize] exactly
    once; no status is written before it, and after it comes at most one
    [StatusUpdate], which is the last call of the reconcile. *)
Theorem finalize_then_at_most_one_write (r : Reconciler) (req : Request)
    (runnable : Runnable) :
  Repo_GetRunnable r (Request_Name req) (Request_Namespace req)
    = inr (Some runnable) →
  ∃ pre,
    (Reconcile r req).2
      = pre ++ FinalizeCall
               :: (StatusUpdateCall <$> status_writes (Reconcile r req).2)
    ∧ (FinalizeCall ∉ pre)
    ∧ status_writes pre = []
    ∧ (length (status_writes (Reconcile r req).2) ≤ 1)%nat.
Proof.
  intros Hget. pose proof (Reconcile_loaded r req runnable Hget) as Heq.
  pose proof (before_completion_facts r req runnable) as Hf.
  pose proof (before_completion_calls r req runnable) as Hc.
  destruct (before_completion r req runnable) as [[[pre cm] outputs] err].
  destruct Hf as (Hw & _). destruct Hc as (Hnf & _).
  exists pre. rewrite Heq. cbn [snd].
  rewrite status_writes_complete by done.
  rewrite completeReconciliation_trace. cbn zeta.
  split; [|split; [done|split; [done|]]].
  - by destruct (statusChanged _ _ _).
  - destruct (statusChanged _ _ _); cbn; lia.
Qed.

(** X4: on every path of a reconcile, the status handed to [StatusUpdate]
    holds the conditions that [Finalize] returned, for the conditions of
    the runnable as loaded and the conditions added during the reconcile,
    and the outputs that the realizer returned (nil when the realizer was
    not reached): what the status held before is overwritten. *)
Theorem status_write_holds_results (r : Reconciler) (req : Request)
    (w : Runnable) :
  StatusUpdateCall w ∈ (Reconcile r req).2 →
  ∃ runnable,
    Repo_GetRunnable r (Request_Name req) (Request_Namespace req)
      = inr (Some runnable)
    ∧ Conditions (Status w)
      = (ConditionManager_Finalize r (Conditions (Status runnable))
           (added_in (Reconcile r req).2)).1
    ∧ Outputs_ (Status w) = realized_outputs r (Reconcile r req).2.
Proof.
  intros Hin.
  destruct (Repo_GetRunnable r (Request_Name req) (Request_Namespace req))
    as [e|[runnable|]] eqn:Hget.
  - rewrite Reconcile_not_loaded in Hin by (intros ?; by rewrite Hget).
    apply list_elem_of_singleton in Hin. discriminate Hin.
  - exists runnable. split; [done|].
    apply elem_of_status_writes in Hin. revert Hin.
    rewrite (Reconcile_status_writes r req runnable Hget). cbn zeta.
    destruct (statusChanged _ _ _); [|by intros ?%elem_of_nil].
    intros ->%list_elem_of_singleton. done.
  - rewrite Reconcile_not_loaded in Hin by (intros ?; by rewrite Hget).
    apply list_elem_of_singleton in Hin. discriminate Hin.
Qed.

(** X5: when the [StatusUpdate] of a reconcile fails, the reconcile returns
    that failure, wrapped, whatever error the reconcile had met before. *)
Theorem status_update_failure_is_returned (r : Reconciler) (req : Request)
    (w : Runnable) (e : error) :
  StatusUpdateCall w ∈ (Reconcile r req).2 →
  Repo_StatusUpdate r w = Some e →
  (Reconcile r req).1
    = Some (fmt_Errorf "failed to update status for runnable" e).
Proof.
  intros Hin Hfail.
  destruct (Repo_GetRunnable r (Request_Name req) (Request_Namespace req))
    as [e'|[runnable|]] eqn:Hget.
  - rewrite Reconcile_not_loaded in Hin by (intros ?; by rewrite Hget).
    apply list_elem_of_singleton in Hin. discriminate Hin.
  - pose proof (Reconcile_loaded r req runnable Hget) as Heq.
    pose proof (before_completion_facts r req runnable) as Hf.
    destruct (before_completion r req runnable) as [[[pre cm] outputs] err].
    destruct Hf as (Hw & _). rewrite Heq in Hin |- *. cbn [fst snd] in *.
    apply elem_of_status_writes in Hin.
    rewrite status_writes_complete in Hin by done.
    rewrite completeReconciliation_result. cbn zeta in *.
    destruct (statusChanged _ _ _); [|by apply elem_of_nil in Hin].
    apply list_elem_of_singleton in Hin. subst w. by rewrite Hfail.
  - rewrite Reconcile_not_loaded in Hin by (intros ?; by rewrite Hget).
    apply list_elem_of_singleton in Hin. discriminate Hin.
Qed.

(** The result of completion when the status update does not fail. *)
Lemma completeReconciliation_undisturbed r cm runnable outputs err :
  (∀ w, Repo_StatusUpdate r w = None) →
  (completeReconciliation r cm runnable outputs err).1 =
  match err with
  | Some e => if controller.IsUnhandledError e then Some e else None
  | None => None
  end.
Proof.
  intros Hstatus. rewrite completeReconciliation_result. cbn zeta.
  rewrite Hstatus. by destruct (statusChanged _ _ _).
Qed.

(** The result of completion on an unhandled error. *)
Lemma completeReconciliation_unhandled r cm runnable outputs e :
  controller.IsUnhandledError e = true →
  (completeReconciliation r cm runnable outputs (Some e)).1 = Some e
  ∨ ∃ e', (completeReconciliation r cm runnable outputs (Some e)).1
          = Some (fmt_Errorf "failed to update status for runnable" e').
Proof.
  intros He. rewrite completeReconciliation_result. cbn zeta. rewrite He.
  destruct (statusChanged _ _ _); [|by left].
  destruct (Repo_StatusUpdate _ _) as [e'|]; [right; by exists e'|by left].
Qed.

(** X6: when the reconcile of a runnable whose status holds outputs ends
    with no outputs from the realizer (because the secret or the client
    was missing, or because the realizer returned none), the status is
    written once, with nil outputs and with [observedGeneration] set to the
    generation. *)
Theorem early_failure_clears_outputs (r : Reconciler) (req : Request)
    (runnable : Runnable) :
  Repo_GetRunnable r (Request_Name req) (Request_Namespace req)
    = inr (Some runnable) →
  realized_outputs r (Reconcile r req).2 = None →
  Outputs_ (Status runnable) ≠ None →
  ∃ w, status_writes (Reconcile r req).2 = [w]
       ∧ Outputs_ (Status w) = None
       ∧ ObservedGeneration (Status w) = Generation runnable.
Proof.
  intros Hget Hreal Hout.
  pose proof (Reconcile_status_writes r req runnable Hget) as Hw.
  cbn zeta in Hw. rewrite Hreal in Hw.
  assert (statusChanged
            (ConditionManager_Finalize r (Conditions (Status runnable))
               (added_in (Reconcile r req).2)).2
            (with_Conditions runnable
               (ConditionManager_Finalize r (Conditions (Status runnable))
                  (added_in (Reconcile r req).2)).1) None = true) as Hch.
  { apply statusChanged_true. right. right. exact Hout. }
  rewrite Hch in Hw. eexists. split; [exact Hw|]. done.
Qed.

(** X7: when the secret of the service account cannot be fetched, the only
    condition added is [ServiceAccountSecretNotFoundCondition] of the
    failure; no client is built, the realizer is not called, nothing is
    watched, and the runtime gets nil unless the status update fails. *)
Theorem missing_secret_is_handled (r : Reconciler) (req : Request)
    (runnable : Runnable) (err : error) :
  Repo_GetRunnable r (Request_Name req) (Request_Namespace req)
    = inr (Some runnable) →
  Repo_GetServiceAccountSecret r (serviceAccountName runnable)
    (Request_Namespace req) = inl err →
  added_in (Reconcile r req).2 = [ServiceAccountSecretNotFoundCondition err]
  ∧ client_builds (Reconcile r req).2 = []
  ∧ realizations (Reconcile r req).2 = []
  ∧ watches (Reconcile r req).2 = []
  ∧ ((∀ w, Repo_StatusUpdate r w = None) → (Reconcile r req).1 = None).
Proof.
  intros Hget Hsecret. pose proof (Reconcile_loaded r req runnable Hget) as Heq.
  unfold before_completion in Heq. rewrite Hsecret in Heq. rewrite Heq.
  cbn [fst snd].
  match goal with
  | |- context [?pre ++ (completeReconciliation r ?cm runnable ?o ?e).2] =>
    destruct (completion_adds_nothing pre r cm runnable o e) as (-> & _ & _);
    destruct (completion_calls pre r cm runnable o e) as (-> & -> & ->)
  end.
  repeat (split; [done|]).
  intros Hstatus. by rewrite completeReconciliation_undisturbed.
Qed.

(** X8: when the client cannot be built from the secret, the only condition
    added is [ClientBuilderErrorCondition] of the failure, the realizer is
    not called and nothing is watched; the runtime gets the failure as an
    unhandled error, or the failure of the status update. *)
Theorem client_builder_failure_is_unhandled (r : Reconciler) (req : Request)
    (runnable : Runnable) (secret : Secret) (err : error) :
  Repo_GetRunnable r (Request_Name req) (Request_Namespace req)
    = inr (Some runnable) →
  Repo_GetServiceAccountSecret r (serviceAccountName runnable)
    (Request_Namespace req) = inr secret →
  ClientBuilder r secret = inl err →
  let unhandled :=
    controller.NewUnhandledError
      (fmt_Errorf "failed to build resource realizer" err) in
  added_in (Reconcile r req).2 = [ClientBuilderErrorCondition err]
  ∧ realizations (Reconcile r req).2 = []
  ∧ watches (Reconcile r req).2 = []
  ∧ ((Reconcile r req).1 = Some unhandled
     ∨ ∃ e', (Reconcile r req).1
             = Some (fmt_Errorf "failed to update status for runnable" e')).
Proof.
  intros Hget Hsecret Hclient unhandled.
  pose proof (Reconcile_loaded r req runnable Hget) as Heq.
  unfold before_completion in Heq. rewrite Hsecret, Hclient in Heq.
  rewrite Heq. cbn [fst snd].
  match goal with
  | |- context [?pre ++ (completeReconciliation r ?cm runnable ?o ?e).2] =>
    destruct (completion_adds_nothing pre r cm runnable o e) as (-> & _ & _);
    destruct (completion_calls pre r cm runnable o e) as (_ & -> & ->)
  end.
  repeat (split; [done|]).
  by apply completeReconciliation_unhandled.
Qed.

(** What [Reconcile] does once the realizer has answered. *)
Lemma Reconcile_realized r req runnable secret client obj outputs err :
  Repo_GetRunnable r (Request_Name req) (Request_Namespace req)
    = inr (Some runnable) →
  Repo_GetServiceAccountSecret r (serviceAccountName runnable)
    (Request_Namespace req) = inr secret →
  ClientBuilder r secret = inr client →
  Realizer_Realize r runnable client = (obj, outputs, err) →
  let c := match err with
           | Some e => (classify e).1
           | None => RunTemplateReadyCondition
           end in
  let err1 := match err with
              | Some e => Some (classify e).2
              | None => None
              end in
  let err2 :=
    match obj with
    | Some o => match DynamicTracker_Watch r o with
                | Some te => Some (controller.NewUnhandledError te)
                | None => err1
                end
    | None => err1
    end in
  let fin :=
    completeReconciliation r
      {| previous := Conditions (Status runnable); added := [c] |}
      runnable outputs err2 in
  (Reconcile r req).1 = fin.1
  ∧ added_in (Reconcile r req).2 = [c]
  ∧ watches (Reconcile r req).2
    = match obj with Some o => [o] | None => [] end
  ∧ realizations (Reconcile r req).2 = [(runnable, client)]
  ∧ realized_outputs r (Reconcile r req).2 = outputs.
Proof.
  intros Hget Hsecret Hclient Hrealize.
  pose proof (Reconcile_loaded r req runnable Hget) as Heq.
  pose proof (before_completion_facts r req runnable) as Hf.
  unfold before_completion in Heq, Hf.
  rewrite Hsecret, Hclient, Hrealize in Heq, Hf.
  destruct Hf as (_ & _ & _ & _ & Hout).
  cbn zeta. rewrite Heq. cbn [fst snd].
  match goal with
  | |- context [?pre ++ (completeReconciliation r ?cm runnable ?o ?e).2] =>
    destruct (completion_adds_nothing pre r cm runnable o e) as (-> & _ & ->);
    destruct (completion_calls pre r cm runnable o e) as (_ & -> & ->)
  end.
  rewrite <- Hout. by destruct obj.
Qed.

(** X9: a [ResolveSelectorError] or a [StampError] of the realizer adds
    [TemplateStampFailureCondition], a [RetrieveOutputError] adds
    [OutputPathNotSatisfiedCondition] with the stamped object the error
    holds; in a reconcile whose watch and status update do not fail, the
    runtime gets nil for all three. *)
Theorem stamp_and_output_errors_are_handled (r : Reconciler) (req : Request)
    (runnable : Runnable) (secret : Secret) (client : Client)
    (obj : option Unstructured) (outputs : Outputs) (err : error) :
  Repo_GetRunnable r (Request_Name req) (Request_Namespace req)
    = inr (Some runnable) →
  Repo_GetServiceAccountSecret r (serviceAccountName runnable)
    (Request_Namespace req) = inr secret →
  ClientBuilder r secret = inr client →
  Realizer_Realize r runnable client = (obj, outputs, Some err) →
  handedOnByReconcile err = true →
  (∀ o, obj = Some o → DynamicTracker_Watch r o = None) →
  (∀ w, Repo_StatusUpdate r w = None) →
  added_in (Reconcile r req).2
    = [match err with
       | realizer_RetrieveOutputError _ stamped =>
         OutputPathNotSatisfiedCondition stamped err
       | _ => TemplateStampFailureCondition err
       end]
  ∧ (Reconcile r req).1 = None.
Proof.
  intros Hget Hsecret Hclient Hrealize Hkind Hwatch Hstatus.
  destruct (Reconcile_realized r req runnable secret client obj outputs
              (Some err) Hget Hsecret Hclient Hrealize)
    as (Hres & Hadd & _).
  rewrite Hres, Hadd, completeReconciliation_undisturbed by done.
  destruct err; try discriminate Hkind;
    (destruct obj as [o|]; [rewrite (Hwatch o eq_refl)|]; done).
Qed.

(** X10: a [ListCreatedObjectsError] of the realizer adds
    [FailedToListCreatedObjectsCondition] and an error of a type the
    [switch] does not name adds [UnknownErrorCondition]; in both cases the
    runtime gets an error: the realizer's, marked unhandled, when neither
    the watch nor the status update fails, and otherwise an unhandled error
    or the failure of the status update. *)
Theorem other_realizer_errors_are_unhandled (r : Reconciler) (req : Request)
    (runnable : Runnable) (secret : Secret) (client : Client)
    (obj : option Unstructured) (outputs : Outputs) (err : error) :
  Repo_GetRunnable r (Request_Name req) (Request_Namespace req)
    = inr (Some runnable) →
  Repo_GetServiceAccountSecret r (serviceAccountName runnable)
    (Request_Namespace req) = inr secret →
  ClientBuilder r secret = inr client →
  Realizer_Realize r runnable client = (obj, outputs, Some err) →
  (∃ cause, err = realizer_ListCreatedObjectsError cause)
  ∨ namedByReconcile err = false →
  added_in (Reconcile r req).2
    = [match err with
       | realizer_ListCreatedObjectsError _ =>
         FailedToListCreatedObjectsCondition err
       | _ => UnknownErrorCondition err
       end]
  ∧ (∃ e, (Reconcile r req).1 = Some e
          ∧ (controller.IsUnhandledError e = true
             ∨ ∃ e',
                 e = fmt_Errorf "failed to update status for runnable" e'))
  ∧ ((∀ o, obj = Some o → DynamicTracker_Watch r o = None) →
     (∀ w, Repo_StatusUpdate r w = None) →
     (Reconcile r req).1 = Some (controller.NewUnhandledError err)).
Proof.
  intros Hget Hsecret Hclient Hrealize Hkind.
  destruct (Reconcile_realized r req runnable secret client obj outputs
              (Some err) Hget Hsecret Hclient Hrealize)
    as (Hres & Hadd & _).
  assert (classify err
          = (match err with
             | realizer_ListCreatedObjectsError _ =>
               FailedToListCreatedObjectsCondition err
             | _ => UnknownErrorCondition err
             end, controller.NewUnhandledError err)) as Hc.
  { destruct Hkind as [[cause ->]|Hkind]; [done|].
    by destruct err. }
  rewrite Hres, Hadd, Hc. cbn [fst snd]. split; [done|]. split.
  - assert (∃ e, match obj with
                 | Some o =>
                   match DynamicTracker_Watch r o with
                   | Some te => Some (controller.NewUnhandledError te)
                   | None => Some (controller.NewUnhandledError err)
                   end
                 | None => Some (controller.NewUnhandledError err)
                 end = Some e ∧ controller.IsUnhandledError e = true)
      as (e & -> & He).
    { destruct obj as [o|]; [destruct (DynamicTracker_Watch r o)|]; eauto. }
    destruct (completeReconciliation_unhandled r
                {| previous := Conditions (Status runnable);
                   added := [match err with
                             | realizer_ListCreatedObjectsError _ =>
                               FailedToListCreatedObjectsCondition err
                             | _ => UnknownErrorCondition err
                             end] |} runnable outputs e He)
      as [->|[e' ->]]; eauto.
  - intros Hwatch Hstatus.
    rewrite completeReconciliation_undisturbed by done.
    destruct obj as [o|]; [rewrite (Hwatch o eq_refl)|]; done.
Qed.

(** X11: the reconciler watches exactly the stamped object the realizer
    returned, also when the realizer returned an error with it, and
    nothing when it returned none; a watch that fails makes the reconcile
    return that failure as an unhandled error, or the failure of the status
    update. *)
Theorem watch_follows_stamped_object (r : Reconciler) (req : Request)
    (runnable : Runnable) (secret : Secret) (client : Client)
    (obj : option Unstructured) (outputs : Outputs) (err : option error) :
  Repo_GetRunnable r (Request_Name req) (Request_Namespace req)
    = inr (Some runnable) →
  Repo_GetServiceAccountSecret r (serviceAccountName runnable)
    (Request_Namespace req) = inr secret →
  ClientBuilder r secret = inr client →
  Realizer_Realize r runnable client = (obj, outputs, err) →
  watches (Reconcile r req).2 = match obj with Some o => [o] | None => [] end
  ∧ (∀ o te,
       obj = Some o → DynamicTracker_Watch r o = Some te →
       (Reconcile r req).1 = Some (controller.NewUnhandledError te)
       ∨ ∃ e', (Reconcile r req).1
               = Some (fmt_Errorf "failed to update status for runnable" e')).
Proof.
  intros Hget Hsecret Hclient Hrealize.
  destruct (Reconcile_realized r req runnable secret client obj outputs
              err Hget Hsecret Hclient Hrealize)
    as (Hres & _ & Hwatch & _).
  split; [done|]. intros o te -> Hte. rewrite Hres, Hte.
  by apply completeReconciliation_unhandled.
Qed.

(** X12: when the realizer, the watch and the status update succeed, the
    runtime gets nil, the only condition added is
    [RunTemplateReadyCondition], and a status that is written holds the
    outputs the realizer returned. *)
Theorem successful_reconcile (r : Reconciler) (req : Request)
    (runnable : Runnable) (secret : Secret) (client : Client)
    (obj : option Unstructured) (outputs : Outputs) :
  Repo_GetRunnable r (Request_Name req) (Request_Namespace req)
    = inr (Some runnable) →
  Repo_GetServiceAccountSecret r (serviceAccountName runnable)
    (Request_Namespace req) = inr secret →
  ClientBuilder r secret = inr client →
  Realizer_Realize r runnable client = (obj, outputs, None) →
  (∀ o, obj = Some o → DynamicTracker_Watch r o = None) →
  (∀ w, Repo_StatusUpdate r w = None) →
  (Reconcile r req).1 = None
  ∧ added_in (Reconcile r req).2 = [RunTemplateReadyCondition]
  ∧ (∀ w, StatusUpdateCall w ∈ (Reconcile r req).2 →
          Outputs_ (Status w) = outputs).
Proof.
  intros Hget Hsecret Hclient Hrealize Hwatch Hstatus.
  destruct (Reconcile_realized r req runnable secret client obj outputs
              None Hget Hsecret Hclient Hrealize)
    as (Hres & Hadd & _ & _ & Hout).
  rewrite Hres, Hadd, completeReconciliation_undisturbed by done.
  split; [|split; [done|]].
  - destruct obj as [o|]; [rewrite (Hwatch o eq_refl)|]; done.
  - intros w Hin. apply elem_of_status_writes in Hin. revert Hin.
    rewrite (Reconcile_status_writes r req runnable Hget). cbn zeta.
    rewrite Hout.
    destruct (statusChanged _ _ _); [|by intros ?%elem_of_nil].
    intros ->%list_elem_of_singleton. done.
Qed.

(** X13: a second reconcile that loads the object a first one has written,
    in which the realizer returns the same outputs and [Finalize] reports
    no change, writes no status. *)
Theorem written_status_is_settled (r1 r2 : Reconciler) (req : Request)
    (runnable w : Runnable) :
  Repo_GetRunnable r1 (Request_Name req) (Request_Namespace req)
    = inr (Some runnable) →
  StatusUpdateCall w ∈ (Reconcile r1 req).2 →
  Repo_GetRunnable r2 (Request_Name req) (Request_Namespace req)
    = inr (Some w) →
  realized_outputs r2 (Reconcile r2 req).2
    = realized_outputs r1 (Reconcile r1 req).2 →
  (ConditionManager_Finalize r2 (Conditions (Status w))
     (added_in (Reconcile r2 req).2)).2 = false →
  status_writes (Reconcile r2 req).2 = [].
Proof.
  intros Hget1 Hin Hget2 Hsame Hunchanged.
  apply elem_of_status_writes in Hin. revert Hin.
  rewrite (Reconcile_status_writes r1 req runnable Hget1). cbn zeta.
  destruct (statusChanged _ _ _); [|by intros ?%elem_of_nil].
  intros Hw%list_elem_of_singleton.
  rewrite (Reconcile_status_writes r2 req w Hget2). cbn zeta.
  rewrite Hunchanged, Hsame. unfold statusChanged. subst w. cbn.
  rewrite Z.eqb_refl. by rewrite bool_decide_eq_true_2.
Qed.

Lemma finalize_then_at_most_one_write_witness :
  let r :=
    fake_Reconciler (fake_Runnable "" 1) (None, None, None) None None false in
  ∃ pre,
    (Reconcile r fake_Request).2
      = pre ++ FinalizeCall
               :: (StatusUpdateCall
                     <$> status_writes (Reconcile r fake_Request).2)
    ∧ (FinalizeCall ∉ pre)
    ∧ status_writes pre = []
    ∧ (length (status_writes (Reconcile r fake_Request).2) ≤ 1)%nat.
Proof.
  exact (finalize_then_at_most_one_write
           (fake_Reconciler (fake_Runnable "" 1) (None, None, None)
              None None false)
           fake_Request (fake_Runnable "" 1) eq_refl).
Defined.

Lemma status_write_holds_results_witness :
  let r :=
    fake_Reconciler (fake_Runnable "" 1) (Some fake_Stamped, fake_Outputs, None)
      None None false in
  let w := fake_Runnable_realized fake_Outputs in
  ∃ runnable,
    Repo_GetRunnable r "my-runnable" "my-namespace" = inr (Some runnable)
    ∧ Conditions (Status w)
      = (ConditionManager_Finalize r (Conditions (Status runnable))
           (added_in (Reconcile r fake_Request).2)).1
    ∧ Outputs_ (Status w) = realized_outputs r (Reconcile r fake_Request).2.
Proof.
  apply (status_write_holds_results
           (fake_Reconciler (fake_Runnable "" 1)
              (Some fake_Stamped, fake_Outputs, None) None None false)
           fake_Request (fake_Runnable_realized fake_Outputs)).
  apply list_elem_of_In. vm_compute. do 7 right. left. reflexivity.
Defined.

Lemma status_update_failure_is_returned_witness :
  let conflict := StatusError StatusReasonConflict "the object was modified" in
  let r :=
    fake_Reconciler (fake_Runnable "" 1) (None, None, None) None
      (Some conflict) false in
  (Reconcile r fake_Request).1
    = Some (fmt_Errorf "failed to update status for runnable" conflict).
Proof.
  apply (status_update_failure_is_returned
           (fake_Reconciler (fake_Runnable "" 1) (None, None, None) None
              (Some (StatusError StatusReasonConflict
                       "the object was modified")) false)
           fake_Request (fake_Runnable_realized None)).
  - apply list_elem_of_In. vm_compute. do 6 right. left. reflexivity.
  - reflexivity.
Defined.

Lemma early_failure_clears_outputs_witness :
  let r :=
    fake_Reconciler_before (fake_Runnable_realized fake_Outputs)
      (inl (errorString "secret not found")) (inl (errorString "unused"))
      None false in
  ∃ w, status_writes (Reconcile r fake_Request).2 = [w]
       ∧ Outputs_ (Status w) = None
       ∧ ObservedGeneration (Status w) = 1%Z.
Proof.
  apply (early_failure_clears_outputs
           (fake_Reconciler_before (fake_Runnable_realized fake_Outputs)
              (inl (errorString "secret not found"))
              (inl (errorString "unused")) None false)
           fake_Request (fake_Runnable_realized fake_Outputs) eq_refl).
  - reflexivity.
  - discriminate.
Defined.

Lemma missing_secret_is_handled_witness :
  let err := errorString "secret not found" in
  let r :=
    fake_Reconciler_before (fake_Runnable "" 1) (inl err)
      (inl (errorString "unused")) None false in
  added_in (Reconcile r fake_Request).2
    = [ServiceAccountSecretNotFoundCondition err]
  ∧ client_builds (Reconcile r fake_Request).2 = []
  ∧ realizations (Reconcile r fake_Request).2 = []
  ∧ watches (Reconcile r fake_Request).2 = []
  ∧ ((∀ w, Repo_StatusUpdate r w = None) → (Reconcile r fake_Request).1 = None).
Proof.
  exact (missing_secret_is_handled
           (fake_Reconciler_before (fake_Runnable "" 1)
              (inl (errorString "secret not found"))
              (inl (errorString "unused")) None false)
           fake_Request (fake_Runnable "" 1) (errorString "secret not found")
           eq_refl eq_refl).
Defined.

Lemma client_builder_failure_is_unhandled_witness :
  let err := errorString "no token in the secret" in
  let r :=
    fake_Reconciler_before (fake_Runnable "" 1) (inr {| token := "default" |})
      (inl err) None false in
  added_in (Reconcile r fake_Request).2 = [ClientBuilderErrorCondition err]
  ∧ realizations (Reconcile r fake_Request).2 = []
  ∧ watches (Reconcile r fake_Request).2 = []
  ∧ ((Reconcile r fake_Request).1
       = Some (controller.NewUnhandledError
                 (fmt_Errorf "failed to build resource realizer" err))
     ∨ ∃ e', (Reconcile r fake_Request).1
             = Some (fmt_Errorf "failed to update status for runnable" e')).
Proof.
  exact (client_builder_failure_is_unhandled
           (fake_Reconciler_before (fake_Runnable "" 1)
              (inr {| token := "default" |})
              (inl (errorString "no token in the secret")) None false)
           fake_Request (fake_Runnable "" 1) {| token := "default" |}
           (errorString "no token in the secret") eq_refl eq_refl eq_refl).
Defined.

Lemma stamp_and_output_errors_are_handled_witness :
  let err :=
    realizer_StampError (errorString "unknown field in the template") in
  let r :=
    fake_Reconciler (fake_Runnable "" 1) (None, None, Some err) None None
      false in
  added_in (Reconcile r fake_Request).2 = [TemplateStampFailureCondition err]
  ∧ (Reconcile r fake_Request).1 = None.
Proof.
  exact (stamp_and_output_errors_are_handled
           (fake_Reconciler (fake_Runnable "" 1)
              (None, None,
               Some (realizer_StampError
                       (errorString "unknown field in the template")))
              None None false)
           fake_Request (fake_Runnable "" 1) {| token := "default" |}
           {| impersonates := {| token := "default" |} |} None None
           (realizer_StampError (errorString "unknown field in the template"))
           eq_refl eq_refl eq_refl eq_refl eq_refl
           (λ o Ho, eq_refl) (λ w, eq_refl)).
Defined.

Lemma other_realizer_errors_are_unhandled_witness :
  let err := realizer_ListCreatedObjectsError (errorString "timeout") in
  let r :=
    fake_Reconciler (fake_Runnable "" 1) (Some fake_Stamped, None, Some err)
      None None false in
  (Reconcile r fake_Request).1 = Some (controller.NewUnhandledError err).
Proof.
  refine (proj2 (proj2
    (other_realizer_errors_are_unhandled
       (fake_Reconciler (fake_Runnable "" 1)
          (Some fake_Stamped, None,
           Some (realizer_ListCreatedObjectsError (errorString "timeout")))
          None None false)
       fake_Request (fake_Runnable "" 1) {| token := "default" |}
       {| impersonates := {| token := "default" |} |} (Some fake_Stamped) None
       (realizer_ListCreatedObjectsError (errorString "timeout"))
       eq_refl eq_refl eq_refl eq_refl
       (or_introl (ex_intro _ (errorString "timeout") eq_refl))))
    (λ o Ho, eq_refl) (λ w, eq_refl)).
Defined.

Lemma watch_follows_stamped_object_witness :
  let r :=
    fake_Reconciler (fake_Runnable "" 1) (Some fake_Stamped, fake_Outputs, None)
      (Some (errorString "no informer for the kind")) None false in
  watches (Reconcile r fake_Request).2 = [fake_Stamped].
Proof.
  exact (proj1
    (watch_follows_stamped_object
       (fake_Reconciler (fake_Runnable "" 1)
          (Some fake_Stamped, fake_Outputs, None)
          (Some (errorString "no informer for the kind")) None false)
       fake_Request (fake_Runnable "" 1) {| token := "default" |}
       {| impersonates := {| token := "default" |} |} (Some fake_Stamped)
       fake_Outputs None eq_refl eq_refl eq_refl eq_refl)).
Defined.

Lemma successful_reconcile_witness :
  let r :=
    fake_Reconciler (fake_Runnable "" 1) (Some fake_Stamped, fake_Outputs, None)
      None None false in
  (Reconcile r fake_Request).1 = None
  ∧ added_in (Reconcile r fake_Request).2 = [RunTemplateReadyCondition]
  ∧ (∀ w, StatusUpdateCall w ∈ (Reconcile r fake_Request).2 →
          Outputs_ (Status w) = fake_Outputs).
Proof.
  exact (successful_reconcile
           (fake_Reconciler (fake_Runnable "" 1)
              (Some fake_Stamped, fake_Outputs, None) None None false)
           fake_Request (fake_Runnable "" 1) {| token := "default" |}
           {| impersonates := {| token := "default" |} |} (Some fake_Stamped)
           fake_Outputs eq_refl eq_refl eq_refl eq_refl
           (λ o Ho, eq_refl) (λ w, eq_refl)).
Defined.

Lemma written_status_is_settled_witness :
  let r2 :=
    fake_Reconciler (fake_Runnable_realized fake_Outputs)
      (Some fake_Stamped, fake_Outputs, None) None None false in
  status_writes (Reconcile r2 fake_Request).2 = [].
Proof.
  apply (written_status_is_settled
           (fake_Reconciler (fake_Runnable "" 1)
              (Some fake_Stamped, fake_Outputs, None) None None false)
           (fake_Reconciler (fake_Runnable_realized fake_Outputs)
              (Some fake_Stamped, fake_Outputs, None) None None false)
           fake_Request (fake_Runnable "" 1)
           (fake_Runnable_realized fake_Outputs) eq_refl).
  - apply list_elem_of_In. vm_compute. do 7 right. left. reflexivity.
  - reflexivity.
  - reflexivity.
  - reflexivity.
Defined.
End ReconcilerFurther.

(** ** The mapper, function by function *)

Section MapperFurther.
Import registrar.
Context `{!LabelMatcher}.

Lemma or_iff (P1 P2 Q1 Q2 : Prop) :
  (P1 ↔ P2) → (Q1 ↔ Q2) → (P1 ∨ Q1 ↔ P2 ∨ Q2).
Proof. tauto. Qed.

Lemma elem_of_appendEach {A B} (f : A → M (list B)) (xs : list A) (y : B) :
  y ∈ (appendEach f xs).1 ↔ ∃ x, x ∈ xs ∧ y ∈ (f x).1.
Proof.
  induction xs as [|x xs IH].
  - split; [by intros ?%elem_of_nil|]. by intros (x & ?%elem_of_nil & _).
  - cbn [appendEach]. rewrite !bind_fst. cbn.
    rewrite elem_of_app, IH. setoid_rewrite elem_of_cons. naive_solver.
Qed.

(** X14: a mapper function that asserts the type of its argument, given an
    object of another type, returns no request, makes no call on the
    client and logs one message, with a nil error. *)
Theorem wrong_type_is_logged (f : MapperFunction) (mapper : Client)
    (obj : Object) (t : GoType) :
  asserted f = Some t →
  GoTypeOf obj ≠ t →
  (run f mapper obj).1 = []
  ∧ ∃ msg, (run f mapper obj).2 = [LoggerError None msg].
Proof.
  intros Hf Ht.
  destruct f; try discriminate Hf; injection Hf as <-;
    destruct obj; try (by destruct Ht); (split; [done|by eexists]).
Qed.

(** X15: when the runnables can be listed, [RunTemplateToRunnableRequests]
    returns exactly the names and namespaces of the runnables, of any
    namespace, whose [runTemplateRef] has the name of the changed run
    template and the kind [ClusterRunTemplate] or no kind. *)
Theorem runnables_of_run_template (mapper : Client)
    (runTemplate : ClusterRunTemplate) :
  ListError mapper KRunnable noOptions = None →
  ∀ req,
    req ∈ (RunTemplateToRunnableRequests mapper
             (ObjClusterRunTemplate runTemplate)).1 ↔
    ∃ rn, rn ∈ Runnables mapper
          ∧ req = {| Request_Name := Name (rn_ObjectMeta rn);
                     Request_Namespace := Namespace (rn_ObjectMeta rn) |}
          ∧ Ref_Name (rn_RunTemplateRef rn) = Name (rt_ObjectMeta runTemplate)
          ∧ (Ref_Kind (rn_RunTemplateRef rn) = "ClusterRunTemplate"
             ∨ Ref_Kind (rn_RunTemplateRef rn) = "").
Proof.
  intros Hlist req. unfold RunTemplateToRunnableRequests.
  rewrite bind_fst, Client_List_fst, Hlist, filter_noOptions. cbn.
  rewrite list_elem_of_fmap. setoid_rewrite list_elem_of_filter.
  unfold runTemplateRefMatch.
  split.
  - intros (rn & -> & Hm & Hin). exists rn. split; [done|]. split; [done|].
    case_bool_decide as Hn; [done|].
    apply orb_true_iff in Hm. rewrite !bool_decide_eq_true in Hm.
    split; [|done].
    destruct (decide (Ref_Name (rn_RunTemplateRef rn)
                      = Name (rt_ObjectMeta runTemplate)));
      [done|by destruct Hn].
  - intros (rn & Hin & -> & Hname & Hkind). exists rn. split; [done|].
    split; [|done]. rewrite bool_decide_eq_false_2 by (intros Hn; by apply Hn).
    apply orb_true_iff. rewrite !bool_decide_eq_true. done.
Qed.

(** X16: when the runnables can be listed, [ServiceAccountToRunnableRequests]
    returns exactly the names and namespaces of the runnables in the
    namespace of the service account whose [spec.serviceAccountName] is
    its name; a runnable that names no service account is not matched with
    the account [default]. *)
Theorem runnables_of_service_account (mapper : Client)
    (sa : Object) :
  ListError mapper KRunnable noOptions = None →
  ∀ req,
    req ∈ (ServiceAccountToRunnableRequests mapper sa).1 ↔
    ∃ rn, rn ∈ Runnables mapper
          ∧ req = {| Request_Name := Name (rn_ObjectMeta rn);
                     Request_Namespace := Namespace (rn_ObjectMeta rn) |}
          ∧ Namespace (rn_ObjectMeta rn) = GetNamespace sa
          ∧ rn_ServiceAccountName rn = GetName sa.
Proof.
  intros Hlist req. unfold ServiceAccountToRunnableRequests.
  rewrite bind_fst, Client_List_fst, Hlist, filter_noOptions. cbn.
  rewrite list_elem_of_fmap. setoid_rewrite list_elem_of_filter.
  naive_solver.
Qed.

(** *** Deliveries and deliverables *)

Lemma clusterDeliveryToDeliverables_inr mapper d dvs :
  (clusterDeliveryToDeliverables mapper d).1 = inr dvs ↔
  ∃ gvk,
    Scheme_ObjectKinds mapper TClusterDelivery = inr ([gvk], false)
    ∧ ListError mapper KClusterDelivery noOptions = None
    ∧ ListError mapper KDeliverable (deliverablesOptions d) = None
    ∧ dvs = flat_map
              (λ deliverable,
                 flat_map
                   (λ matchingDelivery,
                      if bool_decide
                           (matchingDelivery = SetGroupVersionKind d gvk)
                      then [deliverable] else [])
                   (BestLabelMatches (λ s, d_Selector (d_Spec s))
                      (Labels (dv_ObjectMeta deliverable))
                      (ClusterDeliveries mapper)))
              (filter (λ x, selects (deliverablesOptions d)
                                    (dv_ObjectMeta x) = true)
                      (Deliverables mapper)).
Proof.
  unfold clusterDeliveryToDeliverables, addGVK.
  change (GoTypeOf d) with TClusterDelivery.
  destruct (Scheme_ObjectKinds mapper TClusterDelivery)
    as [err|[gvks unversioned]] eqn:Hk.
  { split; [done|]. by intros (? & ? & _). }
  destruct unversioned.
  { split; [done|]. by intros (? & ? & _). }
  destruct gvks as [|gvk [|gvk' gvks]].
  { split; [done|]. by intros (? & ? & _). }
  2: { split; [done|]. by intros (? & ? & _). }
  rewrite bind_fst, Client_List_fst.
  destruct (ListError mapper KClusterDelivery noOptions) as [err|] eqn:Hd.
  { split; [done|]. by intros (? & _ & ? & _). }
  rewrite bind_fst, Client_List_fst.
  change (GetNamespace (SetGroupVersionKind d gvk)) with (GetNamespace d).
  change (d_Selector (d_Spec (SetGroupVersionKind d gvk)))
    with (d_Selector (d_Spec d)).
  fold (deliverablesOptions d).
  destruct (ListError mapper KDeliverable (deliverablesOptions d))
    as [err|] eqn:Hdv.
  { split; [done|]. by intros (? & _ & _ & ? & _). }
  cbn. rewrite filter_noOptions. split.
  - intros [= <-]. exists gvk. done.
  - intros (gvk' & [= <-] & _ & _ & ->). done.
Qed.

Lemma elem_of_deliverables_of mapper d gvk dv :
  dv ∈ flat_map
         (λ deliverable,
            flat_map
              (λ matchingDelivery,
                 if bool_decide (matchingDelivery = SetGroupVersionKind d gvk)
                 then [deliverable] else [])
              (BestLabelMatches (λ s, d_Selector (d_Spec s))
                 (Labels (dv_ObjectMeta deliverable))
                 (ClusterDeliveries mapper)))
         (filter (λ x, selects (deliverablesOptions d) (dv_ObjectMeta x) = true)
                 (Deliverables mapper))
  ↔ bestMatchedByDelivery mapper (SetGroupVersionKind d gvk) dv.
Proof.
  rewrite elem_of_flat_map. unfold bestMatchedByDelivery. split.
  - intros (dv' & Hin & Hdv). apply elem_of_flat_map in Hdv as (m & Hm & Hdv).
    case_bool_decide; [|by apply elem_of_nil in Hdv].
    apply list_elem_of_singleton in Hdv. subst.
    apply list_elem_of_filter in Hin as [Hsel Hin]. done.
  - intros (Hin & Hsel & Hbest). exists dv. split.
    + apply list_elem_of_filter. done.
    + apply elem_of_flat_map. exists (SetGroupVersionKind d gvk).
      split; [done|].
      rewrite bool_decide_eq_true_2 by done. apply list_elem_of_singleton. done.
Qed.

(** X17: on a change of the delivery [d], with the scheme knowing its kind
    and the two listings succeeding, the requests returned are exactly the
    names and namespaces of the deliverables in the namespace of [d] (any
    namespace when it has none) whose labels match the selector of [d]
    and among whose best label matches, over the deliveries listed, is an
    object deeply equal to [d] with its kind set. *)
Theorem delivery_enqueues_best_matched (mapper : Client)
    (d : ClusterDelivery) (gvk : GroupVersionKind) :
  Scheme_ObjectKinds mapper TClusterDelivery = inr ([gvk], false) →
  ListError mapper KClusterDelivery noOptions = None →
  ListError mapper KDeliverable (deliverablesOptions d) = None →
  ∀ req,
    req ∈ (ClusterDeliveryToDeliverableRequests mapper
             (ObjClusterDelivery d)).1 ↔
    ∃ dv, dv ∈ Deliverables mapper
          ∧ req = {| Request_Name := Name (dv_ObjectMeta dv);
                     Request_Namespace := Namespace (dv_ObjectMeta dv) |}
          ∧ (Namespace (d_ObjectMeta d) = ""
             ∨ Namespace (dv_ObjectMeta dv) = Namespace (d_ObjectMeta d))
          ∧ labelsMatch (d_Selector (d_Spec d)) (Labels (dv_ObjectMeta dv))
          ∧ SetGroupVersionKind d gvk
              ∈ BestLabelMatches (λ s, d_Selector (d_Spec s))
                  (Labels (dv_ObjectMeta dv)) (ClusterDeliveries mapper).
Proof.
  intros Hk Hd Hdv req. unfold ClusterDeliveryToDeliverableRequests.
  rewrite bind_fst.
  destruct (clusterDeliveryToDeliverables mapper d).1 as [err|dvs] eqn:Heq.
  { apply (f_equal (λ x, match x with inl _ => true | inr _ => false end))
      in Heq as Hcontra.
    assert (∃ dvs, (clusterDeliveryToDeliverables mapper d).1 = inr dvs)
      as [dvs Hok].
    { eexists. apply clusterDeliveryToDeliverables_inr. exists gvk. done. }
    rewrite Hok in Heq. discriminate. }
  apply clusterDeliveryToDeliverables_inr in Heq
    as (gvk' & Hk' & _ & _ & ->).
  rewrite Hk in Hk'. injection Hk' as <-. cbn.
  rewrite list_elem_of_fmap. setoid_rewrite elem_of_deliverables_of.
  unfold bestMatchedByDelivery, selects.
  change (InNamespace (deliverablesOptions (SetGroupVersionKind d gvk)))
    with (Namespace (d_ObjectMeta d)).
  change (MatchingLabels (deliverablesOptions (SetGroupVersionKind d gvk)))
    with (d_Selector (d_Spec d)).
  setoid_rewrite andb_true_iff. setoid_rewrite bool_decide_eq_true.
  split.
  - intros (dv & -> & Hin & [Hns Hl] & Hbest). exists dv. done.
  - intros (dv & Hin & -> & Hns & Hl & Hbest). exists dv. done.
Qed.

Lemma elem_of_directDeliverables sa items req :
  req ∈ directDeliverables sa items ↔
  ∃ dv, dv ∈ items ∧ deliverableNames sa dv
        ∧ req = requestFor (dv_ObjectMeta dv).
Proof.
  unfold directDeliverables.
  assert (∀ m : gset Request,
    req ∈ foldl (λ requestMap deliverable,
           if bool_decide
                (Namespace (dv_ObjectMeta deliverable) = GetNamespace sa
                 ∧ dv_ServiceAccountName deliverable = GetName sa)
           then {[ requestFor (dv_ObjectMeta deliverable) ]} ∪ requestMap
           else requestMap) m items ↔
    req ∈ m ∨ ∃ dv, dv ∈ items ∧ deliverableNames sa dv
                    ∧ req = requestFor (dv_ObjectMeta dv)) as Hgen.
  { induction items as [|dv items IH]; intros m; cbn.
    - split; [by left|]. intros [?|(dv & Hin & _)]; [done|].
      by apply elem_of_nil in Hin.
    - rewrite IH. setoid_rewrite elem_of_cons. unfold deliverableNames.
      case_bool_decide; set_solver. }
  rewrite Hgen. set_solver.
Qed.

Lemma elem_of_addIndirectDeliverables sa d dvs (m : gset Request) req :
  req ∈ foldl (addIndirectDeliverable sa d) m dvs ↔
  req ∈ m ∨ ∃ dv, dv ∈ dvs ∧ deliverableFallsBackOn sa d dv
                  ∧ req = requestFor (dv_ObjectMeta dv).
Proof.
  revert m. induction dvs as [|dv dvs IH]; intros m; cbn.
  - split; [by left|]. intros [?|(dv & Hin & _)]; [done|].
    by apply elem_of_nil in Hin.
  - rewrite IH. setoid_rewrite elem_of_cons.
    unfold addIndirectDeliverable, deliverableFallsBackOn.
    repeat case_bool_decide; set_solver.
Qed.

Lemma elem_of_indirectDeliverables mapper sa deliveries
    (requestMap : gset Request) req :
  req ∈ (indirectDeliverables mapper sa deliveries requestMap).1 ↔
  req ∈ requestMap
  ∨ ∃ d dvs dv, d ∈ deliveries
                ∧ (clusterDeliveryToDeliverables mapper d).1 = inr dvs
                ∧ dv ∈ dvs
                ∧ deliverableFallsBackOn sa d dv
                ∧ req = requestFor (dv_ObjectMeta dv).
Proof.
  revert requestMap.
  induction deliveries as [|d ds IH]; intros requestMap.
  - cbn. split; [by left|].
    intros [?|(d & dvs & dv & Hin & _)]; [done|]. by apply elem_of_nil in Hin.
  - cbn [indirectDeliverables]. rewrite !bind_fst.
    destruct (clusterDeliveryToDeliverables mapper d).1 as [err|dvs] eqn:Heq.
    + cbn. rewrite IH. cbn. setoid_rewrite elem_of_cons. split.
      * intros [?|(d' & dvs & dv & Hin & ?)]; [by left|].
        right. exists d', dvs, dv. split; [by right|done].
      * intros [?|(d' & dvs & dv & [->|Hin] & Hd & ?)]; [by left| |].
        -- rewrite Heq in Hd. discriminate.
        -- right. exists d', dvs, dv. done.
    + cbn. rewrite IH, elem_of_addIndirectDeliverables.
      setoid_rewrite elem_of_cons. split.
      * intros [[?|(dv & Hin & Hf & ->)]|(d' & dvs' & dv & Hin & ?)].
        -- by left.
        -- right. exists d, dvs, dv. split; [by left|done].
        -- right. exists d', dvs', dv. split; [by right|done].
      * intros [?|(d' & dvs' & dv & [->|Hin] & Hd & Hdv & Hf & ->)].
        -- left. by left.
        -- rewrite Heq in Hd. injection Hd as <-.
           left. right. exists dv. done.
        -- right. exists d', dvs', dv. done.
Qed.

(** X18: when the deliverables can be listed,
    [ServiceAccountToDeliverableRequests] returns exactly the names and
    namespaces of the deliverables in the account's namespace that name
    it, and of the deliverables without a service account that are best
    matched (a listed delivery being deeply equal to it with its kind set)
    by a delivery whose [serviceAccountRef] names the account under the
    namespace rule of the code, provided the lookup for that very delivery
    succeeds: a delivery whose lookup fails is passed over, and the
    requests found otherwise are kept. *)
Theorem deliverables_of_service_account (mapper : Client) (sa : Object) :
  ListError mapper KDeliverable noOptions = None →
  ∀ req,
    req ∈ (ServiceAccountToDeliverableRequests mapper sa).1 ↔
    (∃ dv, dv ∈ Deliverables mapper
           ∧ Namespace (dv_ObjectMeta dv) = GetNamespace sa
           ∧ dv_ServiceAccountName dv = GetName sa
           ∧ req = {| Request_Name := Name (dv_ObjectMeta dv);
                      Request_Namespace := Namespace (dv_ObjectMeta dv) |})
    ∨ (∃ gvk d dv,
          Scheme_ObjectKinds mapper TClusterDelivery = inr ([gvk], false)
          ∧ ListError mapper KClusterDelivery noOptions = None
          ∧ d ∈ ClusterDeliveries mapper
          ∧ SARef_Name (d_ServiceAccountRef (d_Spec d)) = GetName sa
          ∧ ListError mapper KDeliverable (deliverablesOptions d) = None
          ∧ bestMatchedByDelivery mapper (SetGroupVersionKind d gvk) dv
          ∧ dv_ServiceAccountName dv = ""
          ∧ (SARef_Namespace (d_ServiceAccountRef (d_Spec d))
               = GetNamespace sa
             ∨ (SARef_Namespace (d_ServiceAccountRef (d_Spec d)) = ""
                ∧ Namespace (dv_ObjectMeta dv) = GetNamespace sa))
          ∧ req = {| Request_Name := Name (dv_ObjectMeta dv);
                     Request_Namespace := Namespace (dv_ObjectMeta dv) |}).
Proof.
  intros Hlist req. unfold ServiceAccountToDeliverableRequests.
  rewrite bind_fst, Client_List_fst, Hlist, filter_noOptions.
  rewrite !bind_fst. cbn.
  rewrite elem_of_elements, elem_of_indirectDeliverables,
    elem_of_directDeliverables.
  unfold deliverableNames, deliverableFallsBackOn.
  apply or_iff.
  - split.
    + intros (dv & ? & [? ?] & ?). exists dv. done.
    + intros (dv & ? & ? & ? & ?). exists dv. done.
  - unfold serviceAccountToDeliveries. rewrite bind_fst, Client_List_fst.
    split.
    + intros (d & dvs & dv & Hin & Hd & Hdv & [Hsa Hns] & ->).
      apply clusterDeliveryToDeliverables_inr in Hd
        as (gvk & Hk & Hl & Hl' & ->).
      rewrite Hl in Hin. cbn in Hin. rewrite filter_noOptions in Hin.
      apply list_elem_of_filter in Hin as [Href Hin].
      apply elem_of_deliverables_of in Hdv.
      exists gvk, d, dv. done.
    + intros (gvk & d & dv & Hk & Hl & Hin & Href & Hl' & Hb & Hsa & Hns & ->).
      rewrite Hl. cbn. rewrite filter_noOptions.
      exists d. eexists. exists dv. split; [by apply list_elem_of_filter|].
      split; [apply clusterDeliveryToDeliverables_inr; by exists gvk|].
      split; [by apply elem_of_deliverables_of|]. done.
Qed.

(** *** Service accounts and workloads *)

(** X19: unlike its twin for deliverables,
    [ServiceAccountToWorkloadRequests] returns nothing at all, the direct
    matches included, when the supply chains can be listed and the lookup
    of the workloads (its [addGVK] or its listing of the workloads) fails
    for one supply chain whose [serviceAccountRef] names the account. *)
Theorem workload_lookup_failure_drops_all (mapper : Client) (sa : Object)
    (sc : ClusterSupplyChain) (err : error) :
  ListError mapper KClusterSupplyChain noOptions = None →
  sc ∈ ClusterSupplyChains mapper →
  SARef_Name (sc_ServiceAccountRef (sc_Spec sc)) = GetName sa →
  (clusterSupplyChainToWorkloads mapper sc).1 = inl err →
  (ServiceAccountToWorkloadRequests mapper sa).1 = [].
Proof.
  intros Hsc Hin Href Hfail. unfold ServiceAccountToWorkloadRequests.
  rewrite bind_fst.
  destruct (Client_List _ _ _ _ _).1 as [err'|items]; [done|].
  rewrite !bind_fst, serviceAccountToSupplyChains_ok by done.
  rewrite (indirectWorkloads_failed _ _ _ _ sc err); [done| |done].
  by apply list_elem_of_filter.
Qed.

(** X20: when the supply chains cannot be listed but the workloads can,
    [ServiceAccountToWorkloadRequests] returns exactly the names and
    namespaces of the workloads in the account's namespace that name it. *)
Theorem supply_chain_list_failure_keeps_direct (mapper : Client)
    (sa : Object) (err : error) :
  ListError mapper KWorkload noOptions = None →
  ListError mapper KClusterSupplyChain noOptions = Some err →
  ∀ req,
    req ∈ (ServiceAccountToWorkloadRequests mapper sa).1 ↔
    ∃ w, w ∈ Workloads mapper
         ∧ Namespace (wl_ObjectMeta w) = GetNamespace sa
         ∧ wl_ServiceAccountName w = GetName sa
         ∧ req = {| Request_Name := Name (wl_ObjectMeta w);
                    Request_Namespace := Namespace (wl_ObjectMeta w) |}.
Proof.
  intros Hwl Hsc req. unfold ServiceAccountToWorkloadRequests.
  rewrite bind_fst, Client_List_fst, Hwl, filter_noOptions, !bind_fst.
  unfold serviceAccountToSupplyChains.
  rewrite bind_fst, Client_List_fst, Hsc. cbn.
  rewrite elem_of_elements, elem_of_directWorkloads.
  unfold namesServiceAccount. split.
  - intros (w & ? & [? ?] & ?). exists w. done.
  - intros (w & ? & ? & ? & ?). exists w. done.
Qed.

Lemma ServiceAccountToWorkloadRequests_elem mapper sa gvk req :
  Scheme_ObjectKinds mapper TClusterSupplyChain = inr ([gvk], false) →
  (∀ kind opts, ListError mapper kind opts = None) →
  req ∈ (ServiceAccountToWorkloadRequests mapper sa).1 ↔
  (∃ w, w ∈ Workloads mapper ∧ namesServiceAccount sa w
        ∧ req = requestFor (wl_ObjectMeta w))
  ∨ (∃ sc w, sc ∈ ClusterSupplyChains mapper
             ∧ SARef_Name (sc_ServiceAccountRef (sc_Spec sc)) = GetName sa
             ∧ bestMatchedBy mapper (SetGroupVersionKind sc gvk) w
             ∧ fallsBackOn sa sc w
             ∧ req = requestFor (wl_ObjectMeta w)).
Proof.
  intros Hk Hlist. unfold ServiceAccountToWorkloadRequests.
  rewrite bind_fst, Client_List_fst, Hlist, filter_noOptions.
  rewrite !bind_fst, serviceAccountToSupplyChains_ok by apply Hlist.
  destruct (indirectWorkloads_ok mapper sa gvk
              (filter (λ sc, SARef_Name (sc_ServiceAccountRef (sc_Spec sc))
                             = GetName sa) (ClusterSupplyChains mapper))
              (directWorkloads sa (Workloads mapper)) Hk (Hlist _ _))
    as (result & -> & Hmem); [intros; apply Hlist|].
  cbn. rewrite elem_of_elements, Hmem, elem_of_directWorkloads.
  setoid_rewrite list_elem_of_filter. apply or_iff; [done|].
  split.
  - intros (sc & w & [? ?] & ? & ? & ?). exists sc, w. done.
  - intros (sc & w & ? & ? & ? & ? & ?). exists sc, w. done.
Qed.

(** X21: when the [Get] of the service account of a RoleBinding fails,
    [RoleBindingToWorkloadRequests] goes on with the object it had handed
    to [Get].  If the failed call has left that object empty then, with
    the scheme knowing the kind of supply chains and no listing failing,
    the function returns exactly the names and namespaces of the workloads
    that name no service account and are best matched by a supply chain
    without [serviceAccountRef], and of the workloads without namespace
    and service account. *)
Theorem role_binding_get_failure_uses_empty_account (mapper : Client)
    (rb : RoleBinding) (subject : Subject) (err : error)
    (gvk : GroupVersionKind) :
  find (λ s, bool_decide (isServiceAccount s)) (rb_Subjects rb)
    = Some subject →
  GetServiceAccount mapper (serviceAccountKey subject)
    = inl (err, emptyServiceAccount) →
  Scheme_ObjectKinds mapper TClusterSupplyChain = inr ([gvk], false) →
  (∀ kind opts, ListError mapper kind opts = None) →
  ∀ req,
    req ∈ (RoleBindingToWorkloadRequests mapper (ObjRoleBinding rb)).1 ↔
    (∃ w, w ∈ Workloads mapper
          ∧ Namespace (wl_ObjectMeta w) = ""
          ∧ wl_ServiceAccountName w = ""
          ∧ req = {| Request_Name := Name (wl_ObjectMeta w);
                     Request_Namespace := Namespace (wl_ObjectMeta w) |})
    ∨ (∃ sc w, sc ∈ ClusterSupplyChains mapper
               ∧ sc_ServiceAccountRef (sc_Spec sc)
                 = {| SARef_Name := ""; SARef_Namespace := "" |}
               ∧ bestMatchedBy mapper (SetGroupVersionKind sc gvk) w
               ∧ wl_ServiceAccountName w = ""
               ∧ req = {| Request_Name := Name (wl_ObjectMeta w);
                          Request_Namespace := Namespace (wl_ObjectMeta w) |}).
Proof.
  intros Hfind Hget Hk Hlist req. unfold RoleBindingToWorkloadRequests.
  rewrite Hfind, bind_fst. unfold Client_Get. rewrite Hget. cbn [fst emit].
  rewrite bind_fst.
  change ((Logger_Error _ _).1) with ().
  rewrite (ServiceAccountToWorkloadRequests_elem _ _ gvk) by done.
  unfold namesServiceAccount, fallsBackOn. cbn.
  apply or_iff.
  - split.
    + intros (w & ? & [? ?] & ?). exists w. done.
    + intros (w & ? & ? & ? & ?). exists w. done.
  - split.
    + intros (sc & w & ? & Hn & ? & [? Hns] & ?). exists sc, w.
      split; [done|]. split; [|done].
      destruct (sc_ServiceAccountRef (sc_Spec sc)) as [n ns]. cbn in *.
      subst n. by destruct Hns as [->|[-> _]].
    + intros (sc & w & ? & Href & ? & ? & ?). exists sc, w.
      rewrite Href. cbn. split; [done|]. split; [done|]. split; [done|].
      split; [|done]. split; [done|]. by left.
Qed.

(** *** Roles and bindings *)

Lemma ret_fst {A} (a : A) : (mret a : M A).1 = a.
Proof. done. Qed.

Lemma elem_of_appendEach_if {A B} (test : A → bool) (f : A → M (list B))
    (xs : list A) (y : B) :
  y ∈ (appendEach (λ x, if test x then f x else mret []) xs).1 ↔
  ∃ x, x ∈ xs ∧ test x = true ∧ y ∈ (f x).1.
Proof.
  rewrite elem_of_appendEach. split.
  - intros (x & Hin & Hy). exists x. destruct (test x); [done|].
    by apply elem_of_nil in Hy.
  - intros (x & Hin & Ht & Hy). exists x. by rewrite Ht.
Qed.

(** X22: when the RoleBindings can be listed, a Role function returns
    exactly the requests that the matching RoleBinding function returns for
    some RoleBinding of the role's namespace whose [roleRef] has the core
    API group, the kind [Role] and the name of the role. *)
Theorem role_enqueues_through_bindings (f g : MapperFunction)
    (mapper : Client) (role : Role) :
  fromRole f = true →
  forRoleBindings f = Some g →
  ListError mapper KRoleBinding noOptions = None →
  ∀ req,
    req ∈ (run f mapper (ObjRole role)).1 ↔
    ∃ rb, rb ∈ RoleBindings mapper
          ∧ RoleRef_APIGroup (rb_RoleRef rb) = ""
          ∧ RoleRef_Kind (rb_RoleRef rb) = "Role"
          ∧ RoleRef_Name (rb_RoleRef rb) = Name (role_ObjectMeta role)
          ∧ Namespace (rb_ObjectMeta rb) = Namespace (role_ObjectMeta role)
          ∧ req ∈ (run g mapper (ObjRoleBinding rb)).1.
Proof.
  intros Hf Hg Hlist req.
  destruct f; try discriminate Hf; injection Hg as <-; cbn [run];
    unfold RoleToWorkloadRequests, RoleToDeliverableRequests,
      RoleToRunnableRequests;
    rewrite bind_fst, Client_List_fst, Hlist, filter_noOptions;
    rewrite elem_of_appendEach_if; unfold bindsRole;
    setoid_rewrite bool_decide_eq_true; naive_solver.
Qed.

(** X23: when both kinds of binding can be listed, a ClusterRole function
    returns exactly the requests that the matching binding functions return
    for the ClusterRoleBindings, and for the RoleBindings of any namespace,
    whose [roleRef] has the core API group, the kind [ClusterRole] and the
    name of the cluster role. *)
Theorem cluster_role_enqueues_through_bindings (f g h : MapperFunction)
    (mapper : Client) (clusterRole : ClusterRole) :
  forClusterRoleBindings f = Some h →
  forRoleBindings f = Some g →
  ListError mapper KClusterRoleBinding noOptions = None →
  ListError mapper KRoleBinding noOptions = None →
  ∀ req,
    req ∈ (run f mapper (ObjClusterRole clusterRole)).1 ↔
    (∃ crb, crb ∈ ClusterRoleBindings mapper
            ∧ RoleRef_APIGroup (crb_RoleRef crb) = ""
            ∧ RoleRef_Kind (crb_RoleRef crb) = "ClusterRole"
            ∧ RoleRef_Name (crb_RoleRef crb)
              = Name (crole_ObjectMeta clusterRole)
            ∧ req ∈ (run h mapper (ObjClusterRoleBinding crb)).1)
    ∨ (∃ rb, rb ∈ RoleBindings mapper
             ∧ RoleRef_APIGroup (rb_RoleRef rb) = ""
             ∧ RoleRef_Kind (rb_RoleRef rb) = "ClusterRole"
             ∧ RoleRef_Name (rb_RoleRef rb)
               = Name (crole_ObjectMeta clusterRole)
             ∧ req ∈ (run g mapper (ObjRoleBinding rb)).1).
Proof.
  intros Hh Hg Hcrb Hrb req.
  destruct f; try discriminate Hh; injection Hh as <-; injection Hg as <-;
    cbn [run];
    unfold ClusterRoleToWorkloadRequests, ClusterRoleToDeliverableRequests,
      ClusterRoleToRunnableRequests;
    rewrite bind_fst, Client_List_fst, Hcrb, filter_noOptions;
    rewrite !bind_fst, Client_List_fst, Hrb, filter_noOptions;
    rewrite bind_fst, ret_fst;
    rewrite elem_of_app, !elem_of_appendEach_if; unfold bindsClusterRole;
    setoid_rewrite bool_decide_eq_true; naive_solver.
Qed.

(** X24: a ClusterRole function returns nothing when the RoleBindings
    cannot be listed, whatever it has found through the
    ClusterRoleBindings before. *)
Theorem cluster_role_needs_role_bindings (f : MapperFunction)
    (mapper : Client) (obj : Object) (err : error) :
  fromClusterRole f = true →
  ListError mapper KRoleBinding noOptions = Some err →
  (run f mapper obj).1 = [].
Proof.
  intros Hf Hrb.
  destruct f; try discriminate Hf; destruct obj; try done; cbn [run];
    unfold ClusterRoleToWorkloadRequests, ClusterRoleToDeliverableRequests,
      ClusterRoleToRunnableRequests;
    rewrite bind_fst;
    (destruct (Client_List _ _ _ _ _).1; [done|]);
    by rewrite !bind_fst, Client_List_fst, Hrb.
Qed.

(** X25: a RoleBinding or ClusterRoleBinding function looks only at the
    first subject of the binding that is a service account of the core API
    group: two objects of the same type whose first such subjects agree
    (or that have none) give the same requests and the same calls,
    whatever their other subjects, their names and their [roleRef]. *)
Theorem binding_uses_first_service_account (f : MapperFunction)
    (mapper : Client) (obj1 obj2 : Object) :
  fromRoleBinding f = true ∨ fromClusterRoleBinding f = true →
  GoTypeOf obj1 = GoTypeOf obj2 →
  find (λ s, bool_decide (isServiceAccount s)) (subjectsOf obj1)
    = find (λ s, bool_decide (isServiceAccount s)) (subjectsOf obj2) →
  run f mapper obj1 = run f mapper obj2.
Proof.
  intros Hf Ht Hfind.
  destruct f; try (by destruct Hf);
    destruct obj1; destruct obj2; try discriminate Ht; try done; cbn in *;
    unfold RoleBindingToWorkloadRequests, RoleBindingToDeliverableRequests,
      RoleBindingToRunnableRequests, ClusterRoleBindingToWorkloadRequests,
      ClusterRoleBindingToDeliverableRequests,
      ClusterRoleBindingToRunnableRequests;
    by rewrite Hfind.
Qed.

(** *** Templates *)

Lemma Kind_SetGroupVersionKind (obj : Object) gvk :
  Kind (GetTypeMeta (SetGroupVersionKind obj gvk)) = GVK_Kind gvk.
Proof. by destruct obj. Qed.

Lemma GetObjectMeta_SetGroupVersionKind (obj : Object) gvk :
  GetObjectMeta (SetGroupVersionKind obj gvk) = GetObjectMeta obj.
Proof. by destruct obj. Qed.

Lemma GoTypeOf_SetGroupVersionKind (obj : Object) gvk :
  GoTypeOf (SetGroupVersionKind obj gvk) = GoTypeOf obj.
Proof. by destruct obj. Qed.

Lemma flat_map_if_replicate {A B} (test : A → bool) (b : B) (l : list A) :
  flat_map (λ x, if test x then [b] else []) l
  = replicate (length (filter (λ x, test x = true) l)) b.
Proof.
  induction l as [|x l IH]; [done|]. cbn [flat_map].
  destruct (test x) eqn:Ht.
  - rewrite filter_cons_True by done. cbn. by rewrite IH.
  - rewrite filter_cons_False by (by rewrite Ht). by rewrite IH.
Qed.

Lemma templateToSupplyChains_ok mapper (template : Object) gvk :
  Scheme_ObjectKinds mapper (GoTypeOf template) = inr ([gvk], false) →
  ListError mapper KClusterSupplyChain noOptions = None →
  (templateToSupplyChains mapper template).1 =
  flat_map (λ sc,
              replicate
                (length (filter (λ res, refersTo (GVK_Kind gvk)
                                          (GetName template) res = true)
                                (sc_Resources (sc_Spec sc))))
                sc)
           (ClusterSupplyChains mapper).
Proof.
  intros Hk Hsc. unfold templateToSupplyChains.
  rewrite (addGVK_ok mapper template gvk) by exact Hk.
  rewrite bind_fst, Client_List_fst, Hsc, filter_noOptions, ret_fst.
  rewrite Kind_SetGroupVersionKind.
  apply flat_map_ext. intros sc. apply flat_map_if_replicate.
Qed.

Lemma templateToDeliveries_ok mapper (template : Object) gvk :
  Scheme_ObjectKinds mapper (GoTypeOf template) = inr ([gvk], false) →
  ListError mapper KClusterDelivery noOptions = None →
  (templateToDeliveries mapper template).1 =
  flat_map (λ d,
              replicate
                (length (filter (λ res, refersTo (GVK_Kind gvk)
                                          (GetName template) res = true)
                                (d_Resources (d_Spec d))))
                d)
           (ClusterDeliveries mapper).
Proof.
  intros Hk Hd. unfold templateToDeliveries.
  rewrite (addGVK_ok mapper template gvk) by exact Hk.
  rewrite bind_fst, Client_List_fst, Hd, filter_noOptions, ret_fst.
  rewrite Kind_SetGroupVersionKind.
  apply flat_map_ext. intros d. apply flat_map_if_replicate.
Qed.

Lemma fmap_flat_map_replicate {A B} (f : A → B) (n : A → nat) (l : list A) :
  f <$> flat_map (λ x, replicate (n x) x) l
  = flat_map (λ x, replicate (n x) (f x)) l.
Proof.
  induction l as [|x l IH]; [done|]. cbn [flat_map].
  by rewrite fmap_app, fmap_replicate, IH.
Qed.

(** X26: when the scheme knows one kind for the type of the template and
    the blueprints can be listed, [TemplateToSupplyChainRequests] and
    [TemplateToDeliveryRequests] return, in the order of the listing, one
    request for every resource of a blueprint that refers to the template
    by that kind and by the template's name: a blueprint that refers to it
    twice is requested twice.  The requests have no namespace. *)
Theorem template_enqueues_once_per_reference (mapper : Client)
    (template : Object) (gvk : GroupVersionKind) :
  Scheme_ObjectKinds mapper (GoTypeOf template) = inr ([gvk], false) →
  (ListError mapper KClusterSupplyChain noOptions = None →
   (TemplateToSupplyChainRequests mapper template).1 =
   flat_map
     (λ sc,
        replicate
          (length (filter (λ res,
                             Ref_Kind (TemplateRef res) = GVK_Kind gvk
                             ∧ Ref_Name (TemplateRef res) = GetName template)
                          (sc_Resources (sc_Spec sc))))
          {| Request_Name := Name (sc_ObjectMeta sc);
             Request_Namespace := "" |})
     (ClusterSupplyChains mapper))
  ∧ (ListError mapper KClusterDelivery noOptions = None →
     (TemplateToDeliveryRequests mapper template).1 =
     flat_map
       (λ d,
          replicate
            (length (filter (λ res,
                               Ref_Kind (TemplateRef res) = GVK_Kind gvk
                               ∧ Ref_Name (TemplateRef res) = GetName template)
                            (d_Resources (d_Spec d))))
            {| Request_Name := Name (d_ObjectMeta d);
               Request_Namespace := "" |})
       (ClusterDeliveries mapper)).
Proof.
  intros Hk.
  assert (∀ l : list Resource,
    length (filter (λ res, refersTo (GVK_Kind gvk) (GetName template) res
                           = true) l)
    = length (filter (λ res, Ref_Kind (TemplateRef res) = GVK_Kind gvk
                             ∧ Ref_Name (TemplateRef res) = GetName template)
                     l)) as Hlen.
  { intros l. f_equal. apply list_filter_iff. intros res. unfold refersTo.
    by rewrite bool_decide_eq_true. }
  split; intros Hlist.
  - unfold TemplateToSupplyChainRequests.
    rewrite bind_fst, ret_fst, (templateToSupplyChains_ok _ _ gvk) by done.
    rewrite (fmap_flat_map_replicate
               (λ sc, {| Request_Name := GetName sc;
                         Request_Namespace := "" |})).
    apply flat_map_ext. intros sc. by rewrite Hlen.
  - unfold TemplateToDeliveryRequests.
    rewrite bind_fst, ret_fst, (templateToDeliveries_ok _ _ gvk) by done.
    rewrite (fmap_flat_map_replicate
               (λ d, {| Request_Name := GetName d;
                        Request_Namespace := "" |})).
    apply flat_map_ext. intros d. by rewrite Hlen.
Qed.

Lemma elem_of_flat_map_replicate {A} (n : A → nat) (l : list A) (x : A) :
  x ∈ flat_map (λ y, replicate (n y) y) l ↔ x ∈ l ∧ n x ≠ 0.
Proof.
  rewrite elem_of_flat_map. setoid_rewrite elem_of_replicate. naive_solver.
Qed.

Lemma length_filter_ne_0 {A} (P : A → Prop) `{!∀ x, Decision (P x)}
    (l : list A) :
  length (filter P l) ≠ 0 ↔ ∃ x, x ∈ l ∧ P x.
Proof.
  split.
  - intros Hne. destruct (filter P l) as [|x l'] eqn:Heq; [done|].
    exists x. apply and_comm, (list_elem_of_filter P). rewrite Heq. by left.
  - intros (x & Hin & HP) Hlen. apply length_zero_iff_nil in Hlen.
    assert (x ∈ filter P l) as Hx by by apply list_elem_of_filter.
    rewrite Hlen in Hx. by apply elem_of_nil in Hx.
Qed.

(** X27: when the scheme knows one kind for the type of the template and
    the blueprints can be listed, [TemplateToWorkloadRequests] returns
    exactly the requests that [ClusterSupplyChainToWorkloadRequests] returns
    for some supply chain with a resource that refers to the template by
    that kind and by name; likewise [TemplateToDeliverableRequests] with
    the deliveries. *)
Theorem template_enqueues_through_blueprints (mapper : Client)
    (template : Object) (gvk : GroupVersionKind) :
  Scheme_ObjectKinds mapper (GoTypeOf template) = inr ([gvk], false) →
  (ListError mapper KClusterSupplyChain noOptions = None →
   ∀ req,
     req ∈ (TemplateToWorkloadRequests mapper template).1 ↔
     ∃ sc res,
       sc ∈ ClusterSupplyChains mapper
       ∧ res ∈ sc_Resources (sc_Spec sc)
       ∧ Ref_Kind (TemplateRef res) = GVK_Kind gvk
       ∧ Ref_Name (TemplateRef res) = GetName template
       ∧ req ∈ (ClusterSupplyChainToWorkloadRequests mapper
                  (ObjClusterSupplyChain sc)).1)
  ∧ (ListError mapper KClusterDelivery noOptions = None →
     ∀ req,
       req ∈ (TemplateToDeliverableRequests mapper template).1 ↔
       ∃ d res,
         d ∈ ClusterDeliveries mapper
         ∧ res ∈ d_Resources (d_Spec d)
         ∧ Ref_Kind (TemplateRef res) = GVK_Kind gvk
         ∧ Ref_Name (TemplateRef res) = GetName template
         ∧ req ∈ (ClusterDeliveryToDeliverableRequests mapper
                    (ObjClusterDelivery d)).1).
Proof.
  intros Hk. split; intros Hlist req.
  - unfold TemplateToWorkloadRequests.
    rewrite bind_fst, elem_of_appendEach,
      (templateToSupplyChains_ok _ _ gvk) by done.
    setoid_rewrite elem_of_flat_map_replicate.
    setoid_rewrite length_filter_ne_0. unfold refersTo.
    setoid_rewrite bool_decide_eq_true. naive_solver.
  - unfold TemplateToDeliverableRequests.
    rewrite bind_fst, elem_of_appendEach,
      (templateToDeliveries_ok _ _ gvk) by done.
    setoid_rewrite elem_of_flat_map_replicate.
    setoid_rewrite length_filter_ne_0. unfold refersTo.
    setoid_rewrite bool_decide_eq_true. naive_solver.
Qed.

(** X28: when [addGVK] succeeds the scheme knows exactly one, versioned,
    kind for the type of the object; the object gets that kind and API
    version, keeps its type, name, namespace and labels, and a second
    [addGVK] leaves it as it is. *)
Theorem addGVK_sets_only_the_kind (mapper : Client) (obj obj' : Object) :
  addGVK mapper obj = inr obj' →
  GetObjectMeta obj' = GetObjectMeta obj
  ∧ GoTypeOf obj' = GoTypeOf obj
  ∧ (∃ gvk, Scheme_ObjectKinds mapper (GoTypeOf obj) = inr ([gvk], false)
            ∧ GetTypeMeta obj' = TypeMeta_of gvk)
  ∧ addGVK mapper obj' = inr obj'.
Proof.
  unfold addGVK at 1.
  destruct (Scheme_ObjectKinds mapper (GoTypeOf obj))
    as [err|[gvks unversioned]] eqn:Hk; [done|].
  destruct unversioned; [done|].
  destruct gvks as [|gvk [|gvk' gvks]]; [done| |done].
  intros [= <-].
  split; [apply GetObjectMeta_SetGroupVersionKind|].
  split; [apply GoTypeOf_SetGroupVersionKind|]. split.
  - exists gvk. split; [done|]. by destruct obj.
  - unfold addGVK. destruct obj; cbn in *; by rewrite Hk.
Qed.

(** *** Silence *)

Section Quiet.
Variable mapper : Client.
Hypothesis Hlist : ∀ kind opts, ListError mapper kind opts = None.
Hypothesis Hget : ∀ key, ∃ sa, GetServiceAccount mapper key = inr sa.
Hypothesis Hscheme :
  ∀ t, ∃ gvk, Scheme_ObjectKinds mapper t = inr ([gvk], false).

Lemma errorsLogged_bind {A B} (m : M A) (k : A → M B) :
  errorsLogged (m ≫= k).2 = errorsLogged m.2 ++ errorsLogged (k m.1).2.
Proof. unfold errorsLogged. rewrite bind_snd. apply omap_app. Qed.

Lemma errorsLogged_appendEach {A B} (f : A → M (list B)) (xs : list A) :
  (∀ x, errorsLogged (f x).2 = []) →
  errorsLogged (appendEach f xs).2 = [].
Proof.
  intros Hf. induction xs as [|x xs IH]; [done|]. cbn [appendEach].
  by rewrite !errorsLogged_bind, Hf, IH.
Qed.

Lemma Client_List_ok {A} kind (items : list A) meta opts :
  Client_List mapper kind items meta opts
  = emit (ListCall kind opts None)
         (inr (filter (λ x, selects opts (meta x) = true) items)).
Proof. unfold Client_List. by rewrite Hlist. Qed.

Ltac quiet_lists :=
  repeat (progress (rewrite ?errorsLogged_bind, ?bind_fst, ?Client_List_ok;
                    cbn [emit fst snd])).

Lemma addGVK_quiet `{ClientObject A} (obj : A) :
  ∃ gvk, addGVK mapper obj = inr (SetGroupVersionKind obj gvk).
Proof.
  destruct (Hscheme (GoTypeOf obj)) as [gvk Hk]. exists gvk.
  by apply addGVK_ok.
Qed.

Lemma templateToSupplyChains_quiet template :
  errorsLogged (templateToSupplyChains mapper template).2 = [].
Proof.
  unfold templateToSupplyChains.
  destruct (addGVK_quiet template) as [gvk ->].
  by rewrite errorsLogged_bind, Client_List_ok.
Qed.

Lemma templateToDeliveries_quiet template :
  errorsLogged (templateToDeliveries mapper template).2 = [].
Proof.
  unfold templateToDeliveries.
  destruct (addGVK_quiet template) as [gvk ->].
  by rewrite errorsLogged_bind, Client_List_ok.
Qed.

Lemma clusterSupplyChainToWorkloads_quiet sc :
  errorsLogged (clusterSupplyChainToWorkloads mapper sc).2 = []
  ∧ ∃ ws, (clusterSupplyChainToWorkloads mapper sc).1 = inr ws.
Proof.
  unfold clusterSupplyChainToWorkloads.
  destruct (addGVK_quiet sc) as [gvk ->].
  quiet_lists. split; [done|]. by eexists.
Qed.

Lemma clusterDeliveryToDeliverables_quiet d :
  errorsLogged (clusterDeliveryToDeliverables mapper d).2 = []
  ∧ ∃ dvs, (clusterDeliveryToDeliverables mapper d).1 = inr dvs.
Proof.
  unfold clusterDeliveryToDeliverables.
  destruct (addGVK_quiet d) as [gvk ->].
  quiet_lists. split; [done|]. by eexists.
Qed.

Lemma ClusterSupplyChainToWorkloadRequests_quiet sc :
  errorsLogged (ClusterSupplyChainToWorkloadRequests mapper
                  (ObjClusterSupplyChain sc)).2 = [].
Proof.
  unfold ClusterSupplyChainToWorkloadRequests.
  destruct (clusterSupplyChainToWorkloads_quiet sc) as [Htr [ws Hws]].
  by rewrite errorsLogged_bind, Htr, Hws.
Qed.

Lemma ClusterDeliveryToDeliverableRequests_quiet d :
  errorsLogged (ClusterDeliveryToDeliverableRequests mapper
                  (ObjClusterDelivery d)).2 = [].
Proof.
  unfold ClusterDeliveryToDeliverableRequests.
  destruct (clusterDeliveryToDeliverables_quiet d) as [Htr [dvs Hdvs]].
  by rewrite errorsLogged_bind, Htr, Hdvs.
Qed.

Lemma indirectWorkloads_quiet sa supplyChains (requestMap : gset Request) :
  errorsLogged (indirectWorkloads mapper sa supplyChains requestMap).2 = [].
Proof.
  revert requestMap.
  induction supplyChains as [|sc scs IH]; intros requestMap; [done|].
  cbn [indirectWorkloads].
  destruct (clusterSupplyChainToWorkloads_quiet sc) as [Htr [ws Hws]].
  by rewrite errorsLogged_bind, Htr, Hws, IH.
Qed.

Lemma indirectDeliverables_quiet sa deliveries (requestMap : gset Request) :
  errorsLogged (indirectDeliverables mapper sa deliveries requestMap).2 = [].
Proof.
  revert requestMap.
  induction deliveries as [|d ds IH]; intros requestMap; [done|].
  cbn [indirectDeliverables].
  destruct (clusterDeliveryToDeliverables_quiet d) as [Htr [dvs Hdvs]].
  rewrite !errorsLogged_bind, ?bind_fst, Htr, Hdvs. cbn. apply IH.
Qed.

Lemma ServiceAccountToWorkloadRequests_quiet sa :
  errorsLogged (ServiceAccountToWorkloadRequests mapper sa).2 = [].
Proof.
  unfold ServiceAccountToWorkloadRequests, serviceAccountToSupplyChains.
  quiet_lists. rewrite indirectWorkloads_quiet.
  by destruct (indirectWorkloads _ _ _ _).1.
Qed.

Lemma ServiceAccountToDeliverableRequests_quiet sa :
  errorsLogged (ServiceAccountToDeliverableRequests mapper sa).2 = [].
Proof.
  unfold ServiceAccountToDeliverableRequests, serviceAccountToDeliveries.
  quiet_lists. by rewrite indirectDeliverables_quiet.
Qed.

Lemma ServiceAccountToRunnableRequests_quiet sa :
  errorsLogged (ServiceAccountToRunnableRequests mapper sa).2 = [].
Proof.
  unfold ServiceAccountToRunnableRequests.
  by rewrite errorsLogged_bind, Client_List_ok.
Qed.

Lemma binding_quiet (f : Object → M (list Request)) (subjects : list Subject)
    (failed : error → ServiceAccount → M (list Request)) :
  (∀ sa, errorsLogged (f sa).2 = []) →
  errorsLogged
    (match find (λ subject, bool_decide (isServiceAccount subject))
                subjects with
     | Some subject =>
       got ← Client_Get mapper (serviceAccountKey subject);
       match got with
       | inl (err, object) => failed err object
       | inr serviceAccountObject => f (ObjServiceAccount serviceAccountObject)
       end
     | None => (mret [] : M (list Request))
     end).2 = [].
Proof.
  intros Hf. destruct (find _ _) as [subject|]; [|done].
  rewrite errorsLogged_bind. unfold Client_Get.
  destruct (Hget (serviceAccountKey subject)) as [sa ->]. cbn [emit fst snd].
  by rewrite Hf.
Qed.

Lemma roleBinding_quiet f rb :
  fromRoleBinding f = true →
  errorsLogged (run f mapper (ObjRoleBinding rb)).2 = [].
Proof.
  intros Hf. destruct f; try discriminate Hf; cbn [run];
    unfold RoleBindingToWorkloadRequests, RoleBindingToDeliverableRequests,
      RoleBindingToRunnableRequests;
    apply binding_quiet;
    auto using ServiceAccountToWorkloadRequests_quiet,
      ServiceAccountToDeliverableRequests_quiet,
      ServiceAccountToRunnableRequests_quiet.
Qed.

Lemma clusterRoleBinding_quiet f crb :
  fromClusterRoleBinding f = true →
  errorsLogged (run f mapper (ObjClusterRoleBinding crb)).2 = [].
Proof.
  intros Hf. destruct f; try discriminate Hf; cbn [run];
    unfold ClusterRoleBindingToWorkloadRequests,
      ClusterRoleBindingToDeliverableRequests,
      ClusterRoleBindingToRunnableRequests;
    apply binding_quiet;
    auto using ServiceAccountToWorkloadRequests_quiet,
      ServiceAccountToDeliverableRequests_quiet,
      ServiceAccountToRunnableRequests_quiet.
Qed.

Lemma appendEach_if_quiet {A B} (test : A → bool) (f : A → M (list B))
    (xs : list A) :
  (∀ x, errorsLogged (f x).2 = []) →
  errorsLogged (appendEach (λ x, if test x then f x else mret []) xs).2 = [].
Proof.
  intros Hf. apply errorsLogged_appendEach. intros x.
  by destruct (test x).
Qed.

Lemma run_quiet f obj :
  (∀ t, asserted f = Some t → GoTypeOf obj = t) →
  errorsLogged (run f mapper obj).2 = [].
Proof.
  intros Ht.
  destruct f; cbn [run].
  - unfold TemplateToDeliverableRequests.
    rewrite errorsLogged_bind, templateToDeliveries_quiet.
    apply errorsLogged_appendEach, ClusterDeliveryToDeliverableRequests_quiet.
  - unfold TemplateToWorkloadRequests.
    rewrite errorsLogged_bind, templateToSupplyChains_quiet.
    apply errorsLogged_appendEach, ClusterSupplyChainToWorkloadRequests_quiet.
  - specialize (Ht _ eq_refl). destruct obj; try discriminate Ht.
    apply ClusterSupplyChainToWorkloadRequests_quiet.
  - specialize (Ht _ eq_refl). destruct obj; try discriminate Ht.
    apply ClusterDeliveryToDeliverableRequests_quiet.
  - specialize (Ht _ eq_refl). destruct obj; try discriminate Ht.
    unfold RunTemplateToRunnableRequests.
    by rewrite errorsLogged_bind, Client_List_ok.
  - unfold TemplateToSupplyChainRequests.
    by rewrite errorsLogged_bind, templateToSupplyChains_quiet.
  - unfold TemplateToDeliveryRequests.
    by rewrite errorsLogged_bind, templateToDeliveries_quiet.
  - apply ServiceAccountToWorkloadRequests_quiet.
  - specialize (Ht _ eq_refl). destruct obj; try discriminate Ht.
    by apply (roleBinding_quiet FRoleBindingToWorkloadRequests).
  - specialize (Ht _ eq_refl). destruct obj; try discriminate Ht.
    by apply (clusterRoleBinding_quiet FClusterRoleBindingToWorkloadRequests).
  - specialize (Ht _ eq_refl). destruct obj; try discriminate Ht.
    unfold RoleToWorkloadRequests.
    quiet_lists. apply appendEach_if_quiet. intros rb.
    by apply (roleBinding_quiet FRoleBindingToWorkloadRequests).
  - specialize (Ht _ eq_refl). destruct obj; try discriminate Ht.
    unfold ClusterRoleToWorkloadRequests.
    quiet_lists.
    rewrite !appendEach_if_quiet; [done| |]; intros b.
    + by apply (roleBinding_quiet FRoleBindingToWorkloadRequests).
    + by apply (clusterRoleBinding_quiet FClusterRoleBindingToWorkloadRequests).
  - apply ServiceAccountToDeliverableRequests_quiet.
  - specialize (Ht _ eq_refl). destruct obj; try discriminate Ht.
    by apply (roleBinding_quiet FRoleBindingToDeliverableRequests).
  - specialize (Ht _ eq_refl). destruct obj; try discriminate Ht.
    by apply
         (clusterRoleBinding_quiet FClusterRoleBindingToDeliverableRequests).
  - specialize (Ht _ eq_refl). destruct obj; try discriminate Ht.
    unfold RoleToDeliverableRequests.
    quiet_lists. apply appendEach_if_quiet. intros rb.
    by apply (roleBinding_quiet FRoleBindingToDeliverableRequests).
  - specialize (Ht _ eq_refl). destruct obj; try discriminate Ht.
    unfold ClusterRoleToDeliverableRequests.
    quiet_lists.
    rewrite !appendEach_if_quiet; [done| |]; intros b.
    + by apply (roleBinding_quiet FRoleBindingToDeliverableRequests).
    + by apply
           (clusterRoleBinding_quiet FClusterRoleBindingToDeliverableRequests).
  - apply ServiceAccountToRunnableRequests_quiet.
  - specialize (Ht _ eq_refl). destruct obj; try discriminate Ht.
    by apply (roleBinding_quiet FRoleBindingToRunnableRequests).
  - specialize (Ht _ eq_refl). destruct obj; try discriminate Ht.
    by apply (clusterRoleBinding_quiet FClusterRoleBindingToRunnableRequests).
  - specialize (Ht _ eq_refl). destruct obj; try discriminate Ht.
    unfold RoleToRunnableRequests.
    quiet_lists. apply appendEach_if_quiet. intros rb.
    by apply (roleBinding_quiet FRoleBindingToRunnableRequests).
  - specialize (Ht _ eq_refl). destruct obj; try discriminate Ht.
    unfold ClusterRoleToRunnableRequests.
    quiet_lists.
    rewrite !appendEach_if_quiet; [done| |]; intros b.
    + by apply (roleBinding_quiet FRoleBindingToRunnableRequests).
    + by apply (clusterRoleBinding_quiet FClusterRoleBindingToRunnableRequests).
Qed.
End Quiet.

(** X29: when no [List] and no [Get] fails, the scheme knows one versioned
    kind for every type and the argument has the type the function asserts,
    no mapper function logs an error. *)
Theorem no_failure_no_error_logged (f : MapperFunction) (mapper : Client)
    (obj : Object) :
  (∀ kind opts, ListError mapper kind opts = None) →
  (∀ key, ∃ sa, GetServiceAccount mapper key = inr sa) →
  (∀ t, ∃ gvk, Scheme_ObjectKinds mapper t = inr ([gvk], false)) →
  (∀ t, asserted f = Some t → GoTypeOf obj = t) →
  errorsLogged (run f mapper obj).2 = [].
Proof. intros Hlist Hget Hscheme Ht. by apply run_quiet. Qed.
End MapperFurther.

(** ** The mapper on the example cluster with deliveries *)

Section MapperFurtherExamples.
Import registrar.

Lemma wrong_type_is_logged_witness :
  let mapper := fake_Client noListError [] [] in
  (@run specMatcher FRoleToWorkloadRequests mapper builder).1 = []
  ∧ ∃ msg, (@run specMatcher FRoleToWorkloadRequests mapper builder).2
           = [LoggerError None msg].
Proof.
  apply (@wrong_type_is_logged specMatcher FRoleToWorkloadRequests
           (fake_Client noListError [] []) builder TRole eq_refl).
  discriminate.
Defined.

Lemma runnables_of_run_template_witness :
  let mapper := fake_Client noListError [] [] in
  {| Request_Name := "r1"; Request_Namespace := "ops" |}
    ∈ (@RunTemplateToRunnableRequests mapper
         (ObjClusterRunTemplate fake_RunTemplate)).1.
Proof.
  intros mapper.
  apply (proj2 (runnables_of_run_template mapper
                  fake_RunTemplate eq_refl _)).
  exists (fake_Runnable "r1" "ops" "builder").
  split; [left|]. split; [reflexivity|]. split; [reflexivity|by left].
Defined.

Lemma runnables_of_service_account_witness :
  let mapper := fake_Client noListError [] [] in
  {| Request_Name := "r1"; Request_Namespace := "ops" |}
    ∈ (@ServiceAccountToRunnableRequests mapper builder).1.
Proof.
  intros mapper.
  apply (proj2 (runnables_of_service_account mapper builder
                  eq_refl _)).
  exists (fake_Runnable "r1" "ops" "builder").
  split; [left|]. done.
Defined.

Lemma delivery_enqueues_best_matched_witness :
  let mapper := fake_Cluster noListError everyServiceAccount [] [] in
  {| Request_Name := "a"; Request_Namespace := "dev" |}
    ∈ (@ClusterDeliveryToDeliverableRequests specMatcher mapper
         (ObjClusterDelivery webDelivery)).1.
Proof.
  intros mapper.
  apply (proj2 (@delivery_enqueues_best_matched specMatcher mapper
                  webDelivery deliveryGVK eq_refl eq_refl eq_refl _)).
  exists (fake_Deliverable "a" "dev" web ""). split; [left|].
  split; [reflexivity|]. split; [by left|]. split.
  - compute_done.
  - apply list_elem_of_In. vm_compute. left. reflexivity.
Defined.

Lemma deliverables_of_service_account_witness :
  let mapper := fake_Cluster (selectedListFails webProd) everyServiceAccount
                  [] [] in
  {| Request_Name := "c"; Request_Namespace := "ops" |}
    ∈ (@ServiceAccountToDeliverableRequests specMatcher mapper builder).1.
Proof.
  intros mapper.
  apply (proj2 (@deliverables_of_service_account specMatcher mapper
                  builder eq_refl _)).
  right. exists deliveryGVK, webDelivery, (fake_Deliverable "c" "ops" web "").
  split; [reflexivity|]. split; [reflexivity|]. split; [left|].
  split; [reflexivity|]. split; [reflexivity|]. split.
  - split; [right; right; left|]. split; [compute_done|].
    apply list_elem_of_In. vm_compute. left. reflexivity.
  - split; [reflexivity|]. split; [by left|reflexivity].
Defined.

Lemma workload_lookup_failure_drops_all_witness :
  let mapper := fake_Cluster (selectedListFails web) everyServiceAccount
                  [] [] in
  (@ServiceAccountToWorkloadRequests specMatcher mapper builder).1 = [].
Proof.
  intros mapper.
  apply (@workload_lookup_failure_drops_all specMatcher mapper builder
           webChain (errorString "timeout") eq_refl).
  - left.
  - reflexivity.
  - reflexivity.
Defined.

Lemma supply_chain_list_failure_keeps_direct_witness :
  let mapper :=
    fake_Cluster (λ kind _, match kind with
                            | KClusterSupplyChain =>
                              Some (errorString "timeout")
                            | _ => None
                            end) everyServiceAccount [] [] in
  {| Request_Name := "b"; Request_Namespace := "ops" |}
    ∈ (@ServiceAccountToWorkloadRequests specMatcher mapper builder).1.
Proof.
  intros mapper.
  apply (proj2 (@supply_chain_list_failure_keeps_direct specMatcher mapper
                  builder (errorString "timeout") eq_refl eq_refl _)).
  exists (fake_Workload "b" "ops" webProd "builder").
  split; [right; left|]. done.
Defined.

Lemma role_binding_get_failure_uses_empty_account_witness :
  let mapper := fake_Cluster noListError noServiceAccount [] [] in
  {| Request_Name := "d"; Request_Namespace := "dev" |}
    ∈ (@RoleBindingToWorkloadRequests specMatcher mapper
         (ObjRoleBinding
            (fake_RoleBinding "rb-gone" (fake_Subject "gone" "ops")))).1.
Proof.
  intros mapper.
  apply (proj2 (@role_binding_get_failure_uses_empty_account specMatcher
                  mapper
                  (fake_RoleBinding "rb-gone" (fake_Subject "gone" "ops"))
                  (fake_Subject "gone" "ops")
                  (StatusError StatusReasonNotFound
                     "serviceaccounts gone not found")
                  supplyChainGVK eq_refl eq_refl eq_refl
                  (λ kind opts, eq_refl) _)).
  right.
  exists (fake_SupplyChain "web-prod" webProd
            {| SARef_Name := ""; SARef_Namespace := "" |}),
         (fake_Workload "d" "dev" webProd "").
  split; [right; left|]. split; [reflexivity|]. split; [|done].
  split; [do 3 right; left|]. split; [compute_done|].
  apply list_elem_of_In. vm_compute. left. reflexivity.
Defined.

Lemma role_enqueues_through_bindings_witness :
  let mapper :=
    fake_Cluster noListError everyServiceAccount
      [ fake_RoleBinding "rb-builder" (fake_Subject "builder" "ops") ] [] in
  {| Request_Name := "r1"; Request_Namespace := "ops" |}
    ∈ (@run specMatcher FRoleToRunnableRequests mapper (ObjRole fake_Role)).1.
Proof.
  intros mapper.
  apply (proj2 (@role_enqueues_through_bindings specMatcher
                  FRoleToRunnableRequests FRoleBindingToRunnableRequests
                  mapper fake_Role eq_refl eq_refl eq_refl _)).
  exists (fake_RoleBinding "rb-builder" (fake_Subject "builder" "ops")).
  split; [left|]. do 4 (split; [reflexivity|]).
  apply list_elem_of_In. vm_compute. left. reflexivity.
Defined.

Lemma cluster_role_enqueues_through_bindings_witness :
  let mapper :=
    fake_Cluster noListError everyServiceAccount []
      [ fake_ClusterRoleBinding "crb-builder"
          (fake_Subject "builder" "ops") ] in
  {| Request_Name := "r1"; Request_Namespace := "ops" |}
    ∈ (@run specMatcher FClusterRoleToRunnableRequests mapper
         (ObjClusterRole fake_ClusterRole)).1.
Proof.
  intros mapper.
  apply (proj2 (@cluster_role_enqueues_through_bindings specMatcher
                  FClusterRoleToRunnableRequests
                  FRoleBindingToRunnableRequests
                  FClusterRoleBindingToRunnableRequests
                  mapper fake_ClusterRole eq_refl eq_refl eq_refl eq_refl _)).
  left.
  exists (fake_ClusterRoleBinding "crb-builder"
            (fake_Subject "builder" "ops")).
  split; [left|]. do 3 (split; [reflexivity|]).
  apply list_elem_of_In. vm_compute. left. reflexivity.
Defined.

Lemma cluster_role_needs_role_bindings_witness :
  let mapper :=
    fake_Cluster (λ kind _, match kind with
                            | KRoleBinding => Some (errorString "timeout")
                            | _ => None
                            end) everyServiceAccount []
      [ fake_ClusterRoleBinding "crb-builder"
          (fake_Subject "builder" "ops") ] in
  (@run specMatcher FClusterRoleToRunnableRequests mapper
     (ObjClusterRole fake_ClusterRole)).1 = [].
Proof.
  intros mapper.
  exact (@cluster_role_needs_role_bindings specMatcher
           FClusterRoleToRunnableRequests mapper
           (ObjClusterRole fake_ClusterRole) (errorString "timeout")
           eq_refl eq_refl).
Defined.

Lemma binding_uses_first_service_account_witness :
  let mapper := fake_Cluster noListError everyServiceAccount [] [] in
  let both :=
    {| rb_TypeMeta := noTypeMeta;
       rb_ObjectMeta := {| Name := "rb-two"; Namespace := "dev"; Labels := ∅ |};
       rb_Subjects := [ {| Subject_Kind := "User";
                           Subject_APIGroup := "rbac.authorization.k8s.io";
                           Subject_Name := "alice"; Subject_Namespace := "" |};
                        fake_Subject "builder" "ops";
                        fake_Subject "deployer" "dev" ];
       rb_RoleRef := {| RoleRef_APIGroup := ""; RoleRef_Kind := "ClusterRole";
                        RoleRef_Name := "viewer" |} |} in
  @run specMatcher FRoleBindingToWorkloadRequests mapper (ObjRoleBinding both)
  = @run specMatcher FRoleBindingToWorkloadRequests mapper
      (ObjRoleBinding
         (fake_RoleBinding "rb-builder" (fake_Subject "builder" "ops"))).
Proof.
  intros mapper both.
  exact (@binding_uses_first_service_account specMatcher
           FRoleBindingToWorkloadRequests mapper (ObjRoleBinding both)
           (ObjRoleBinding
              (fake_RoleBinding "rb-builder" (fake_Subject "builder" "ops")))
           (or_introl eq_refl) eq_refl eq_refl).
Defined.

Lemma template_enqueues_once_per_reference_witness :
  let mapper := fake_Cluster noListError everyServiceAccount [] [] in
  (@TemplateToDeliveryRequests mapper fake_Template).1
  = [ {| Request_Name := "web"; Request_Namespace := "" |};
      {| Request_Name := "web"; Request_Namespace := "" |};
      {| Request_Name := "web-prod"; Request_Namespace := "" |};
      {| Request_Name := "web-prod"; Request_Namespace := "" |} ].
Proof.
  intros mapper.
  rewrite (proj2 (template_enqueues_once_per_reference mapper fake_Template
                    {| Group := "carto.run"; Version := "v1alpha1";
                       GVK_Kind := "ClusterSourceTemplate" |} eq_refl)
                 eq_refl).
  vm_compute. reflexivity.
Defined.

Lemma template_enqueues_through_blueprints_witness :
  let mapper := fake_Cluster noListError everyServiceAccount [] [] in
  {| Request_Name := "a"; Request_Namespace := "dev" |}
    ∈ (@TemplateToWorkloadRequests specMatcher mapper fake_Template).1.
Proof.
  intros mapper.
  apply (proj2 (proj1 (@template_enqueues_through_blueprints specMatcher
                         mapper fake_Template
                         {| Group := "carto.run"; Version := "v1alpha1";
                            GVK_Kind := "ClusterSourceTemplate" |} eq_refl)
                      eq_refl _)).
  exists webChain,
         {| Resource_Name := "source-provider";
            TemplateRef := {| Ref_Kind := "ClusterSourceTemplate";
                              Ref_Name := "git-repository" |} |}.
  split; [left|]. split; [left|]. split; [reflexivity|].
  split; [reflexivity|].
  apply list_elem_of_In. vm_compute. left. reflexivity.
Defined.

Lemma addGVK_sets_only_the_kind_witness :
  let mapper := fake_Cluster noListError everyServiceAccount [] [] in
  let obj' := SetGroupVersionKind builder
                {| Group := ""; Version := "v1";
                   GVK_Kind := "ServiceAccount" |} in
  GetObjectMeta obj' = GetObjectMeta builder
  ∧ GoTypeOf obj' = GoTypeOf builder
  ∧ (∃ gvk, Scheme_ObjectKinds mapper (GoTypeOf builder) = inr ([gvk], false)
            ∧ GetTypeMeta obj' = TypeMeta_of gvk)
  ∧ addGVK mapper obj' = inr obj'.
Proof.
  intros mapper obj'.
  exact (addGVK_sets_only_the_kind mapper builder obj' eq_refl).
Defined.

Lemma no_failure_no_error_logged_witness :
  let mapper :=
    fake_Cluster noListError everyServiceAccount
      [ fake_RoleBinding "rb-builder" (fake_Subject "builder" "ops") ]
      [ fake_ClusterRoleBinding "crb-builder"
          (fake_Subject "builder" "ops") ] in
  errorsLogged (@run specMatcher FClusterRoleToWorkloadRequests mapper
                  (ObjClusterRole fake_ClusterRole)).2 = [].
Proof.
  intros mapper.
  apply (@no_failure_no_error_logged specMatcher
           FClusterRoleToWorkloadRequests mapper
           (ObjClusterRole fake_ClusterRole)).
  - intros kind opts. reflexivity.
  - intros key. eexists. reflexivity.
  - intros t. destruct t; eexists; reflexivity.
  - intros t [= <-]. reflexivity.
Defined.
End MapperFurtherExamples.
